(** * cjapy: the report decoder and the multi-level breakdown of [cjapy.py]

    A shallow embedding of the report pipeline of the [CJA] class
    ([_prepareData], [_decrypteStaticData], [getReport],
    [getMultidimensionalReport]) together with the properties the
    specification states about it, and of the component endpoints of the
    class (module [Endpoints]) with properties read off their code.

    Python values are modelled by the type [value]; a Python [dict] is an
    association list that keeps insertion order (the order of a decoded
    table is the order of its rows in the resulting data frame), a raised
    exception is the [Raise] outcome of [res]. *)

From Stdlib Require Import String Ascii List ZArith Bool Arith Lia.
From Stdlib Require Import Permutation.
From Stdlib Require Import DecimalString.
Import ListNotations.

Local Open Scope string_scope.
Local Open Scope list_scope.
Set Warnings "-register-all".

(** ** Python values *)

Module Py.

(** What [json.load] and the HTTP connector hand to the program, and what
    the program builds from it.  Numbers are integers: the pipeline moves
    metric values around and never computes with them. *)
Inductive value : Type :=
| VNone
| VBool (b : bool)
| VInt (z : Z)
| VStr (s : string)
| VList (l : list value)
| VDict (d : list (value * value)).

Inductive exn : Type :=
| ValueError (msg : string)
| KeyError (k : value)
| TypeError
| IndexError
| AttributeError
| ZeroDivisionError
| UnboundLocalError (name : string)
| FileNotFoundError
| ConnectorError (payload : value)
| OutsideModel (what : string).

(** [OutsideModel] is not a Python exception: it marks the few places
    where Python goes on and the embedding does not follow (printing a list
    or a dict with [str], parsing a float literal). No property below is
    stated about an [OutsideModel] outcome. *)

(** Outcome of running a piece of code: a value or a raised exception. *)
Inductive res (A : Type) : Type :=
| Ok (a : A)
| Raise (e : exn).

Arguments Ok {A} a.
Arguments Raise {A} e.

Definition bind {A B} (m : res A) (k : A -> res B) : res B :=
  match m with
  | Ok a => k a
  | Raise e => Raise e
  end.

Declare Scope py_scope.
Delimit Scope py_scope with py.
Notation "x <- m ;; k" := (bind m (fun x => k))
  (at level 61, m at next level, right associativity) : py_scope.
Notation "' pat <- m ;; k" :=
  (bind m (fun x => match x with pat => k end))
  (at level 61, pat pattern, m at next level, right associativity) : py_scope.
Local Open Scope py_scope.

(** [for x in xs: acc = body(acc, x)], stopping at the first exception. *)
Fixpoint foldM {A B} (body : A -> B -> res A) (acc : A) (xs : list B)
  : res A :=
  match xs with
  | [] => Ok acc
  | x :: xs' => acc' <- body acc x ;; foldM body acc' xs'
  end.

(** *** Equality and hashing *)

Definition hashable (v : value) : bool :=
  match v with
  | VList _ | VDict _ => false
  | _ => true
  end.

(** [bool] is a subclass of [int]: [True == 1] and [False == 0]. *)
Definition as_int (v : value) : option Z :=
  match v with
  | VBool true => Some 1%Z
  | VBool false => Some 0%Z
  | VInt z => Some z
  | _ => None
  end.

(** [a == b] where at least one side is a scalar.  A list or a dict never
    equals a scalar. *)
Definition py_eqb (a b : value) : bool :=
  match a, b with
  | VNone, VNone => true
  | VStr s, VStr t => String.eqb s t
  | _, _ =>
      match as_int a, as_int b with
      | Some x, Some y => Z.eqb x y
      | _, _ => false
      end
  end.

(** *** Dictionaries *)

Definition pydict := list (value * value).

Fixpoint dict_get (d : pydict) (k : value) : option value :=
  match d with
  | [] => None
  | (k', v) :: d' => if py_eqb k' k then Some v else dict_get d' k
  end.

(** [d[k] = v]: an existing key keeps its position and its key object,
    a new key goes to the end. *)
Fixpoint dict_set (d : pydict) (k v : value) : pydict :=
  match d with
  | [] => [(k, v)]
  | (k', v') :: d' =>
      if py_eqb k' k then (k', v) :: d' else (k', v') :: dict_set d' k v
  end.

Definition dict_keys (d : pydict) : list value := map fst d.

Definition dict_has (d : pydict) (k : value) : bool :=
  match dict_get d k with Some _ => true | None => false end.

(** *** Lists and strings *)

Fixpoint chars (s : string) : list value :=
  match s with
  | EmptyString => []
  | String c s' => VStr (String c EmptyString) :: chars s'
  end.

(** Python index normalisation: a negative index counts from the end. *)
Definition norm_index (len : nat) (i : Z) : option nat :=
  let n := Z.of_nat len in
  if (0 <=? i)%Z && (i <? n)%Z then Some (Z.to_nat i)
  else if (i <? 0)%Z && (0 <=? i + n)%Z then Some (Z.to_nat (i + n))
  else None.

(** [o[k]] *)
Definition subscript (o k : value) : res value :=
  match o with
  | VDict d =>
      if hashable k then
        match dict_get d k with
        | Some v => Ok v
        | None => Raise (KeyError k)
        end
      else Raise TypeError
  | VList l =>
      match as_int k with
      | Some i =>
          match norm_index (length l) i with
          | Some n => match nth_error l n with
                      | Some v => Ok v
                      | None => Raise IndexError
                      end
          | None => Raise IndexError
          end
      | None => Raise TypeError
      end
  | VStr s =>
      match as_int k with
      | Some i =>
          match norm_index (String.length s) i with
          | Some n => match nth_error (chars s) n with
                      | Some v => Ok v
                      | None => Raise IndexError
                      end
          | None => Raise IndexError
          end
      | None => Raise TypeError
      end
  | _ => Raise TypeError
  end.

Fixpoint list_set (l : list value) (n : nat) (v : value) : list value :=
  match l, n with
  | [], _ => []
  | _ :: l', O => v :: l'
  | x :: l', S n' => x :: list_set l' n' v
  end.

(** [o[k] = v], returning the updated object. *)
Definition store_subscript (o k v : value) : res value :=
  match o with
  | VDict d =>
      if hashable k then Ok (VDict (dict_set d k v)) else Raise TypeError
  | VList l =>
      match as_int k with
      | Some i =>
          match norm_index (length l) i with
          | Some n => Ok (VList (list_set l n v))
          | None => Raise IndexError
          end
      | None => Raise TypeError
      end
  | _ => Raise TypeError
  end.

(** [o.get(k, default)]: only a dict has the method. *)
Definition py_get (o k default : value) : res value :=
  match o with
  | VDict d =>
      if hashable k then
        Ok match dict_get d k with Some v => v | None => default end
      else Raise TypeError
  | _ => Raise AttributeError
  end.

(** [o.keys()] *)
Definition py_keys (o : value) : res (list value) :=
  match o with
  | VDict d => Ok (dict_keys d)
  | _ => Raise AttributeError
  end.

(** [iter(o)]: the items a [for] loop, [zip] or [list.extend] sees. *)
Definition py_iter (o : value) : res (list value) :=
  match o with
  | VList l => Ok l
  | VDict d => Ok (dict_keys d)
  | VStr s => Ok (chars s)
  | _ => Raise TypeError
  end.

(** [len(o)] *)
Definition py_len (o : value) : res nat :=
  match o with
  | VList l => Ok (length l)
  | VDict d => Ok (length d)
  | VStr s => Ok (String.length s)
  | _ => Raise TypeError
  end.

(** [k in xs] for a list [xs] of scalars *)
Definition list_contains (xs : list value) (k : value) : bool :=
  existsb (fun x => py_eqb x k) xs.

(** [sub in s] for strings *)
Definition str_contains (sub s : string) : bool :=
  match String.index 0 sub s with
  | Some _ => true
  | None => false
  end.

(** [s.startswith(p)] *)
Definition startswith (p s : string) : bool := String.prefix p s.

(** [str(v)], as an f-string prints [v]. *)
Definition py_format (v : value) : res string :=
  match v with
  | VNone => Ok "None"
  | VBool true => Ok "True"
  | VBool false => Ok "False"
  | VInt z => Ok (NilZero.string_of_int (Z.to_int z))
  | VStr s => Ok s
  | VList _ | VDict _ => Raise (OutsideModel "str of a container")
  end.

(** [a += b] on the value bound to [a]: a list is extended with the items
    of any iterable, strings are concatenated, integers added. *)
Definition py_iadd (a b : value) : res value :=
  match a with
  | VList l => xs <- py_iter b ;; Ok (VList (l ++ xs))
  | VStr s => match b with
              | VStr t => Ok (VStr (s ++ t))
              | _ => Raise TypeError
              end
  | _ => match as_int a, as_int b with
         | Some x, Some y => Ok (VInt (x + y))
         | _, _ => Raise TypeError
         end
  end.

(** An extended number: what [float(...)] yields on a count. *)
Inductive extnum : Type :=
| Fin (z : Z)
| PlusInf.

(** [float(v)] for the counts the program converts: an integer or the
    string "inf". *)
Definition py_float (v : value) : res extnum :=
  match v with
  | VStr s =>
      if String.eqb s "inf" then Ok PlusInf
      else Raise (OutsideModel "float of a string literal")
  | _ => match as_int v with
         | Some z => Ok (Fin z)
         | None => Raise TypeError
         end
  end.

(** [float(n) >= x] for a length [n] *)
Definition len_reaches (n : nat) (x : extnum) : bool :=
  match x with
  | Fin z => (z <=? Z.of_nat n)%Z
  | PlusInf => false
  end.

(** [x > float(k)] *)
Definition ext_gtb (x : extnum) (k : Z) : bool :=
  match x with
  | Fin z => (k <? z)%Z
  | PlusInf => true
  end.

(** [s.split(sep)[0]]: the part of [s] before the first [sep]. *)
Definition split_head (sep s : string) : string :=
  match String.index 0 sep s with
  | Some n => String.substring 0 n s
  | None => s
  end.

(** Truth value of an optional flag: [None] is false. *)
Definition truthy (b : option bool) : bool :=
  match b with Some true => true | _ => false end.

End Py.

Import Py.
Local Open Scope py_scope.

(** ** The connector, the store and the effects of a call

    [connector.postData] and [connector.getData] reach a remote service;
    the service is a state machine of an arbitrary state type [S].  The
    dictionaries a caller hands over live in a store and are named by
    their location, so that two names of one dictionary see each other's
    writes. *)

Module World.

Definition loc := nat.

Inductive call : Type :=
| Post (url : string) (data params : value)
| Get (url : string) (params : value).

(** A request and what the connector answered. *)
Record exchange : Type := mkExchange {
  sent : call;
  reply : res value
}.

Record world (S : Type) : Type := mkWorld {
  heap : list value;      (* the objects allocated so far *)
  srv : S;                (* the remote service *)
  calls : list exchange   (* every request sent, oldest first *)
}.

Arguments mkWorld {S} heap srv calls.
Arguments heap {S} w.
Arguments srv {S} w.
Arguments calls {S} w.

(** A computation: it may run out of fuel ([None]), return or raise, and
    it leaves a world behind in both cases. *)
Definition M (S A : Type) : Type := world S -> option (res A * world S).

Definition ret {S A} (a : A) : M S A := fun w => Some (Ok a, w).

Definition raise {S A} (e : exn) : M S A := fun w => Some (Raise e, w).

Definition lift {S A} (r : res A) : M S A := fun w => Some (r, w).

Definition bindM {S A B} (m : M S A) (k : A -> M S B) : M S B :=
  fun w =>
    match m w with
    | Some (Ok a, w') => k a w'
    | Some (Raise e, w') => Some (Raise e, w')
    | None => None
    end.

Declare Scope m_scope.
Delimit Scope m_scope with m.
Notation "x <- m ;; k" := (bindM m (fun x => k))
  (at level 61, m at next level, right associativity) : m_scope.
Notation "' pat <- m ;; k" :=
  (bindM m (fun x => match x with pat => k end))
  (at level 61, pat pattern, m at next level, right associativity) : m_scope.

(** [for x in xs: acc = body(acc, x)] with effects. *)
Fixpoint forM {S A B} (body : A -> B -> M S A) (acc : A) (xs : list B)
  : M S A :=
  match xs with
  | [] => ret acc
  | x :: xs' => bindM (body acc x) (fun acc' => forM body acc' xs')
  end.

(** The object a reference names. *)
Definition load {S} (l : loc) : M S value :=
  fun w =>
    match nth_error (heap w) l with
    | Some v => Some (Ok v, w)
    | None => Some (Raise (OutsideModel "dangling reference"), w)
    end.

Fixpoint heap_set (h : list value) (l : loc) (v : value) : list value :=
  match h, l with
  | [], _ => []
  | _ :: h', O => v :: h'
  | x :: h', S l' => x :: heap_set h' l' v
  end.

(** In-place update of the object a reference names. *)
Definition store {S} (l : loc) (v : value) : M S unit :=
  fun w => Some (Ok tt, mkWorld (heap_set (heap w) l v) (srv w) (calls w)).

(** A new object. *)
Definition alloc {S} (v : value) : M S loc :=
  fun w =>
    Some (Ok (length (heap w)), mkWorld (heap w ++ [v]) (srv w) (calls w)).

End World.

(** ** The request builder *)

Module RequestCreator.

(** Modelled from the spec: the class [RequestCreator] of
    [requestCreator.py], which is not among the sources.  The
    specification describes the document it builds: a dimension, an
    ordered list of metric ids, a mapping from metric id to the ordered
    list of filter ids chained onto it, an ordered list of global filters,
    a data view id and the settings. *)
Record t : Type := mk {
  dimension : string;
  metrics : list string;
  metricFilters : list (string * list string);
  globalFilters : list string;
  dataViewId : string;
  limit : value;
  repeatInstance : bool;
  noneBehavior : bool
}.

(** Modelled from the spec: [RequestCreator()] and the setters, which
    are not among the sources. *)
Definition new : t :=
  mk "" [] [] [] "" (VInt 20000) true false.

Definition setDataViewId (dv : string) (r : t) : t :=
  mk (dimension r) (metrics r) (metricFilters r) (globalFilters r) dv
     (limit r) (repeatInstance r) (noneBehavior r).

Definition setDimension (d : string) (r : t) : t :=
  mk d (metrics r) (metricFilters r) (globalFilters r) (dataViewId r)
     (limit r) (repeatInstance r) (noneBehavior r).

Definition setLimit (n : value) (r : t) : t :=
  mk (dimension r) (metrics r) (metricFilters r) (globalFilters r)
     (dataViewId r) n (repeatInstance r) (noneBehavior r).

Definition setRepeatInstance (b : bool) (r : t) : t :=
  mk (dimension r) (metrics r) (metricFilters r) (globalFilters r)
     (dataViewId r) (limit r) b (noneBehavior r).

Definition setNoneBehavior (b : bool) (r : t) : t :=
  mk (dimension r) (metrics r) (metricFilters r) (globalFilters r)
     (dataViewId r) (limit r) (repeatInstance r) b.

Definition addGlobalFilter (f : string) (r : t) : t :=
  mk (dimension r) (metrics r) (metricFilters r) (globalFilters r ++ [f])
     (dataViewId r) (limit r) (repeatInstance r) (noneBehavior r).

Definition addMetric (m : string) (r : t) : t :=
  mk (dimension r) (metrics r ++ [m]) (metricFilters r) (globalFilters r)
     (dataViewId r) (limit r) (repeatInstance r) (noneBehavior r).

(** Modelled from the spec: [addMetricFilter], which is not among the
    sources; every mutation of the builder is an append.  The filter id
    goes to the end of the list of the metric; a metric without a list
    gets one. *)
Fixpoint chain (mf : list (string * list string)) (m f : string)
  : list (string * list string) :=
  match mf with
  | [] => [(m, [f])]
  | (m', fs) :: mf' =>
      if String.eqb m' m then (m', fs ++ [f]) :: mf'
      else (m', fs) :: chain mf' m f
  end.

Definition addMetricFilter (metricId filterId : string) (r : t) : t :=
  mk (dimension r) (metrics r) (chain (metricFilters r) metricId filterId)
     (globalFilters r) (dataViewId r) (limit r) (repeatInstance r)
     (noneBehavior r).

(** Modelled from the spec: [removeMetricFilter], which is not among the
    sources; it removes the filter id from the list of every metric it
    appears in and does nothing when it is absent. *)
Definition unchain (mf : list (string * list string)) (f : string)
  : list (string * list string) :=
  map (fun e => (fst e, filter (fun g => negb (String.eqb g f)) (snd e))) mf.

Definition removeMetricFilter (filterId : string) (r : t) : t :=
  mk (dimension r) (metrics r) (unchain (metricFilters r) filterId)
     (globalFilters r) (dataViewId r) (limit r) (repeatInstance r)
     (noneBehavior r).

(** Modelled from the spec: [to_dict], which is not among the sources; a
    structural snapshot of the document. *)
Definition to_dict (r : t) : t := r.

(** The filters chained onto a metric. *)
Fixpoint filters_of (mf : list (string * list string)) (m : string)
  : list string :=
  match mf with
  | [] => []
  | (m', fs) :: mf' => if String.eqb m' m then fs else filters_of mf' m
  end.

End RequestCreator.

(** ** Data frames

    What the traversal uses of [pandas]: a frame is a list of column
    labels and a list of rows. *)

Module Pandas.

Record DataFrame : Type := mkFrame {
  columns : list string;
  rows : list (list value)
}.

(** [pd.DataFrame()] *)
Definition empty_frame : DataFrame := mkFrame [] [].

(** [df.empty]: one of the two axes has length 0. *)
Definition empty (df : DataFrame) : bool :=
  match columns df, rows df with
  | [], _ | _, [] => true
  | _, _ => false
  end.

Fixpoint index_of (name : string) (cols : list string) : option nat :=
  match cols with
  | [] => None
  | c :: cols' =>
      if String.eqb c name then Some 0
      else option_map Datatypes.S (index_of name cols')
  end.

(** A missing cell reads as [NaN], written [VNone] here. *)
Definition cell (row : list value) (i : nat) : value := nth i row VNone.

(** [list(df[name])] *)
Definition column (df : DataFrame) (name : string) : res (list value) :=
  match index_of name (columns df) with
  | Some i => Ok (map (fun row => cell row i) (rows df))
  | None => Raise (KeyError (VStr name))
  end.

(** [list(df.iloc[:, i])] *)
Definition iloc_column (df : DataFrame) (i : nat) : res (list value) :=
  if (i <? length (columns df))%nat
  then Ok (map (fun row => cell row i) (rows df))
  else Raise IndexError.

(** [list(df.columns[-n:])]: with [n = 0] the slice is the whole list. *)
Definition last_columns (n : nat) (cols : list string) : list string :=
  match n with
  | O => cols
  | _ => skipn (length cols - n) cols
  end.

(** Lookup in the dictionary [{old: new for old, new in pairs}]: the last
    pair of a label wins. *)
Fixpoint renamed (pairs : list (string * string)) (c : string) : string :=
  match pairs with
  | [] => c
  | (old, new) :: pairs' =>
      let c' := renamed pairs' c in
      if String.eqb old c
      then (if existsb (fun p => String.eqb (fst p) c) pairs'
            then c' else new)
      else c'
  end.

(** [df.rename(columns=..., inplace=True)] *)
Definition rename (pairs : list (string * string)) (df : DataFrame)
  : DataFrame :=
  mkFrame (map (renamed pairs) (columns df)) (rows df).

Fixpoint set_cells (cols : list string) (name : string) (v : value)
  (row : list value) : list value :=
  match cols with
  | [] => []
  | c :: cols' =>
      (if String.eqb c name then v else cell row 0)
        :: set_cells cols' name v (tl row)
  end.

(** [df[name] = v] for a scalar [v]: an existing column is overwritten, a
    new one goes to the end. *)
Definition set_column (name : string) (v : value) (df : DataFrame)
  : DataFrame :=
  match index_of name (columns df) with
  | Some _ =>
      mkFrame (columns df) (map (set_cells (columns df) name v) (rows df))
  | None =>
      mkFrame (columns df ++ [name])
              (map (fun row => map (cell row) (seq 0 (length (columns df)))
                               ++ [v]) (rows df))
  end.

(** The cells of [row], laid out under [from], read under [to]. *)
Definition realign (from to : list string) (row : list value) : list value :=
  map (fun c => match index_of c from with
                | Some i => cell row i
                | None => VNone
                end) to.

Fixpoint new_labels (seen cols : list string) : list string :=
  match cols with
  | [] => []
  | c :: cols' =>
      if existsb (String.eqb c) seen then new_labels seen cols'
      else c :: new_labels (c :: seen) cols'
  end.

(** [df.append(other, ignore_index=True)]: the columns of [df], then those
    [other] adds; rows are aligned by label. *)
Definition append (df other : DataFrame) : DataFrame :=
  let cols := columns df ++ new_labels (columns df) (columns other) in
  mkFrame cols
          (map (realign (columns df) cols) (rows df) ++
           map (realign (columns other) cols) (rows other)).

(** [df[names]] for a list of labels. *)
Definition select (names : list string) (df : DataFrame) : res DataFrame :=
  match find (fun n => match index_of n (columns df) with
                       | Some _ => false
                       | None => true
                       end) names with
  | Some missing => Raise (KeyError (VStr missing))
  | None => Ok (mkFrame names (map (realign (columns df) names) (rows df)))
  end.

End Pandas.

(** ** The decoder of normal and static rows *)

Module CJA.

(** [expanded_rows[row["itemId"]] = [row["value"]]] followed by
    [expanded_rows[row["itemId"]] += row["data"]].  The right-hand side of
    an assignment is evaluated before its target; [+=] on a list extends it
    with the items of any iterable. *)
Definition expand_row (expanded_rows : pydict) (row : value) : res pydict :=
  v <- subscript row (VStr "value") ;;
  k <- subscript row (VStr "itemId") ;;
  e1 <- store_subscript (VDict expanded_rows) k (VList [v]) ;;
  k' <- subscript row (VStr "itemId") ;;
  cur <- subscript e1 k' ;;
  d <- subscript row (VStr "data") ;;
  match cur with
  | VList cells =>
      extra <- py_iter d ;;
      e2 <- store_subscript e1 k' (VList (cells ++ extra)) ;;
      match e2 with
      | VDict out => Ok out
      | _ => Raise TypeError
      end
  | _ => Raise TypeError
  end.

(** [_prepareData(dataRows, reportType)].  [deepcopy] is the identity on
    values. *)
Definition _prepareData (dataRows : value) (reportType : string)
  : res value :=
  match dataRows with
  | VNone => Raise (ValueError "Require dataRows")
  | _ =>
      let data_rows := dataRows in
      if String.eqb reportType "normal" then
        rows <- py_iter data_rows ;;
        expanded_rows <- foldM expand_row [] rows ;;
        Ok (VDict expanded_rows)
      else if String.eqb reportType "static" then
        Ok data_rows
      else Ok (VDict [])
  end.

(** *** The platform: connector, files, hashing *)

(** What the class reaches outside itself: the HTTP connector
    ([connector.postData], [connector.getData]), the endpoint constant of
    [config.endpoints], reading a JSON file ([open] and [json.load]), and
    the order in which the interpreter iterates a [set] built by inserting
    the given items (it depends on the hash seed of the process). *)
Record platform (S : Type) : Type := mkPlatform {
  postData : S -> string -> value -> value -> res value * S;
  getData : S -> string -> value -> res value * S;
  endpoint : string;
  read_json : string -> res value;
  set_order : list value -> list value
}.

Arguments mkPlatform {S}.
Arguments postData {S} p.
Arguments getData {S} p.
Arguments endpoint {S} p.
Arguments read_json {S} p.
Arguments set_order {S} p.

Import World.
Local Open Scope m_scope.

Section Service.

Context {S : Type} (P : platform S).

Definition connector_postData (url : string) (data params : value)
  : M S value :=
  fun w =>
    let (r, s') := postData P (srv w) url data params in
    Some (r, mkWorld (heap w) s'
               (calls w ++ [mkExchange (Post url data params) r])).

Definition connector_getData (url : string) (params : value) : M S value :=
  fun w =>
    let (r, s') := getData P (srv w) url params in
    Some (r, mkWorld (heap w) s'
               (calls w ++ [mkExchange (Get url params) r])).

(** [getFilter(filterId)] with [full] left at [False]. *)
Definition getFilter (filterId : string) : M S value :=
  let path := ("/filters/" ++ filterId)%string in
  let params := VDict [] in
  connector_getData (endpoint P ++ path)%string params.

Definition calculatedMetric_expansion : string :=
  "approved,favorite,shares,tags,sharesFullName,usageSummary,usageSummaryWithRelevancyScore,reportSuiteName,siteTitle,ownerFullName,modified,migratedIds,isDeleted,definition,authorization,compatibility,legacyId,internal,dataGroup,categories".

(** [getCalculatedMetric(calcId)] with [full] left at [True]. *)
Definition getCalculatedMetric (calcId : string) : M S value :=
  let path := ("/calculatedmetrics/" ++ calcId)%string in
  let params := VDict [(VStr "includeHidden", VBool true);
                       (VStr "expansion", VStr calculatedMetric_expansion)] in
  connector_getData (endpoint P ++ path)%string params.

(** *** Pieces of Python used by the decoders *)

(** A method of [str] called on [v]. *)
Definition as_str (v : value) : res string :=
  match v with
  | VStr s => Ok s
  | _ => Raise AttributeError
  end.

(** [d[k] = v] on a dictionary under construction. *)
Definition dict_store (d : pydict) (k v : value) : res pydict :=
  if hashable k then Ok (dict_set d k v) else Raise TypeError.

(** [d[k]] on a dictionary under construction. *)
Definition dict_lookup (d : pydict) (k : value) : res value :=
  subscript (VDict d) k.

(** [v[1:]] *)
Definition py_tail (v : value) : res value :=
  match v with
  | VList l => Ok (VList (tl l))
  | VStr s => Ok (VStr (match s with String _ t => t | EmptyString => "" end))
  | _ => Raise TypeError
  end.

(** The segment-id pattern: [v.startswith("s") and "@AdobeOrg" in v]. *)
Definition is_segment_id (s : string) : bool :=
  startswith "s" s && str_contains "@AdobeOrg" s.

(** [set(xs)]: the distinct items of [xs] in the iteration order of the
    interpreter; an unhashable item raises. *)
Fixpoint distinct_items (seen xs : list value) : list value :=
  match xs with
  | [] => []
  | x :: xs' =>
      if list_contains seen x then distinct_items seen xs'
      else x :: distinct_items (x :: seen) xs'
  end.

Definition py_set (xs : list value) : res (list value) :=
  if forallb hashable xs then Ok (set_order P (distinct_items [] xs))
  else Raise TypeError.

(** *** [_decrypteStaticData] *)

(** [{obj["id"]: obj["segmentId"] for obj in metricFilters
      if obj["id"].startswith("STATIC_ROW")}] *)
Definition static_tableSegmentsRows (metricFilters : list value)
  : res pydict :=
  foldM (fun acc obj =>
    id <- subscript obj (VStr "id") ;;
    ids <- as_str id ;;
    if startswith "STATIC_ROW" ids then
      k <- subscript obj (VStr "id") ;;
      v <- subscript obj (VStr "segmentId") ;;
      dict_store acc k v
    else Ok acc)%py [] metricFilters.

(** The loop that fills [segmentApplied]. *)
Definition static_segmentApplied (metricFilters : list value) : res pydict :=
  foldM (fun acc obj =>
    id <- subscript obj (VStr "id") ;;
    ids <- as_str id ;;
    if negb (startswith "STATIC_ROW" ids) then
      ty <- subscript obj (VStr "type") ;;
      if py_eqb ty (VStr "breakdown") then
        dim <- subscript obj (VStr "dimension") ;;
        dims <- py_format dim ;;
        item <- subscript obj (VStr "itemId") ;;
        items <- py_format item ;;
        k <- subscript obj (VStr "id") ;;
        dict_store acc k (VStr (dims ++ ":::" ++ items))
      else if py_eqb ty (VStr "segment") then
        v <- subscript obj (VStr "segmentId") ;;
        k <- subscript obj (VStr "id") ;;
        dict_store acc k v
      else if py_eqb ty (VStr "dateRange") then
        v <- subscript obj (VStr "dateRange") ;;
        k <- subscript obj (VStr "id") ;;
        dict_store acc k v
      else Ok acc
    else Ok acc)%py [] metricFilters.

(** [{obj["columnId"]: obj["filters"][0] for obj in metrics}] *)
Definition static_tableColumnIds (metrics : list value) : res pydict :=
  foldM (fun acc obj =>
    k <- subscript obj (VStr "columnId") ;;
    fs <- subscript obj (VStr "filters") ;;
    v <- subscript fs (VInt 0) ;;
    dict_store acc k v)%py [] metrics.

(** [{obj["filters"][0]: obj["filters"][1:] for obj in metrics
      if len(obj["filters"]) > 1}] *)
Definition static_filterRelations (metrics : list value) : res pydict :=
  foldM (fun acc obj =>
    fs <- subscript obj (VStr "filters") ;;
    n <- py_len fs ;;
    if (1 <? n)%nat then
      fs1 <- subscript obj (VStr "filters") ;;
      k <- subscript fs1 (VInt 0) ;;
      fs2 <- subscript obj (VStr "filters") ;;
      v <- py_tail fs2 ;;
      dict_store acc k v
    else Ok acc)%py [] metrics.

(** The loop that names the static rows: a row that looks like a segment
    id is resolved by [getFilter]. *)
Definition static_rowNames (staticRows : list value) : M S (list value) :=
  forM (fun names row =>
    r <- lift (as_str row) ;;
    if is_segment_id r then
      filter <- getFilter r ;;
      name <- lift (subscript filter (VStr "name")) ;;
      ret (names ++ [name])
    else ret (names ++ [row])) [] staticRows.

(** [zip(xs, ys)] *)
Definition py_zip (xs ys : list value) : list (value * value) :=
  combine xs ys.

(** [dataRows[name]] on the [defaultdict(list)]: a missing key is created
    with an empty list. *)
Definition defaultdict_get (dataRows : pydict) (name : value)
  : res (pydict * list value) :=
  if hashable name then
    match dict_get dataRows name with
    | Some (VList cells) => Ok (dataRows, cells)
    | Some _ => Raise AttributeError
    | None => Ok (dict_set dataRows name (VList []), [])
    end
  else Raise TypeError.

(** The body of the inner loop over [zip(columnIds, totals)]. *)
Definition static_cell (tableSegmentsRows tableColumnIds staticRowDict
                          : pydict)
  (row : value) (dataRows : pydict) (cd : value * value) : res pydict :=
  (let (column, data) := cd in
   st <- dict_lookup tableColumnIds column ;;
   seg <- dict_lookup tableSegmentsRows st ;;
   if py_eqb seg row then
     name <- dict_lookup staticRowDict row ;;
     '(dataRows1, cells) <- defaultdict_get dataRows name ;;
     '(dataRows2, cells2) <-
        (if negb (list_contains cells row) then
           name1 <- dict_lookup staticRowDict row ;;
           '(d, c) <- defaultdict_get dataRows1 name1 ;;
           Ok (dict_set d name1 (VList (c ++ [row])), c ++ [row])
         else Ok (dataRows1, cells)) ;;
     name2 <- dict_lookup staticRowDict row ;;
     '(d, c) <- defaultdict_get dataRows2 name2 ;;
     Ok (dict_set d name2 (VList (c ++ [data])))
   else Ok dataRows)%py.

Definition _decrypteStaticData (dataRequest response : value)
  : M S (Z * pydict * pydict * pydict * pydict) :=
  mc <- lift (subscript dataRequest (VStr "metricContainer")) ;;
  mfs <- lift (subscript mc (VStr "metricFilters")) ;;
  mfl <- lift (py_iter mfs) ;;
  tableSegmentsRows <- lift (static_tableSegmentsRows mfl) ;;
  segmentApplied <- lift (static_segmentApplied mfl) ;;
  ms <- lift (subscript mc (VStr "metrics")) ;;
  ml <- lift (py_iter ms) ;;
  tableColumnIds <- lift (static_tableColumnIds ml) ;;
  filterRelations <- lift (static_filterRelations ml) ;;
  staticRows <- lift (py_set (map snd tableSegmentsRows)) ;;
  let nb_rows := length staticRows in
  nb_metrics <- lift (py_len ms) ;;
  nb_columns <- (match nb_rows with
                 | O => raise ZeroDivisionError
                 | _ => ret (Z.of_nat nb_metrics / Z.of_nat nb_rows)%Z
                 end) ;;
  staticRowsNames <- static_rowNames staticRows ;;
  let staticRowDict :=
    fold_left (fun d rn => dict_set d (fst rn) (snd rn))
              (py_zip staticRows staticRowsNames) [] in
  dataRows <- lift (foldM (fun dataRows row =>
      cols <- subscript response (VStr "columns") ;;
      cids <- subscript cols (VStr "columnIds") ;;
      cidl <- py_iter cids ;;
      sd <- subscript response (VStr "summaryData") ;;
      tots <- subscript sd (VStr "totals") ;;
      totl <- py_iter tots ;;
      foldM (static_cell tableSegmentsRows tableColumnIds staticRowDict row)
            dataRows (py_zip cidl totl))%py [] (dict_keys staticRowDict)) ;;
  ret (nb_columns, tableColumnIds, segmentApplied, filterRelations, dataRows).

End Service.

(** *** [getReport] *)

(** The [request] argument: absent, a string (the path of a JSON file) or
    a reference to a dictionary of the caller. *)
Inductive request_arg : Type :=
| ReqNone
| ReqPath (path : string)
| ReqRef (l : loc).

Record report_args : Type := mkArgs {
  limit : value;
  n_results : value;
  allowRemoteLoad : string;
  useCache : bool;
  useResultsCache : bool;
  includeOberonXml : bool;
  includePredictiveObjects : bool;
  returnsNone : option bool;
  countRepeatInstances : option bool;
  ignoreZeroes : option bool;
  dataViewId : option string;
  resolveColumns : bool;
  save : bool;
  returnClass : bool
}.

(** The defaults of the signature. *)
Definition default_args : report_args :=
  {| limit := VInt 20000; n_results := VStr "inf";
     allowRemoteLoad := "default"; useCache := true;
     useResultsCache := false; includeOberonXml := false;
     includePredictiveObjects := false; returnsNone := None;
     countRepeatInstances := None; ignoreZeroes := None;
     dataViewId := None; resolveColumns := true; save := false;
     returnClass := true |}.

(** The arguments the [Workspace] constructor receives.  [dataRequest] is
    a reference: the workspace shares the request dictionary. *)
Record Workspace : Type := mkWorkspace {
  responseData : value;
  dataRequest : loc;
  columns : value;
  summaryData : value;
  reportType : string;
  metrics : value;
  metricFilters : value;
  ws_resolveColumns : bool
}.

(** What [getReport] returns: the accumulated rows or the raw response
    when [returnClass] is [False], a workspace otherwise. *)
Inductive report : Type :=
| RawRows (dataRows : value)
| RawResponse (res : value)
| Class (data : Workspace).

(** [obj[k1][k2] = v].  The nested dictionary is held as a part of the
    value of [obj]: every name of [obj] sees the write, and a nested
    dictionary that a second object of the caller shares is outside the
    embedding. *)
Definition set_item2 (k1 k2 : string) (v : value) (obj : value) : res value :=
  (inner <- subscript obj (VStr k1) ;;
   inner' <- store_subscript inner (VStr k2) v ;;
   store_subscript obj (VStr k1) inner')%py.

(** [obj[k1][k2] += v] *)
Definition iadd_item2 (k1 k2 : string) (v : value) (obj : value) : res value :=
  (inner <- subscript obj (VStr k1) ;;
   cur <- subscript inner (VStr k2) ;;
   new <- py_iadd cur v ;;
   inner' <- store_subscript inner (VStr k2) new ;;
   store_subscript obj (VStr k1) inner')%py.

Section Report.

Context {S : Type} (P : platform S).

(** An in-place update of the dictionary at [l]. *)
Definition update (l : loc) (f : value -> res value) : M S unit :=
  obj <- load l ;;
  obj' <- lift (f obj) ;;
  store l obj'.

(** The first lines of [getReport]: which dictionary [dataRequest] names.
    [".json" in request] searches a string, the keys of a dictionary or the
    items of a list; [open] accepts a path only. *)
Definition resolve_request (request : request_arg) : M S loc :=
  match request with
  | ReqNone => raise TypeError
  | ReqPath path =>
      if str_contains ".json" path then
        doc <- lift (read_json P path) ;;
        alloc doc
      else raise (ValueError "Require a JSON or Dictionary to request data")
  | ReqRef l =>
      obj <- load l ;;
      match obj with
      | VDict d =>
          if dict_has d (VStr ".json") then raise TypeError else ret l
      | VList xs =>
          if list_contains xs (VStr ".json") then raise TypeError
          else raise (ValueError "Require a JSON or Dictionary to request data")
      | _ => raise TypeError
      end
  end.

(** The [### Settings] block: every write goes to the dictionary that
    [dataRequest] names. *)
Definition apply_settings (a : report_args) (dataRequest : loc) : M S unit :=
  _ <- update dataRequest (set_item2 "settings" "page" (VInt 0)) ;;
  _ <- update dataRequest (set_item2 "settings" "limit" (limit a)) ;;
  _ <- (if truthy (returnsNone a) then
          update dataRequest
            (set_item2 "settings" "nonesBehavior" (VStr "return-nones"))
        else
          update dataRequest
            (set_item2 "settings" "nonesBehavior" (VStr "exclude-nones"))) ;;
  _ <- (if truthy (countRepeatInstances a) then
          update dataRequest
            (set_item2 "settings" "countRepeatInstances" (VBool true))
        else
          update dataRequest
            (set_item2 "settings" "countRepeatInstances" (VBool false))) ;;
  _ <- (match dataViewId a with
        | Some dv =>
            update dataRequest
              (fun obj => store_subscript obj (VStr "dataId") (VStr dv))
        | None => ret tt
        end) ;;
  if truthy (ignoreZeroes a) then
    update dataRequest (set_item2 "statistics" "ignoreZeroes" (VBool true))
  else
    update dataRequest (set_item2 "statistics" "ignoreZeroes" (VBool false)).

Definition report_params (a : report_args) : value :=
  VDict [(VStr "allowRemoteLoad", VStr (allowRemoteLoad a));
         (VStr "useCache", VBool (useCache a));
         (VStr "useResultsCache", VBool (useResultsCache a));
         (VStr "includeOberonXml", VBool (includeOberonXml a));
         (VStr "includePlatformPredictiveObjects",
          VBool (includePredictiveObjects a))].

(** One [connector.postData(self.endpoint + path, data=dataRequest,
    params=params)]: the service reads the dictionary as it is now. *)
Definition post_report (a : report_args) (dataRequest : loc) : M S value :=
  doc <- load dataRequest ;;
  connector_postData P (endpoint P ++ "/reports")%string doc (report_params a).

(** [if float(len(dataRows)) >= float(n_results): lastPage = True] *)
Definition cap_lastPage (a : report_args) (dataRows lastPage : value)
  : res value :=
  (n <- py_len dataRows ;;
   cap <- py_float (n_results a) ;;
   if len_reaches n cap then Ok (VBool true) else Ok lastPage)%py.

(** The [while lastPage != True] loop; [fuel] bounds the number of
    iterations. *)
Fixpoint fetch_pages (fuel : nat) (a : report_args) (dataRequest : loc)
  (dataRows totalElements lastPage : value) : M S value :=
  if negb (py_eqb lastPage (VBool true)) then
    match fuel with
    | O => fun _ => None
    | Datatypes.S fuel' =>
        _ <- update dataRequest (iadd_item2 "settings" "page" (VInt 1)) ;;
        res <- post_report a dataRequest ;;
        rows <- lift (py_get res (VStr "rows") VNone) ;;
        dataRows' <- lift (py_iadd dataRows rows) ;;
        lastPage' <- lift (py_get res (VStr "lastPage") (VBool true)) ;;
        n <- lift (py_get res (VStr "numberOfElements") VNone) ;;
        totalElements' <- lift (py_iadd totalElements n) ;;
        lastPage'' <- lift (cap_lastPage a dataRows' lastPage') ;;
        fetch_pages fuel' a dataRequest dataRows' totalElements' lastPage''
    end
  else ret dataRows.

(** [{obj["columnId"]: obj["id"] for obj in metrics}] *)
Definition normal_columnIdRelations (metrics : list value) : res pydict :=
  foldM (fun acc obj =>
    k <- subscript obj (VStr "columnId") ;;
    v <- subscript obj (VStr "id") ;;
    dict_store acc k v)%py [] metrics.

(** [{obj["columnId"]: obj["filters"] for obj in metrics
      if len(obj.get("filters", [])) > 0}] *)
Definition normal_filterRelations (metrics : list value) : res pydict :=
  foldM (fun acc obj =>
    fs <- py_get obj (VStr "filters") (VList []) ;;
    n <- py_len fs ;;
    if (0 <? n)%nat then
      k <- subscript obj (VStr "columnId") ;;
      v <- subscript obj (VStr "filters") ;;
      dict_store acc k v
    else Ok acc)%py [] metrics.

(** The state of the loop over the declared metric filters: the two
    dictionaries and the local [filterValue], unbound until a filter of a
    known type has been seen. *)
Record filter_loop : Type := mkLoop {
  fl_metricFilters : pydict;
  fl_translation : pydict;
  fl_filterValue : option string
}.

(** One turn of [for filter in ...get("metricFilters", [])].  The three
    tests are independent [if]s; [filterValue] survives from one turn to
    the next. *)
Definition normal_filter_step (st : filter_loop) (filter : value)
  : M S filter_loop :=
  filterId <- lift (subscript filter (VStr "id")) ;;
  ty1 <- lift (subscript filter (VStr "type")) ;;
  st1 <- (if py_eqb ty1 (VStr "breakdown") then
            lift (dim <- subscript filter (VStr "dimension") ;;
                  dims <- py_format dim ;;
                  item <- subscript filter (VStr "itemId") ;;
                  items <- py_format item ;;
                  v <- subscript filter (VStr "itemId") ;;
                  k <- subscript filter (VStr "dimension") ;;
                  mf <- dict_store (fl_metricFilters st) k v ;;
                  Ok (mkLoop mf (fl_translation st)
                             (Some (dims ++ ":" ++ items)%string)))%py
          else ret st) ;;
  ty2 <- lift (subscript filter (VStr "type")) ;;
  st2 <- (if py_eqb ty2 (VStr "dateRange") then
            lift (dr <- subscript filter (VStr "dateRange") ;;
                  drs <- py_format dr ;;
                  mf <- dict_store (fl_metricFilters st1) (VStr drs)
                                   (VStr drs) ;;
                  Ok (mkLoop mf (fl_translation st1) (Some drs)))%py
          else ret st1) ;;
  ty3 <- lift (subscript filter (VStr "type")) ;;
  st3 <- (if py_eqb ty3 (VStr "segment") then
            sid <- lift (subscript filter (VStr "segmentId")) ;;
            sids <- lift (py_format sid) ;;
            if is_segment_id sids then
              seg <- getFilter P sids ;;
              name <- lift (subscript seg (VStr "name")) ;;
              ret (mkLoop (dict_set (fl_metricFilters st2) (VStr sids) name)
                          (fl_translation st2) (Some sids))
            else ret (mkLoop (fl_metricFilters st2) (fl_translation st2)
                             (Some sids))
          else ret st2) ;;
  match fl_filterValue st3 with
  | None => raise (UnboundLocalError "filterValue")
  | Some filterValue =>
      tr <- lift (dict_store (fl_translation st3) filterId
                             (VStr filterValue)) ;;
      ret (mkLoop (fl_metricFilters st3) tr (Some filterValue))
  end.

(** The body of [for colId in columnIdRelations.keys()]. *)
Definition normal_metricColumn (columnIdRelations filterRelations
                                  metricFilterTranslation : pydict)
  (metricColumns : pydict) (colId : value) : res pydict :=
  (id <- dict_lookup columnIdRelations colId ;;
   let metricColumns0 := dict_set metricColumns colId id in
   elements <- (match dict_get filterRelations colId with
                | Some fs => py_iter fs
                | None => Ok []
                end) ;;
   foldM (fun mc element =>
            cur <- dict_lookup mc colId ;;
            tr <- dict_lookup metricFilterTranslation element ;;
            trs <- py_format tr ;;
            new <- py_iadd cur (VStr (":::" ++ trs)) ;;
            Ok (dict_set mc colId new))
         metricColumns0 elements)%py.

(** The static branch: the loop [for i in range(nb_columns)] that names
    the metric columns. *)
Definition static_metricColumn (res : value)
  (tableColumnIds filterRelations segmentApplied : pydict)
  (st : pydict * list value) (i : nat) : M S (pydict * list value) :=
  let (metricFilters, metricColumns) := st in
  cols <- lift (subscript res (VStr "columns")) ;;
  cids <- lift (subscript cols (VStr "columnIds")) ;;
  metric <- lift (subscript cids (VInt (Z.of_nat i))) ;;
  ms <- lift (as_str metric) ;;
  let metricName0 := split_head ":::" ms in
  metricName1 <- (if startswith "cm" metricName0 then
                    calcMetric <- getCalculatedMetric P metricName0 ;;
                    lift (subscript calcMetric (VStr "name"))
                  else ret (VStr metricName0)) ;;
  correspondingStatic <- lift (dict_lookup tableColumnIds metric) ;;
  '(metricFilters', metricName) <-
    (if list_contains (dict_keys filterRelations) correspondingStatic then
       fr <- lift (dict_lookup filterRelations correspondingStatic) ;;
       elements <- lift (py_iter fr) ;;
       forM (fun (acc : pydict * value) element =>
               let (mf, name) := acc in
               segId <- lift (dict_lookup segmentApplied element) ;;
               segStr <- lift (py_format segId) ;;
               name' <- lift (py_iadd name (VStr (":::" ++ segStr))) ;;
               mf1 <- lift (dict_store mf segId segId) ;;
               sid <- lift (as_str segId) ;;
               if is_segment_id sid then
                 seg <- getFilter P sid ;;
                 segName <- lift (subscript seg (VStr "name")) ;;
                 ret (dict_set mf1 segId segName, name')
               else ret (mf1, name'))
            (metricFilters, metricName1) elements
     else ret (metricFilters, metricName1)) ;;
  ret (metricFilters', metricColumns ++ [metricName]).

(** The end of the normal branch: the rows themselves when [returnClass]
    is [False], otherwise the names of the metric columns and the
    workspace. *)
Definition normal_workspace (a : report_args) (dataRequest : loc)
  (columns summaryData dataRows : value) : M S report :=
  let reportType := "normal" in
  if negb (returnClass a) then ret (RawRows dataRows)
  else
    doc <- load dataRequest ;;
    mc <- lift (subscript doc (VStr "metricContainer")) ;;
    ms <- lift (subscript mc (VStr "metrics")) ;;
    ml <- lift (py_iter ms) ;;
    columnIdRelations <- lift (normal_columnIdRelations ml) ;;
    filterRelations <- lift (normal_filterRelations ml) ;;
    mfs <- lift (py_get mc (VStr "metricFilters") (VList [])) ;;
    mfl <- lift (py_iter mfs) ;;
    loop <- forM normal_filter_step (mkLoop [] [] None) mfl ;;
    metricColumns <-
      lift (foldM (normal_metricColumn columnIdRelations filterRelations
                                       (fl_translation loop))
                  [] (dict_keys columnIdRelations)) ;;
    preparedData <- lift (_prepareData dataRows reportType) ;;
    ret (Class (mkWorkspace preparedData dataRequest columns summaryData
                            reportType (VDict metricColumns)
                            (VDict (fl_metricFilters loop))
                            (resolveColumns a))).

(** The branch of [getReport] taken when the response has a "rows" key:
    pagination, then the end above. *)
Definition normal_report (fuel : nat) (a : report_args) (dataRequest : loc)
  (res : value) : M S report :=
  dataRows0 <- lift (py_get res (VStr "rows") VNone) ;;
  columns <- lift (py_get res (VStr "columns") VNone) ;;
  summaryData <- lift (py_get res (VStr "summaryData") VNone) ;;
  totalElements <- lift (py_get res (VStr "numberOfElements") VNone) ;;
  lastPage0 <- lift (py_get res (VStr "lastPage") (VBool true)) ;;
  lastPage <- lift (cap_lastPage a dataRows0 lastPage0) ;;
  dataRows <- fetch_pages fuel a dataRequest dataRows0 totalElements
                          lastPage ;;
  normal_workspace a dataRequest columns summaryData dataRows.

(** The branch taken when the response has no "rows" key. *)
Definition static_report (a : report_args) (dataRequest : loc)
  (res : value) : M S report :=
  if negb (returnClass a) then ret (RawResponse res)
  else
    let reportType := "static" in
    let columns := VNone in
    summaryData <- lift (py_get res (VStr "summaryData") VNone) ;;
    doc <- load dataRequest ;;
    '(nb_columns, tableColumnIds, segmentApplied, filterRelations,
      dataRows) <- _decrypteStaticData P doc res ;;
    '(metricFilters, metricColumns) <-
      forM (static_metricColumn res tableColumnIds filterRelations
                                segmentApplied)
           ([], []) (seq 0 (Z.to_nat nb_columns)) ;;
    preparedData <- lift (_prepareData (VDict dataRows) reportType) ;;
    ret (Class (mkWorkspace preparedData dataRequest columns summaryData
                            reportType (VList metricColumns)
                            (VDict metricFilters) (resolveColumns a))).

(** [getReport(request, ...)].  [save] only writes a file afterwards and
    logging only prints; neither is followed. *)
Definition getReport (fuel : nat) (request : request_arg) (a : report_args)
  : M S report :=
  dataRequest <- resolve_request request ;;
  _ <- apply_settings a dataRequest ;;
  res <- post_report a dataRequest ;;
  keys <- lift (py_keys res) ;;
  if list_contains keys (VStr "rows") then
    normal_report fuel a dataRequest res
  else
    static_report a dataRequest res.

End Report.

(** *** [getMultidimensionalReport] *)

(** Two things the traversal takes from classes that are not among the
    sources: the JSON document a [RequestCreator] hands to [getReport],
    and the data frame a [Workspace] exposes (computed from the workspace
    and its request document). *)
Record companions : Type := mkCompanions {
  to_json : RequestCreator.t -> value;
  dataframe_of : Workspace -> value -> Pandas.DataFrame
}.

Record multi_args : Type := mkMulti {
  md_dimensions : option (list string);
  md_dimensionLimit : option (list (string * value));
  md_metrics : option (list string);
  md_dataViewId : option string;
  md_globalFilters : option (list string);
  md_metricFilters : option (list (string * string));
  md_countRepeatInstances : bool;
  md_returnNones : bool
}.

(** The workspace tagged "multi" that the traversal returns. *)
Record multi_workspace : Type := mkMultiWorkspace {
  mw_table : Pandas.DataFrame;
  mw_dataRequest : RequestCreator.t;
  mw_reportType : string
}.

(** The local variables of the traversal.  [relation] is [None] while
    [dict_breakdown_relation] is still the initial [defaultdict(list)];
    [columns_order] and [df_final] are [None] while unbound. *)
Record traversal : Type := mkTraversal {
  template : RequestCreator.t;
  level : nat;
  dict_breakdown_itemId : list (string * list value);
  dict_breakdown_relation : option pydict;
  translate_itemId_value : list (string * pydict);
  columns_order : option (list string);
  df_final : option Pandas.DataFrame
}.

(** A dictionary with string keys. *)
Fixpoint sdict_get {A} (d : list (string * A)) (k : string) : option A :=
  match d with
  | [] => None
  | (k', v) :: d' => if String.eqb k' k then Some v else sdict_get d' k
  end.

Fixpoint sdict_set {A} (d : list (string * A)) (k : string) (v : A)
  : list (string * A) :=
  match d with
  | [] => [(k, v)]
  | (k', v') :: d' =>
      if String.eqb k' k then (k', v) :: d' else (k', v') :: sdict_set d' k v
  end.

(** [seq[i]] with Python's negative indices. *)
Definition py_nth {A} (xs : list A) (i : Z) : res A :=
  match norm_index (length xs) i with
  | Some n => match nth_error xs n with
              | Some x => Ok x
              | None => Raise IndexError
              end
  | None => Raise IndexError
  end.

(** [{k: v for k, v in zip(ks, vs)}] *)
Definition dict_of_zip (ks vs : list value) : res pydict :=
  foldM (fun acc kv => dict_store acc (fst kv) (snd kv)) []
        (py_zip ks vs).

(** [for metric in metrics: template.addMetricFilter(metric, filterId)] *)
Definition attach (metrics : list string) (filterId : string)
  (tpl : RequestCreator.t) : RequestCreator.t :=
  fold_left (fun t metric => RequestCreator.addMetricFilter metric filterId t)
            metrics tpl.

(** Lines 1600-1613: the row block of one item.  The trailing metric
    columns take the names of the metrics, then every completed dimension
    is written into the frame and pushed to the front of the order. *)
Definition row_block (level : nat) (dimensions metrics : list string)
  (translate : list (string * pydict)) (itemId : value)
  (dataframe : Pandas.DataFrame)
  : res (Pandas.DataFrame * list string) :=
  let nb_metrics := length metrics in
  let metricsCols := Pandas.last_columns nb_metrics
                       (Pandas.columns dataframe) in
  let dictReplace := combine metricsCols metrics in
  let dataframe1 := Pandas.rename dictReplace dataframe in
  foldM (fun (acc : Pandas.DataFrame * list string) lvl =>
           let (df, order) := acc in
           key <- py_nth dimensions (Z.of_nat lvl) ;;
           tr <- match sdict_get translate key with
                 | Some tr => Ok tr
                 | None => Raise (KeyError (VStr key))
                 end ;;
           v <- py_get (VDict tr) itemId itemId ;;
           dim <- py_nth dimensions (Z.of_nat lvl) ;;
           dim' <- py_nth dimensions (Z.of_nat lvl) ;;
           Ok (Pandas.set_column dim v df, dim' :: order))%py
        (dataframe1, Pandas.columns dataframe1) (seq 0 level).

Section Traversal.

Context {S : Type} (P : platform S) (C : companions).

(** [self.getReport(request=template.to_dict(), n_results=..., limit=...)]
    followed by [res.dataframe]. *)
Definition fetch_frame (fuel : nat) (tpl : RequestCreator.t)
  (n_results limit : value) : M S Pandas.DataFrame :=
  request <- alloc (to_json C (RequestCreator.to_dict tpl)) ;;
  res <- getReport P fuel (ReqRef request)
           (mkArgs limit n_results "default" true false false false
                   None None None None true false true) ;;
  match res with
  | Class data =>
      doc <- load (dataRequest data) ;;
      ret (dataframe_of C data doc)
  | _ => raise AttributeError
  end.

(** The branch [if dimension == dimensions[0]]. *)
Definition first_level (fuel : nat) (dimensions : list string)
  (limits : list (string * value)) (dimension : string) (limit : value)
  (st : traversal) : M S traversal :=
  let list_breakdown := tl dimensions in
  n_results <- lift (match sdict_get limits dimension with
                     | Some n => Ok n
                     | None => Raise (KeyError (VStr dimension))
                     end) ;;
  dataframe <- fetch_frame fuel (template st) n_results limit ;;
  items <- lift (Pandas.column dataframe "itemId") ;;
  key <- lift (py_nth list_breakdown (Z.of_nat (level st))) ;;
  let pool := sdict_set (dict_breakdown_itemId st) key items in
  items' <- lift (Pandas.column dataframe "itemId") ;;
  values <- lift (Pandas.iloc_column dataframe 1) ;;
  tr <- lift (dict_of_zip items' values) ;;
  ret (mkTraversal (template st) (level st) pool
                   (dict_breakdown_relation st)
                   (sdict_set (translate_itemId_value st) dimension tr)
                   (columns_order st) (df_final st)).

(** [dict_breakdown_relation[itemId]] *)
Definition relation_lookup (st : traversal) (itemId : value) : res string :=
  match dict_breakdown_relation st with
  | None => Raise (OutsideModel "a list as filter id")
  | Some rel =>
      (v <- dict_lookup rel itemId ;;
       match v with
       | VStr f => Ok f
       | _ => Raise (OutsideModel "a filter id that is not a string")
       end)%py
  end.

(** One turn of [for itemId in dict_breakdown_itemId[dimension]]. *)
Definition breakdown_item (fuel : nat) (dimensions metrics : list string)
  (limits : list (string * value)) (dimension : string) (limit : value)
  (st : traversal) (itemId : value) : M S traversal :=
  tpl1 <- (if (1 <? level st)%nat then
             original_filterId <- lift (relation_lookup st itemId) ;;
             ret (attach metrics original_filterId (template st))
           else ret (template st)) ;;
  parent <- lift (py_nth dimensions (Z.of_nat (level st) - 1)) ;;
  item <- lift (py_format itemId) ;;
  let filterId := (parent ++ ":::" ++ item)%string in
  let tpl2 := attach metrics filterId tpl1 in
  n_results <- lift (match sdict_get limits dimension with
                     | Some n => Ok n
                     | None => Raise (KeyError (VStr dimension))
                     end) ;;
  dataframe <- fetch_frame fuel tpl2 n_results limit ;;
  let tpl3 := RequestCreator.removeMetricFilter filterId tpl2 in
  tpl4 <- (if (1 <? level st)%nat then
             original_filterId <- lift (relation_lookup st itemId) ;;
             ret (RequestCreator.removeMetricFilter original_filterId tpl3)
           else ret tpl3) ;;
  list_itemIds <- lift (Pandas.column dataframe "itemId") ;;
  let pool := sdict_set (dict_breakdown_itemId st) dimension list_itemIds in
  relation <- lift (foldM (fun acc i => dict_store acc i (VStr filterId))
                          [] list_itemIds) ;;
  items' <- lift (Pandas.column dataframe "itemId") ;;
  values <- lift (Pandas.iloc_column dataframe 1) ;;
  tr <- lift (dict_of_zip items' values) ;;
  let translate := sdict_set (translate_itemId_value st) dimension tr in
  '(order, final) <-
     (if negb (Pandas.empty dataframe) then
        '(block, order) <-
           lift (row_block (level st) dimensions metrics translate
                           itemId dataframe) ;;
        match df_final st with
        | None => raise (UnboundLocalError "df_final")
        | Some df =>
            if Pandas.empty df then ret (Some order, block)
            else ret (Some order, Pandas.append df block)
        end
      else
        match df_final st with
        | None => raise (UnboundLocalError "df_final")
        | Some df => ret (columns_order st, df)
        end) ;;
  match order with
  | None => raise (UnboundLocalError "columns_order")
  | Some names =>
      selected <- lift (Pandas.select names final) ;;
      ret (mkTraversal tpl4 (level st) pool (Some relation)
                       translate (Some names) (Some selected))
  end.

(** One turn of [for dimension in dimensions]. *)
Definition dimension_step (fuel : nat) (dimensions metrics : list string)
  (limits : list (string * value)) (st : traversal) (dimension : string)
  : M S traversal :=
  let tpl := RequestCreator.setDimension dimension (template st) in
  requested <- lift (match sdict_get limits dimension with
                     | Some n => Ok n
                     | None => Raise (KeyError (VStr dimension))
                     end) ;;
  count <- lift (py_float requested) ;;
  '(tpl', limit) <-
     (if ext_gtb count 20000 then
        ret (RequestCreator.setLimit (VStr "20000") tpl, VStr "20000")
      else
        limit <- lift (match sdict_get limits dimension with
                       | Some n => Ok n
                       | None => Raise (KeyError (VStr dimension))
                       end) ;;
        ret (RequestCreator.setLimit limit tpl, limit)) ;;
  let st0 := mkTraversal tpl' (level st) (dict_breakdown_itemId st)
                         (dict_breakdown_relation st)
                         (translate_itemId_value st) (columns_order st)
                         (Some Pandas.empty_frame) in
  first <- lift (py_nth dimensions 0) ;;
  st1 <- (if String.eqb dimension first then
            first_level fuel dimensions limits dimension limit st0
          else
            let pool := match sdict_get (dict_breakdown_itemId st0)
                                        dimension with
                        | Some items => items
                        | None => []
                        end in
            forM (breakdown_item fuel dimensions metrics limits dimension
                                 limit) st0 pool) ;;
  ret (mkTraversal (template st1) (Datatypes.S (level st1))
                   (dict_breakdown_itemId st1) (dict_breakdown_relation st1)
                   (translate_itemId_value st1) (columns_order st1)
                   (df_final st1)).

Definition getMultidimensionalReport (fuel : nat) (a : multi_args)
  : M S multi_workspace :=
  match md_dimensions a with
  | None => raise (ValueError "Require a list of dimensions")
  | Some dimensions =>
  match md_dimensionLimit a with
  | None => raise (ValueError
      "Require a dictionary of dimensions with their number of results")
  | Some limits =>
  match md_metrics a with
  | None => raise (ValueError "Require a list of metrics")
  | Some metrics =>
  match md_dataViewId a with
  | None => raise (ValueError "Require a Data View ID")
  | Some dataViewId =>
      let template0 :=
        RequestCreator.setNoneBehavior (md_returnNones a)
          (RequestCreator.setRepeatInstance (md_countRepeatInstances a)
             (RequestCreator.setDataViewId dataViewId RequestCreator.new)) in
      match md_globalFilters a with
      | None => raise TypeError
      | Some globalFilters =>
          let template1 :=
            fold_left (fun t f => RequestCreator.addGlobalFilter f t)
                      globalFilters template0 in
          let template2 :=
            fold_left (fun t m => RequestCreator.addMetric m t)
                      metrics template1 in
          let template3 :=
            match md_metricFilters a with
            | Some metricFilters =>
                fold_left (fun t kv =>
                             RequestCreator.addMetricFilter (fst kv) (snd kv) t)
                          metricFilters template2
            | None => template2
            end in
          st <- forM (dimension_step fuel dimensions metrics limits)
                     (mkTraversal template3 0 [] None [] None None)
                     dimensions ;;
          match df_final st with
          | None => raise (UnboundLocalError "df_final")
          | Some df =>
              ret (mkMultiWorkspace df (RequestCreator.to_dict (template st))
                                    "multi")
          end
      end
  end end end end.

End Traversal.

End CJA.

(** ** Well-formed rows of a normal response

    A row of a normal response is [{"itemId": str, "value": ..., "data":
    [...]}]; [row_fields] reads the three fields of such a row. *)

Definition row_fields (row : value) : option (string * value * list value) :=
  match row with
  | VDict d =>
      match dict_get d (VStr "itemId"), dict_get d (VStr "value"),
            dict_get d (VStr "data") with
      | Some (VStr i), Some v, Some (VList cells) => Some (i, v, cells)
      | _, _, _ => None
      end
  | _ => None
  end.

Definition valid_row (row : value) : Prop :=
  exists i v cells, row_fields row = Some (i, v, cells).

Definition row_itemId (row : value) : option string :=
  match row_fields row with
  | Some (i, _, _) => Some i
  | None => None
  end.

(** Number of entries of [d] stored under the key [k]. *)
Definition key_count (d : pydict) (k : value) : nat :=
  length (filter (fun k' => py_eqb k' k) (dict_keys d)).


(** ** How a running report changes the world

    Once the settings are written, [getReport] changes the world in three
    ways only: a metadata lookup is sent, the request dictionary is posted
    as it is at that moment, or its page number is incremented. *)

Section Evolution.

Context {S : Type}.

Inductive paging_step (l : World.loc) : World.world S -> World.world S -> Prop :=
| ps_get w url params r s' :
    paging_step l w
      (World.mkWorld (World.heap w) s'
         (World.calls w ++ [World.mkExchange (World.Get url params) r]))
| ps_post w url params r s' doc :
    nth_error (World.heap w) l = Some doc ->
    paging_step l w
      (World.mkWorld (World.heap w) s'
         (World.calls w ++ [World.mkExchange (World.Post url doc params) r]))
| ps_page w doc doc' :
    nth_error (World.heap w) l = Some doc ->
    CJA.iadd_item2 "settings" "page" (VInt 1) doc = Ok doc' ->
    paging_step l w
      (World.mkWorld (World.heap_set (World.heap w) l doc') (World.srv w)
         (World.calls w)).

Inductive evolves (l : World.loc) : World.world S -> World.world S -> Prop :=
| ev_refl w : evolves l w w
| ev_step w1 w2 w3 :
    evolves l w1 w2 -> paging_step l w2 w3 -> evolves l w1 w3.

(** Every run of [m] evolves the world. *)
Definition tame {A} (l : World.loc) (m : World.M S A) : Prop :=
  forall w r w', m w = Some (r, w') -> evolves l w w'.

(** Every value [m] returns satisfies [Q]. *)
Definition returns {A} (Q : A -> Prop) (m : World.M S A) : Prop :=
  forall w a w', m w = Some (Ok a, w') -> Q a.

End Evolution.

(** ** Reading a request document *)

(** [doc[k1][k2]] when both levels are dictionaries. *)
Definition get2 (doc : value) (k1 k2 : string) : option value :=
  match doc with
  | VDict d =>
      match dict_get d (VStr k1) with
      | Some (VDict s) => dict_get s (VStr k2)
      | _ => None
      end
  | _ => None
  end.

(** The settings [getReport] derives from its own arguments. *)
Definition forced_settings (a : CJA.report_args) (doc : value) : Prop :=
  get2 doc "settings" "limit" = Some (CJA.limit a) /\
  get2 doc "settings" "nonesBehavior" =
    Some (VStr (if truthy (CJA.returnsNone a) then "return-nones"
                else "exclude-nones")) /\
  get2 doc "settings" "countRepeatInstances" =
    Some (VBool (truthy (CJA.countRepeatInstances a))) /\
  get2 doc "statistics" "ignoreZeroes" =
    Some (VBool (truthy (CJA.ignoreZeroes a))).

(** The page number of a request document, when it is an integer. *)
Definition page_of (doc : value) : option Z :=
  match get2 doc "settings" "page" with
  | Some (VInt n) => Some n
  | _ => None
  end.

(** The documents posted by a list of exchanges, oldest first. *)
Fixpoint posted (xs : list World.exchange) : list value :=
  match xs with
  | [] => []
  | x :: xs' =>
      match World.sent x with
      | World.Post _ doc _ => doc :: posted xs'
      | World.Get _ _ => posted xs'
      end
  end.

(** ** The shape of a report *)

(** ["rows" in res.keys()] *)
Definition has_rows (res : value) : bool :=
  match res with
  | VDict d => dict_has d (VStr "rows")
  | _ => false
  end.

(** The shape [getReport] decided on, read off what it returned: the
    accumulated rows and a "normal" workspace come from the normal branch,
    the raw response and a "static" workspace from the static one. *)
Definition shape_of_report (rep : CJA.report) : string :=
  match rep with
  | CJA.RawRows _ => "normal"
  | CJA.RawResponse _ => "static"
  | CJA.Class data => CJA.reportType data
  end.

(** ** Synthetic rows, documents and services

    Small concrete inputs on which the properties below are exercised. *)

Definition mk_row (itemId value : string) (data : list Z) : Py.value :=
  VDict [(VStr "itemId", VStr itemId); (VStr "value", VStr value);
         (VStr "data", VList (map VInt data))].

Definition rows_home_cart : list value :=
  [ mk_row "1" "home" [10; 3]%Z; mk_row "2" "cart" [7; 0]%Z ].

Definition rows_with_duplicate : list value :=
  [ mk_row "1" "home" [10]%Z; mk_row "2" "cart" [7]%Z;
    mk_row "1" "landing" [4]%Z ].

(** A page of a normal response. *)
Definition mk_page (rows : list value) (lastPage : bool) : value :=
  VDict [(VStr "rows", VList rows);
         (VStr "numberOfElements", VInt (Z.of_nat (length rows)));
         (VStr "lastPage", VBool lastPage);
         (VStr "columns", VDict [(VStr "columnIds", VList [VStr "0"])])].

(** A service that answers the posts with the pages of a script, one after
    the other, and every metadata lookup with a fixed name. *)
Definition scripted : CJA.platform (list value) :=
  CJA.mkPlatform
    (fun s _ _ _ =>
       match s with
       | r :: s' => (Ok r, s')
       | [] => (Raise (ConnectorError VNone), [])
       end)
    (fun s _ _ => (Ok (VDict [(VStr "name", VStr "Named")]), s))
    "https://cja.adobe.io"
    (fun _ => Raise FileNotFoundError)
    (fun xs => xs).

(** Metric "m1" broken down by the item "home" of "variables/page".  The
    settings are pre-set to values the call does not ask for. *)
Definition doc_m1_home : value :=
  VDict [
    (VStr "globalFilters", VList []);
    (VStr "metricContainer", VDict [
       (VStr "metrics",
        VList [VDict [(VStr "columnId", VStr "0"); (VStr "id", VStr "m1");
                      (VStr "filters", VList [VStr "0"])]]);
       (VStr "metricFilters",
        VList [VDict [(VStr "id", VStr "0"); (VStr "type", VStr "breakdown");
                      (VStr "dimension", VStr "variables/page");
                      (VStr "itemId", VStr "home")]])]);
    (VStr "dimension", VStr "variables/page");
    (VStr "settings",
     VDict [(VStr "countRepeatInstances", VBool true);
            (VStr "limit", VInt 5); (VStr "page", VInt 7);
            (VStr "nonesBehavior", VStr "return-nones")]);
    (VStr "statistics", VDict [(VStr "ignoreZeroes", VBool true)])].

Definition three_pages : list value :=
  [ mk_page [mk_row "1" "a" [1]%Z] false;
    mk_page [mk_row "2" "b" [2]%Z] false;
    mk_page [mk_row "3" "c" [3]%Z] true ].

(** The caller holds [doc_m1_home] at location 0; the service will answer
    with the three pages. *)
Definition world_three_pages : World.world (list value) :=
  World.mkWorld [doc_m1_home] three_pages [].

Definition run_three_pages
  : option (res CJA.report * World.world (list value)) :=
  Eval vm_compute in
    CJA.getReport scripted 10 (CJA.ReqRef 0) CJA.default_args
                  world_three_pages.

Definition report_three_pages : CJA.report :=
  Eval vm_compute in
    match run_three_pages with
    | Some (Ok rep, _) => rep
    | _ => CJA.RawRows VNone
    end.

Definition world_after_three_pages : World.world (list value) :=
  Eval vm_compute in
    match run_three_pages with
    | Some (_, w) => w
    | None => world_three_pages
    end.

(** ** Pagination, described from outside *)

(** The document the settings block leaves behind, as a function of the
    document it finds. *)
Definition settle (a : CJA.report_args) (doc : value) : res value :=
  d1 <- CJA.set_item2 "settings" "page" (VInt 0) doc ;;
  d2 <- CJA.set_item2 "settings" "limit" (CJA.limit a) d1 ;;
  d3 <- CJA.set_item2 "settings" "nonesBehavior"
          (VStr (if truthy (CJA.returnsNone a) then "return-nones"
                 else "exclude-nones")) d2 ;;
  d4 <- CJA.set_item2 "settings" "countRepeatInstances"
          (VBool (truthy (CJA.countRepeatInstances a))) d3 ;;
  d5 <- match CJA.dataViewId a with
        | Some dv => store_subscript d4 (VStr "dataId") (VStr dv)
        | None => Ok d4
        end ;;
  CJA.set_item2 "statistics" "ignoreZeroes"
    (VBool (truthy (CJA.ignoreZeroes a))) d5.

(** The request document [doc] with its page number set to [i]. *)
Definition page_doc (doc : value) (i : Z) : value :=
  match doc with
  | VDict d =>
      match dict_get d (VStr "settings") with
      | Some (VDict s) =>
          VDict (dict_set d (VStr "settings")
                   (VDict (dict_set s (VStr "page") (VInt i))))
      | _ => doc
      end
  | _ => doc
  end.

(** The documents of the pages [i], [i+1], ..., [i+n-1]. *)
Fixpoint page_docs (doc : value) (i : Z) (n : nat) : list value :=
  match n with
  | O => []
  | Datatypes.S n' => page_doc doc i :: page_docs doc (i + 1) n'
  end.

(** What the service answers when the documents [docs] are posted one
    after the other, and the state it ends in. *)
Fixpoint answers {S : Type} (P : CJA.platform S) (s : S)
  (url : string) (params : value) (docs : list value)
  : list (res value) * S :=
  match docs with
  | [] => ([], s)
  | doc :: docs' =>
      let (r, s1) := CJA.postData P s url doc params in
      let (rs, s2) := answers P s1 url params docs' in
      (r :: rs, s2)
  end.

(** The log entries of these posts. *)
Definition post_log (url : string) (params : value)
  (docs : list value) (replies : list (res value)) : list World.exchange :=
  map (fun dr => World.mkExchange (World.Post url (fst dr) params) (snd dr))
      (combine docs replies).

(** The rows of a page of a normal response. *)
Definition page_rows (p : value) : list value :=
  match p with
  | VDict d => match dict_get d (VStr "rows") with
               | Some (VList rows) => rows
               | _ => []
               end
  | _ => []
  end.

(** A page the loop can take in: a dictionary with a list of rows and an
    integer count. *)
Definition valid_page (p : value) : Prop :=
  exists d rows n,
    p = VDict d /\ dict_get d (VStr "rows") = Some (VList rows) /\
    dict_get d (VStr "numberOfElements") = Some (VInt n).

(** The service said this page is the last one
    ([res.get("lastPage", True) == True]). *)
Definition says_last (p : value) : bool :=
  match p with
  | VDict d => match dict_get d (VStr "lastPage") with
               | Some v => py_eqb v (VBool true)
               | None => true
               end
  | _ => false
  end.

(** After page [p], with [n] rows accumulated, the loop stops: the
    service said so or the cap is reached. *)
Definition stop_after (cap : extnum) (n : nat) (p : value) : bool :=
  len_reaches n cap || says_last p.

(** The pages [ps] follow a page after which the loop had (not) stopped,
    with [n] rows accumulated: the loop goes on through [ps] and stops
    exactly after the last of them. *)
Fixpoint stops_at_end (cap : extnum) (n : nat) (stopped : bool)
  (ps : list value) : bool :=
  match ps with
  | [] => stopped
  | p :: ps' =>
      negb stopped &&
      stops_at_end cap (n + length (page_rows p))
                   (stop_after cap (n + length (page_rows p)) p) ps'
  end.

(** The defaults, except that the rows themselves are asked for. *)
Definition args_raw : CJA.report_args :=
  CJA.mkArgs (VInt 20000) (VStr "inf") "default" true false false false
             None None None None true false false.

Definition doc_m1_home_settled : value :=
  Eval vm_compute in
    match settle args_raw doc_m1_home with
    | Ok doc => doc
    | Raise _ => VNone
    end.

(** ** The metric container of a request, read as declarations *)

Record metric_decl : Type := mkMetric {
  m_columnId : string;
  m_id : string;
  m_filters : list string      (* the filter ids chained onto the column *)
}.

Inductive filter_kind : Type :=
| FBreakdown (dimension itemId : string)
| FDateRange (dateRange : string)
| FSegment (segmentId : string).

Record filter_decl : Type := mkFilter {
  f_id : string;
  f_kind : filter_kind
}.

Fixpoint strings (vs : list value) : option (list string) :=
  match vs with
  | [] => Some []
  | VStr s :: vs' => option_map (cons s) (strings vs')
  | _ :: _ => None
  end.

(** A metric of the container: [{"columnId": str, "id": str}] with an
    optional list of filter ids. *)
Definition metric_fields (v : value) : option metric_decl :=
  match v with
  | VDict d =>
      match dict_get d (VStr "columnId"), dict_get d (VStr "id") with
      | Some (VStr c), Some (VStr i) =>
          match dict_get d (VStr "filters") with
          | None => Some (mkMetric c i [])
          | Some (VList fs) => option_map (mkMetric c i) (strings fs)
          | Some _ => None
          end
      | _, _ => None
      end
  | _ => None
  end.

(** A declared metric filter: a breakdown, a date range or a segment. *)
Definition filter_fields (v : value) : option filter_decl :=
  match v with
  | VDict d =>
      match dict_get d (VStr "id"), dict_get d (VStr "type") with
      | Some (VStr i), Some (VStr ty) =>
          if String.eqb ty "breakdown" then
            match dict_get d (VStr "dimension"),
                  dict_get d (VStr "itemId") with
            | Some (VStr dim), Some (VStr item) =>
                Some (mkFilter i (FBreakdown dim item))
            | _, _ => None
            end
          else if String.eqb ty "dateRange" then
            match dict_get d (VStr "dateRange") with
            | Some (VStr dr) => Some (mkFilter i (FDateRange dr))
            | _ => None
            end
          else if String.eqb ty "segment" then
            match dict_get d (VStr "segmentId") with
            | Some (VStr sid) => Some (mkFilter i (FSegment sid))
            | _ => None
            end
          else None
      | _, _ => None
      end
  | _ => None
  end.

Fixpoint read_all {A} (read : value -> option A) (vs : list value)
  : option (list A) :=
  match vs with
  | [] => Some []
  | v :: vs' =>
      match read v, read_all read vs' with
      | Some x, Some xs => Some (x :: xs)
      | _, _ => None
      end
  end.

(** The display value the code gives a filter in a column name (lines
    1385-1396): a breakdown item shows as "<dimension>:<itemId>", a date
    range as its token, and a segment as its id, whether or not the id
    matches the segment-id pattern: the name looked up for a segment goes
    to [metricFilters], not to [filterValue].  The specification's own
    wording is [spec_display_value] below. *)
Definition display_value (k : filter_kind) : string :=
  match k with
  | FBreakdown dimension itemId => dimension ++ ":" ++ itemId
  | FDateRange dateRange => dateRange
  | FSegment segmentId => segmentId
  end.

Fixpoint find_filter (fs : list filter_decl) (id : string)
  : option filter_decl :=
  match fs with
  | [] => None
  | f :: fs' => if String.eqb (f_id f) id then Some f else find_filter fs' id
  end.

(** The metric id joined by ":::" with the display value of every filter
    chained onto the column, in order. *)
Fixpoint joined_name (fs : list filter_decl) (name : string)
  (chain : list string) : option string :=
  match chain with
  | [] => Some name
  | id :: chain' =>
      match find_filter fs id with
      | Some f =>
          joined_name fs (name ++ ":::" ++ display_value (f_kind f)) chain'
      | None => None
      end
  end.

Definition resolved_name (fs : list filter_decl) (m : metric_decl)
  : option string :=
  joined_name fs (m_id m) (m_filters m).

(** Every metadata lookup is answered with a dictionary that has a
    name. *)
Definition lookups_answer {S : Type} (P : CJA.platform S) : Prop :=
  forall s url params,
    exists d name s',
      CJA.getData P s url params = (Ok (VDict d), s') /\
      dict_get d (VStr "name") = Some name.

(** The dictionary obtained by storing the entries [es], in order, into
    [acc]. *)
Definition store_all (es : list (string * value)) (acc : pydict) : pydict :=
  fold_left (fun acc e => dict_set acc (VStr (fst e)) (snd e)) es acc.

(** The metrics that carry at least one filter. *)
Definition filtered (ms : list metric_decl) : list metric_decl :=
  filter (fun m => match m_filters m with [] => false | _ => true end) ms.

(** ** A synthetic static report

    Three metrics over two static rows: the first and the third column
    belong to the row "All_Visits", the second to the row "Mobile". *)

Definition static_filter (id segmentId : string) : value :=
  VDict [(VStr "id", VStr id); (VStr "type", VStr "segment");
         (VStr "segmentId", VStr segmentId)].

Definition static_metric (columnId id : string) (filters : list string)
  : value :=
  VDict [(VStr "columnId", VStr columnId); (VStr "id", VStr id);
         (VStr "filters", VList (map VStr filters))].

Definition doc_three_over_two : value :=
  VDict [
    (VStr "metricContainer", VDict [
       (VStr "metrics",
        VList [static_metric "0" "metrics/visits" ["STATIC_ROW_0"];
               static_metric "1" "metrics/visits" ["STATIC_ROW_1"];
               static_metric "2" "metrics/orders" ["STATIC_ROW_0"]]);
       (VStr "metricFilters",
        VList [static_filter "STATIC_ROW_0" "All_Visits";
               static_filter "STATIC_ROW_1" "Mobile"])]);
    (VStr "settings", VDict []);
    (VStr "statistics", VDict [])].

Definition response_three_over_two : value :=
  VDict [(VStr "columns",
          VDict [(VStr "columnIds", VList [VStr "0"; VStr "1"; VStr "2"])]);
         (VStr "summaryData",
          VDict [(VStr "totals", VList [VInt 10; VInt 4; VInt 3])])].

Definition world_static : World.world (list value) :=
  World.mkWorld [doc_three_over_two] [response_three_over_two] [].

Definition run_static_decode
  : option (res (Z * pydict * pydict * pydict * pydict)
            * World.world (list value)) :=
  Eval vm_compute in
    CJA._decrypteStaticData scripted doc_three_over_two
                            response_three_over_two world_static.

(** What the static decoder counts: the declared metrics and the distinct
    static rows. *)
Definition static_counts {S : Type} (P : CJA.platform S)
  (dataRequest : value) : res (nat * nat) :=
  mc <- subscript dataRequest (VStr "metricContainer") ;;
  mfs <- subscript mc (VStr "metricFilters") ;;
  mfl <- py_iter mfs ;;
  tableSegmentsRows <- CJA.static_tableSegmentsRows mfl ;;
  ms <- subscript mc (VStr "metrics") ;;
  staticRows <- CJA.py_set P (map snd tableSegmentsRows) ;;
  nb_metrics <- py_len ms ;;
  Ok (nb_metrics, length staticRows).

Definition static_decoded : Z * pydict * pydict * pydict * pydict :=
  Eval vm_compute in
    match run_static_decode with
    | Some (Ok out, _) => out
    | _ => (0%Z, [], [], [], [])
    end.

(** ** The companions of the traversal, made concrete *)

(** [s.split(sep)[1:]] joined back: the part of [s] after the first
    [sep]. *)
Definition split_rest (sep s : string) : string :=
  match String.index 0 sep s with
  | Some n =>
      String.substring (n + String.length sep)
                       (String.length s - (n + String.length sep)) s
  | None => ""
  end.

Definition decimal (n : nat) : string :=
  NilZero.string_of_int (Z.to_int (Z.of_nat n)).

(** Modelled from the spec: the declaration of a filter id in the request
    document, which is not among the sources.  An id of the form
    "<dimension>:::<itemId>" is a breakdown, any other id a segment. *)
Definition filter_declaration (f : string) : value :=
  if str_contains ":::" f then
    VDict [(VStr "id", VStr f); (VStr "type", VStr "breakdown");
           (VStr "dimension", VStr (split_head ":::" f));
           (VStr "itemId", VStr (split_rest ":::" f))]
  else
    VDict [(VStr "id", VStr f); (VStr "type", VStr "segment");
           (VStr "segmentId", VStr f)].

Fixpoint metric_declarations (mf : list (string * list string))
  (i : nat) (ms : list string) : list value :=
  match ms with
  | [] => []
  | m :: ms' =>
      VDict ((VStr "columnId", VStr (decimal i)) :: (VStr "id", VStr m) ::
             match RequestCreator.filters_of mf m with
             | [] => []
             | fs => [(VStr "filters", VList (map VStr fs))]
             end)
        :: metric_declarations mf (Datatypes.S i) ms'
  end.

(** Modelled from the spec: the JSON document of a request builder, which
    is not among the sources; the keys are those [getReport] reads and
    writes. *)
Definition request_json (r : RequestCreator.t) : value :=
  VDict [
    (VStr "globalFilters", VList (map VStr (RequestCreator.globalFilters r)));
    (VStr "metricContainer", VDict [
       (VStr "metrics",
        VList (metric_declarations (RequestCreator.metricFilters r) 0
                                   (RequestCreator.metrics r)));
       (VStr "metricFilters",
        VList (map filter_declaration
                   (flat_map snd (RequestCreator.metricFilters r))))]);
    (VStr "dimension", VStr (RequestCreator.dimension r));
    (VStr "settings", VDict [
       (VStr "countRepeatInstances", VBool (RequestCreator.repeatInstance r));
       (VStr "limit", RequestCreator.limit r);
       (VStr "page", VInt 0);
       (VStr "nonesBehavior",
        VStr (if RequestCreator.noneBehavior r then "return-nones"
              else "exclude-nones"))]);
    (VStr "statistics", VDict []);
    (VStr "dataId", VStr (RequestCreator.dataViewId r))].

Definition label_of (v : value) : string :=
  match v with VStr s => s | _ => "" end.

(** Modelled from the spec: the tabular view of a workspace, which is not
    among the sources.  One row per entry of the decoded table: the row
    key under "itemId", then the cells [rowLabel, metric1, ...]; the label
    column is named after the dimension of the request, the metric columns
    after the resolved column names. *)
Definition workspace_frame (data : CJA.Workspace) (doc : value)
  : Pandas.DataFrame :=
  Pandas.mkFrame
    ("itemId"
       :: label_of (match doc with
                    | VDict d => match dict_get d (VStr "dimension") with
                                 | Some v => v
                                 | None => VNone
                                 end
                    | _ => VNone
                    end)
       :: match CJA.metrics data with
          | VDict cols => map (fun kv => label_of (snd kv)) cols
          | VList names => map label_of names
          | _ => []
          end)
    (match CJA.responseData data with
     | VDict table =>
         map (fun kv => fst kv :: match snd kv with
                                  | VList cells => cells
                                  | _ => []
                                  end) table
     | _ => []
     end).

Definition concrete_companions : CJA.companions :=
  CJA.mkCompanions request_json workspace_frame.

(** ** Synthetic traversals *)

Definition last_page (rows : list value) : value := mk_page rows true.

(** Two dimensions, one metric: two pages at level 0, then the devices of
    each page. *)
Definition args_page_device : CJA.multi_args :=
  CJA.mkMulti (Some ["page"; "device"])
              (Some [("page", VInt 2); ("device", VStr "inf")])
              (Some ["visits"]) (Some "dv1") (Some []) None true true.

Definition world_page_device : World.world (list value) :=
  World.mkWorld []
    [ last_page [mk_row "home" "Home" [10]%Z; mk_row "cart" "Cart" [5]%Z];
      last_page [mk_row "d1" "Desktop" [7]%Z; mk_row "d2" "Mobile" [3]%Z];
      last_page [mk_row "d1" "Desktop" [4]%Z] ]
    [].

(** Three dimensions; the service has answers ready for a third level. *)
Definition args_page_device_browser : CJA.multi_args :=
  CJA.mkMulti (Some ["page"; "device"; "browser"])
              (Some [("page", VInt 2); ("device", VStr "inf");
                     ("browser", VInt 5)])
              (Some ["visits"]) (Some "dv1") (Some []) None true true.

Definition world_page_device_browser : World.world (list value) :=
  World.mkWorld []
    [ last_page [mk_row "home" "Home" [10]%Z; mk_row "cart" "Cart" [5]%Z];
      last_page [mk_row "d1" "Desktop" [7]%Z; mk_row "d2" "Mobile" [3]%Z];
      last_page [mk_row "d1" "Desktop" [4]%Z];
      last_page [mk_row "b1" "Firefox" [1]%Z];
      last_page [mk_row "b1" "Firefox" [1]%Z] ]
    [].

(** The same call without the list of global filters. *)
Definition args_no_globalFilters : CJA.multi_args :=
  CJA.mkMulti (Some ["page"; "device"])
              (Some [("page", VInt 2); ("device", VStr "inf")])
              (Some ["visits"]) (Some "dv1") None None true true.

(** The [dimension] of every document posted, oldest first. *)
Definition posted_dimensions (xs : list World.exchange) : list string :=
  map (fun doc => match doc with
                  | VDict d => match dict_get d (VStr "dimension") with
                               | Some (VStr s) => s
                               | _ => ""
                               end
                  | _ => ""
                  end) (posted xs).

(** The item pools of a traversal are filed under the keys [ks] only. *)
Definition pool_within (ks : list string) (st : CJA.traversal) : Prop :=
  forall k, CJA.sdict_get (CJA.dict_breakdown_itemId st) k <> None ->
            In k ks.

Definition run_page_device_browser
  : option (res CJA.multi_workspace * World.world (list value)) :=
  Eval vm_compute in
    CJA.getMultidimensionalReport scripted concrete_companions 5
      args_page_device_browser world_page_device_browser.

Definition result_page_device_browser : CJA.multi_workspace :=
  Eval vm_compute in
    match run_page_device_browser with
    | Some (Ok r, _) => r
    | _ => CJA.mkMultiWorkspace Pandas.empty_frame RequestCreator.new ""
    end.

Definition world_after_page_device_browser : World.world (list value) :=
  Eval vm_compute in
    match run_page_device_browser with
    | Some (_, w) => w
    | None => world_page_device_browser
    end.

(** The frame of the devices of the page "home", as the workspace hands it
    to the traversal, and the translation of the level-0 items. *)
Definition frame_devices_of_home : Pandas.DataFrame :=
  Pandas.mkFrame ["itemId"; "device"; "0"]
    [ [VStr "d1"; VStr "Desktop"; VInt 7];
      [VStr "d2"; VStr "Mobile"; VInt 3] ].

Definition translate_pages : list (string * pydict) :=
  [("page", [(VStr "home", VStr "Home"); (VStr "cart", VStr "Cart")])].


(** ** The component endpoints

    The methods of the [CJA] class that read and manage the components of
    an organisation: the current user, calculated metrics, shares, tags,
    top items, dimensions, metrics, data views, filters and audit logs.
    Each checks its arguments, builds a path and a query, and hands them to
    the connector.  Logging only prints and is not followed; an omitted
    keyword argument of the connector is [None]. *)

Module Endpoints.

Import World.
Local Open Scope m_scope.

(** What these methods reach besides [postData], [getData] and
    [json.load]: the PUT and DELETE verbs of the connector, and a file read
    as text ([open] followed by [f.read()]). *)
Record extension (S : Type) : Type := mkExtension {
  putData : S -> string -> value -> value -> res value * S;
  deleteData : S -> string -> value -> res value * S;
  read_text : string -> res string
}.

Arguments mkExtension {S}.
Arguments putData {S} e.
Arguments deleteData {S} e.
Arguments read_text {S} e.

(** What a listing method returns: [pd.DataFrame(data)], kept as the
    records the frame is built from, or the JSON value itself. *)
Inductive listing : Type :=
| DataFrame (data : value)
| Json (v : value).

(** *** Pieces of Python used by the endpoints *)

(** [v is None] *)
Definition is_none (v : value) : bool :=
  match v with VNone => true | _ => false end.

(** [type(v) == dict] *)
Definition is_dict (v : value) : bool :=
  match v with VDict _ => true | _ => false end.

(** [type(v) == list] *)
Definition is_list (v : value) : bool :=
  match v with VList _ => true | _ => false end.

(** Truth value of [v] in an [if]. *)
Definition py_truth (v : value) : bool :=
  match v with
  | VNone => false
  | VBool b => b
  | VInt z => negb (z =? 0)%Z
  | VStr s => negb (String.eqb s "")
  | VList l => match l with [] => false | _ => true end
  | VDict d => match d with [] => false | _ => true end
  end.

(** [f"{prefix}{id}"] *)
Definition fpath (prefix : string) (id : value) : res string :=
  (s <- py_format id ;; Ok (prefix ++ s)%string)%py.

(** [if v is not None: params[k] = v] *)
Definition given (k : string) (v : value) (params : pydict) : pydict :=
  if is_none v then params else dict_set params (VStr k) v.

(** [if flag: params[k] = v] *)
Definition when (flag : bool) (k : string) (v : value) (params : pydict)
  : pydict :=
  if flag then dict_set params (VStr k) v else params.

(** [params[key] += 1] *)
Definition next_page (key : string) (params : pydict) : res pydict :=
  (cur <- CJA.dict_lookup params (VStr key) ;;
   new <- py_iadd cur (VInt 1) ;;
   Ok (dict_set params (VStr key) new))%py.

(** [".json" in data]: a substring of a string, a key of a dictionary, an
    item of a list. *)
Definition mentions_json (data : value) : res bool :=
  match data with
  | VStr s => Ok (str_contains ".json" s)
  | VDict d => Ok (dict_has d (VStr ".json"))
  | VList xs => Ok (list_contains xs (VStr ".json"))
  | _ => Raise TypeError
  end.

(** [len(data) > float(n_results)] for a length [n] *)
Definition len_exceeds (n : nat) (x : extnum) : bool :=
  match x with
  | Fin z => (z <? Z.of_nat n)%Z
  | PlusInf => false
  end.

(** The thirteen component types a tag can be attached to. *)
Definition component_types : list value :=
  [VStr "segment"; VStr "dashboard"; VStr "bookmark";
   VStr "calculatedMetric"; VStr "project"; VStr "dateRange";
   VStr "metric"; VStr "dimension"; VStr "virtualReportSuite";
   VStr "scheduledJob"; VStr "alert"; VStr "classificationSet";
   VStr "dataView"].

Definition calculatedMetrics_expansion : string :=
  "dataName,approved,favorite,shares,tags,sharesFullName,usageSummary,usageSummaryWithRelevancyScore,reportSuiteName,siteTitle,ownerFullName,modified,migratedIds,isDeleted,definition,authorization,compatibility,legacyId,internal,dataGroup,categories".

Definition dimension_expansion : string :=
  "approved,favorite,tags,usageSummary,usageSummaryWithRelevancyScore,description,sourceFieldId,segmentable,required,hideFromReporting,hidden,includeExcludeSetting,fieldDefinition,bucketingSetting,noValueOptionsSetting,defaultDimensionSort,persistenceSetting,storageId,tableName,dataSetIds,dataSetType,type,schemaPath,hasData,sourceFieldName,schemaType,sourceFieldType,fromGlobalLookup,multiValued,precision".

Definition dataView_expansion : string :=
  "name,description,owner,isDeleted,parentDataGroupId,segmentList,currentTimezoneOffset,timezoneDesignator,modified,createdDate,organization,curationEnabled,recentRecordedAccess,sessionDefinition,curatedComponents,externalData,containerNames".

Definition filter_expansion : string :=
  "compatibility,definition,internal,modified,isDeleted,definitionLastModified,createdDate,recentRecordedAccess,performanceScore,owner,dataId,ownerFullName,dataName,sharesFullName,approved,favorite,shares,tags,usageSummary,usageSummaryWithRelevancyScore".

(** The arguments of [getTopItems]. *)
Record topItems_args : Type := mkTopItems {
  ti_dataId : value;
  ti_dimension : value;
  ti_dateRange : value;
  ti_startDate : value;
  ti_endDate : value;
  ti_limit : value;
  ti_searchClause : value;
  ti_searchAnd : value;
  ti_searchOr : value;
  ti_searchNot : value;
  ti_searchPhrase : value;
  ti_remoteLoad : bool;
  ti_xml : bool;
  ti_noneValues : bool
}.

(** The arguments of [getAuditLogs]; [save] is left at [False]. *)
Record auditLogs_args : Type := mkAuditLogs {
  al_startDate : value;
  al_endDate : value;
  al_action : value;
  al_component : value;
  al_componentId : value;
  al_userType : value;
  al_userId : value;
  al_userEmail : value;
  al_description : value;
  al_pageSize : value;
  al_n_results : value;
  al_output : string
}.

(** The query of [getAuditLogs], as it is before the first request.  The
    line [params["userType"]] reads the query, it does not write to it. *)
Definition auditLogs_params (a : auditLogs_args) : res pydict :=
  (let params := [(VStr "pageNumber", VInt 0);
                  (VStr "pageSize", al_pageSize a)] in
   let params :=
     if negb (is_none (al_startDate a)) && negb (is_none (al_endDate a))
     then dict_set (dict_set params (VStr "startDate") (al_startDate a))
                   (VStr "endDate") (al_endDate a)
     else params in
   let params := given "action" (al_action a) params in
   let params := given "component" (al_component a) params in
   let params := given "componentId" (al_componentId a) params in
   _ <- (if negb (is_none (al_userType a)) then
           CJA.dict_lookup params (VStr "userType")
         else Ok VNone) ;;
   let params := given "userId" (al_userId a) params in
   let params := given "userEmail" (al_userEmail a) params in
   let params := given "description" (al_description a) params in
   Ok params)%py.

Section Methods.

Context {S : Type} (P : CJA.platform S) (X : extension S).

(** [connector.putData(url, data=data, params=params)].  The journal
    [calls] follows the GET and POST traffic; a PUT or a DELETE shows in
    the state of the service. *)
Definition connector_putData (url : string) (data params : value)
  : M S value :=
  fun w =>
    let (r, s') := putData X (srv w) url data params in
    Some (r, mkWorld (heap w) s' (calls w)).

(** [connector.deleteData(url, params=params)] *)
Definition connector_deleteData (url : string) (params : value)
  : M S value :=
  fun w =>
    let (r, s') := deleteData X (srv w) url params in
    Some (r, mkWorld (heap w) s' (calls w)).

(** [with open(data, "r") as f: data = json.load(f)]: [open] takes a
    path. *)
Definition load_json_file (data : value) : res value :=
  match data with
  | VStr path => CJA.read_json P path
  | _ => Raise TypeError
  end.

(** [with open(data, "r") as f: data = json.load(f.read())]: [json.load]
    calls the [read] method of its argument, and the text of the file has
    none. *)
Definition load_json_text (data : value) : res value :=
  match data with
  | VStr path => (_ <- read_text X path ;; Raise AttributeError)%py
  | _ => Raise TypeError
  end.

(** [if ".json" in data: with open(data) ...], reading with [read]. *)
Definition json_or_file (read : value -> res value) (data : value)
  : res value :=
  (is_file <- mentions_json data ;;
   if is_file then read data else Ok data)%py.

(** *** The current user *)

Definition getCurrentUser (admin useCache : bool) : M S value :=
  let path := "/aresconfig/users/me" in
  let params := [(VStr "useCache", VBool useCache)] in
  let params := when admin "expansion" (VStr "admin") params in
  CJA.connector_getData P (CJA.endpoint P ++ path)%string (VDict params).

(** *** Calculated metrics *)

(** The loop [while ...: params["page"] += 1; res = getData(...);
    data += res["content"]; last = res.get(flag, True)] shared by
    [getCalculatedMetrics] ([flag] is "lastPage", the loop goes on while
    [lastPage != True]), [getDataViews] ("last", [last != True]) and
    [getFilters] ("lastPage", [lastPage == False]).  It yields the last
    response and the accumulated data; [fuel] bounds the number of
    iterations. *)
Fixpoint more_pages (fuel : nat) (url flag : string)
  (go_on : value -> bool) (params : pydict) (res data last : value)
  : M S (value * value) :=
  if go_on last then
    match fuel with
    | O => fun _ => None
    | Datatypes.S fuel' =>
        params' <- lift (next_page "page" params) ;;
        res' <- CJA.connector_getData P url (VDict params') ;;
        content <- lift (subscript res' (VStr "content")) ;;
        data' <- lift (py_iadd data content) ;;
        last' <- lift (py_get res' (VStr flag) (VBool true)) ;;
        more_pages fuel' url flag go_on params' res' data' last'
    end
  else ret (res, data).

(** [last != True] *)
Definition not_true (last : value) : bool := negb (py_eqb last (VBool true)).

(** [last == False] *)
Definition is_false (last : value) : bool := py_eqb last (VBool false).

(** The query of [getCalculatedMetrics], as it is before the first
    request. *)
Definition calculatedMetrics_params (full : bool)
  (inclType dataIds ownerId limit filterByIds : value)
  (favorite approved : bool) : pydict :=
  let params := [(VStr "limit", limit); (VStr "includeType", inclType);
                 (VStr "pagination", VBool false); (VStr "page", VInt 0)] in
  let params :=
    when full "expension" (VStr calculatedMetrics_expansion) params in
  let params := given "dataIds" dataIds params in
  let params := given "ownerId" ownerId params in
  let params := given "filterByIds" filterByIds params in
  let params := when favorite "favorite" (VBool favorite) params in
  let params := when approved "approved" (VBool approved) params in
  params.

Definition getCalculatedMetrics (fuel : nat) (full : bool)
  (inclType dataIds ownerId limit filterByIds : value)
  (favorite approved : bool) (output : string) : M S listing :=
  let path := "/calculatedmetrics" in
  let params := calculatedMetrics_params full inclType dataIds ownerId limit
                                         filterByIds favorite approved in
  let url := (CJA.endpoint P ++ path)%string in
  res <- CJA.connector_getData P url (VDict params) ;;
  data <- lift (subscript res (VStr "content")) ;;
  lastPage <- lift (py_get res (VStr "lastPage") (VBool true)) ;;
  '(res', data') <-
     more_pages fuel url "lastPage" not_true params res data lastPage ;;
  if String.eqb output "df" then ret (DataFrame data') else ret (Json res').

Definition getCalculatedMetricsFunctions (output : string) : M S listing :=
  let path := "/calculatedmetrics/functions" in
  res <- CJA.connector_getData P (CJA.endpoint P ++ path)%string VNone ;;
  if String.eqb output "dataframe" then ret (DataFrame res)
  else ret (Json res).

Definition getCalculatedMetric (calcId : value) (full : bool) : M S value :=
  if is_none calcId then
    raise (ValueError "Requires a Calculated Metrics ID")
  else
    path <- lift (fpath "/calculatedmetrics/" calcId) ;;
    let params := [(VStr "includeHidden", VBool true)] in
    let params :=
      when full "expansion" (VStr CJA.calculatedMetric_expansion) params in
    CJA.connector_getData P (CJA.endpoint P ++ path)%string (VDict params).

Definition createCalculatedMetric (data : value) : M S value :=
  if is_none data then
    raise (ValueError "Require a dictionary to create the calculated metrics")
  else
    let path := "/calculatedmetrics" in
    CJA.connector_postData P (CJA.endpoint P ++ path)%string data VNone.

Definition validateCalculatedMetric (data : value) : M S value :=
  if is_none data || is_dict data then
    raise (ValueError "Require a dictionary to create the calculated metrics")
  else
    let path := "/calculatedmetrics/validate" in
    CJA.connector_postData P (CJA.endpoint P ++ path)%string data VNone.

Definition deleteCalculateMetrics (calcId : value) : M S value :=
  if is_none calcId then
    raise (ValueError "requires a calculated metrics ID")
  else
    path <- lift (fpath "/calculatedmetrics/" calcId) ;;
    connector_deleteData (CJA.endpoint P ++ path)%string VNone.

Definition updateCalculatedMetrics (calcId data : value) : M S value :=
  if is_none calcId then
    raise (ValueError "Require a calculated metrics")
  else if is_none data || is_dict data then
    raise (ValueError "Require a dictionary to create the calculated metrics")
  else
    path <- lift (fpath "/calculatedmetrics/" calcId) ;;
    connector_putData (CJA.endpoint P ++ path)%string data VNone.

(** *** Shares *)

Definition getShares (userId inclType limit : value) (useCache : bool)
  : M S value :=
  let params := [(VStr "limit", limit); (VStr "includeType", inclType);
                 (VStr "useCache", VBool useCache)] in
  let path := "/componentmetadata/shares" in
  let params := given "userId" userId params in
  CJA.connector_getData P (CJA.endpoint P ++ path)%string (VDict params).

Definition getShare (shareId : value) (useCache : bool) : M S value :=
  let params := [(VStr "useCache", VBool useCache)] in
  if is_none shareId then
    raise (ValueError "Require an ID to retrieve the element")
  else
    path <- lift (fpath "/componentmetadata/shares/" shareId) ;;
    CJA.connector_getData P (CJA.endpoint P ++ path)%string (VDict params).

Definition deleteShare (shareId : value) : M S value :=
  if is_none shareId then
    raise (ValueError "Require an ID to retrieve the element")
  else
    path <- lift (fpath "/componentmetadata/shares/" shareId) ;;
    connector_deleteData (CJA.endpoint P ++ path)%string VNone.

Definition searchShares (data : value) (full : bool) (limit : value)
  : M S value :=
  let path := "/componentmetadata/shares/component/search" in
  if is_none data then
    raise (ValueError "require a dictionary to specify the search.")
  else
    let params := [(VStr "limit", limit)] in
    let params := when full "expansion" (VStr "sharesFullName") params in
    CJA.connector_postData P (CJA.endpoint P ++ path)%string data
                           (VDict params).

Definition updateShares (data : value) (useCache : bool) : M S value :=
  if is_none data || negb (is_list data) then
    raise (ValueError "Require a list of element to share")
  else
    let path := "/componentmetadata/shares" in
    let params := [(VStr "useCache", VBool useCache)] in
    connector_putData (CJA.endpoint P ++ path)%string data (VDict params).

(** *** Tags *)

Definition getTags (limit : value) : M S value :=
  let path := "/componentmetadata/tags" in
  let params := [(VStr "limit", limit)] in
  CJA.connector_getData P (CJA.endpoint P ++ path)%string (VDict params).

Definition createTags (data : value) : M S value :=
  let path := "/componentmetadata/tags" in
  if is_none data && negb (is_list data) then
    raise (ValueError "Require a list of tags to be created")
  else
    CJA.connector_postData P (CJA.endpoint P ++ path)%string data VNone.

Definition deleteTags (componentIds componentType : value) : M S value :=
  let path := "/componentmetadata/tags" in
  if is_none componentIds then
    raise (ValueError "Require a component ID")
  else if is_none componentType then
    raise (ValueError "Require a component type")
  else if negb (list_contains component_types componentType) then
    raise (KeyError (VStr "componentType not in the enum"))
  else
    params <- lift (p <- CJA.dict_store [] componentType componentType ;;
                    CJA.dict_store p componentIds componentIds)%py ;;
    connector_deleteData (CJA.endpoint P ++ path)%string (VDict params).

Definition getTag (tagId : value) : M S value :=
  if is_none tagId then raise (ValueError "Require a tag ID")
  else
    path <- lift (fpath "/componentmetadata/tags/" tagId) ;;
    CJA.connector_getData P (CJA.endpoint P ++ path)%string VNone.

Definition getComponentTags (componentId componentType : value)
  : M S value :=
  if is_none componentId then
    raise (ValueError "Require a component ID")
  else if is_none componentType then
    raise (ValueError "Require a component type")
  else if negb (list_contains component_types componentType) then
    raise (KeyError (VStr "componentType not in the enum"))
  else
    let params := [(VStr "componentId", componentId);
                   (VStr "componentType", componentType)] in
    let path := "/componentmetadata/tags/search" in
    CJA.connector_getData P (CJA.endpoint P ++ path)%string (VDict params).

Definition updateTags (data : value) : M S value :=
  let path := "/componentmetadata/tags/tagitems" in
  if is_none data || negb (is_list data) then
    raise (ValueError "Require a list of elements to update")
  else
    connector_putData (CJA.endpoint P ++ path)%string data VNone.

(** *** Top items *)

Definition getTopItems (a : topItems_args) : M S value :=
  let path := "/reports/topItems" in
  if is_none (ti_dataId a) then raise (ValueError "Require a data ID")
  else if is_none (ti_dimension a) then
    raise (ValueError "Require a dimension")
  else
    let params := [(VStr "dataId", ti_dataId a);
                   (VStr "dimension", ti_dimension a);
                   (VStr "limit", ti_limit a);
                   (VStr "allowRemoteLoad", VStr "true");
                   (VStr "includeOberonXml", VBool false);
                   (VStr "lookupNoneValues", VBool true)] in
    let params := given "dateRange" (ti_dateRange a) params in
    let params :=
      if negb (is_none (ti_startDate a)) && negb (is_none (ti_endDate a))
      then dict_set (dict_set params (VStr "startDate") (ti_startDate a))
                    (VStr "endDate") (ti_endDate a)
      else params in
    let params := given "search-clause" (ti_searchClause a) params in
    let params := given "searchAnd" (ti_searchAnd a) params in
    let params := given "searchOr" (ti_searchOr a) params in
    let params := given "searchNot" (ti_searchNot a) params in
    let params := given "searchPhrase" (ti_searchPhrase a) params in
    let params :=
      when (negb (ti_remoteLoad a)) "allowRemoteLoad" (VStr "false") params in
    let params := when (ti_xml a) "includeOberonXml" (VBool true) params in
    let params :=
      when (negb (ti_noneValues a)) "lookupNoneValues" (VBool false) params in
    CJA.connector_getData P (CJA.endpoint P ++ path)%string (VDict params).

(** *** Dimensions and metrics

    [verbose] is handed to the connector, which is not among the sources;
    the methods that take it are followed at [verbose = False], the
    default of their signature. *)

Definition getDimensions (dataviewId : value) (full : bool)
  (inclType : value) (output : string) : M S listing :=
  if is_none dataviewId then raise (ValueError "Require a Data View ID")
  else
    id <- lift (py_format dataviewId) ;;
    let path := ("/datagroups/data/" ++ id ++ "/dimensions")%string in
    let params := [] in
    let params := when full "expansion" (VStr dimension_expansion) params in
    let params := when (py_eqb inclType (VStr "hidden")) "includeType"
                       (VStr "hidden") params in
    res <- CJA.connector_getData P (CJA.endpoint P ++ path)%string
                                 (VDict params) ;;
    dimensions <- lift (py_get res (VStr "content") (VList [])) ;;
    if String.eqb output "df" then ret (DataFrame dimensions)
    else ret (Json dimensions).

Definition getDimension (dataviewId dimensionId : value) (full : bool)
  : M S value :=
  if is_none dataviewId then raise (ValueError "Require a Data View ID")
  else if is_none dimensionId then
    raise (ValueError "Require a Dimension ID")
  else
    dv <- lift (py_format dataviewId) ;;
    id <- lift (py_format dimensionId) ;;
    let path := ("/datagroups/data/" ++ dv ++ "/dimensions/" ++ id)%string in
    let params := [] in
    let params := when full "expansion" (VStr dimension_expansion) params in
    CJA.connector_getData P (CJA.endpoint P ++ path)%string (VDict params).

Definition getMetrics (dataviewId : value) (full : bool) (inclType : value)
  : M S value :=
  if is_none dataviewId then raise (ValueError "Require a Data View ID")
  else
    id <- lift (py_format dataviewId) ;;
    let path := ("/datagroups/data/" ++ id ++ "/metrics")%string in
    let params := [] in
    let params := when full "expansion" (VStr dimension_expansion) params in
    let params := when (py_eqb inclType (VStr "hidden")) "includeType"
                       (VStr "hidden") params in
    CJA.connector_getData P (CJA.endpoint P ++ path)%string (VDict params).

Definition getMetric (dataviewId metricId : value) (full : bool)
  : M S value :=
  if is_none dataviewId then raise (ValueError "Require a Data View ID")
  else if is_none metricId then raise (ValueError "Require a Dimension ID")
  else
    dv <- lift (py_format dataviewId) ;;
    id <- lift (py_format metricId) ;;
    let path := ("/datagroups/data/" ++ dv ++ "/metrics/" ++ id)%string in
    let params := [] in
    let params := when full "expansion" (VStr dimension_expansion) params in
    CJA.connector_getData P (CJA.endpoint P ++ path)%string (VDict params).

(** *** Data views *)

(** The query of [getDataViews], as it is before the first request. *)
Definition dataViews_params (limit : value) (full : bool)
  (parentDataGroupId externalIds externalParentIds includeType : value)
  (cached : bool) : pydict :=
  let params := [(VStr "limit", limit); (VStr "includeType", includeType);
                 (VStr "cached", VBool cached); (VStr "page", VInt 0)] in
  let params := when full "expansion" (VStr dataView_expansion) params in
  let params := when (py_truth parentDataGroupId) "parentDataGroupId"
                     parentDataGroupId params in
  let params := when (py_truth externalIds) "externalIds" externalIds
                     params in
  let params := when (py_truth externalParentIds) "externalParentIds"
                     externalParentIds params in
  params.

Definition getDataViews (fuel : nat) (limit : value) (full : bool)
  (output : string) (parentDataGroupId externalIds externalParentIds
                       includeType : value) (cached : bool) : M S listing :=
  let path := "/datagroups/dataviews" in
  let params := dataViews_params limit full parentDataGroupId externalIds
                                 externalParentIds includeType cached in
  let url := (CJA.endpoint P ++ path)%string in
  res <- CJA.connector_getData P url (VDict params) ;;
  data <- lift (subscript res (VStr "content")) ;;
  last <- lift (py_get res (VStr "last") (VBool true)) ;;
  '(_, data') <- more_pages fuel url "last" not_true params res data last ;;
  if String.eqb output "df" then ret (DataFrame data') else ret (Json data').

(** [getDataView] with [save] left at [False]. *)
Definition getDataView (dataViewId : value) (full : bool) : M S value :=
  if is_none dataViewId then raise (ValueError "dataViewId is required")
  else
    path <- lift (fpath "/datagroups/dataviews/" dataViewId) ;;
    let params := [] in
    let params := when full "expansion" (VStr dataView_expansion) params in
    CJA.connector_getData P (CJA.endpoint P ++ path)%string (VDict params).

Definition validateDataView (data : value) : M S value :=
  if is_none data then
    raise (ValueError
             "Require information to be passed for data view creation")
  else
    let path := "/datagroups/dataviews/validate" in
    data' <- lift (json_or_file load_json_file data) ;;
    CJA.connector_postData P (CJA.endpoint P ++ path)%string data' VNone.

Definition createDataView (data : value) : M S value :=
  let path := "/datagroups/dataviews/" in
  if is_none data then
    raise (ValueError
             "Require information to be passed for data view creation")
  else
    data' <- lift (json_or_file load_json_file data) ;;
    CJA.connector_postData P (CJA.endpoint P ++ path)%string data' VNone.

Definition deleteDataView (dataViewId : value) : M S value :=
  if is_none dataViewId then raise (ValueError "Require a data view ID")
  else
    path <- lift (fpath "/datagroups/dataviews/" dataViewId) ;;
    connector_deleteData (CJA.endpoint P ++ path)%string VNone.

Definition updateDataView (dataViewId data : value) : M S value :=
  if is_none dataViewId then raise (ValueError "Require a Data View ID")
  else if is_none data then
    raise (ValueError "Require data to be passed for the update")
  else
    path <- lift (fpath "/datagroups/dataviews/" dataViewId) ;;
    data' <- lift (json_or_file load_json_text data) ;;
    connector_putData (CJA.endpoint P ++ path)%string data' VNone.

Definition copyDataView (dataViewId : value) : M S value :=
  if is_none dataViewId then raise (ValueError "Require a data view ID")
  else
    path <- lift (fpath "/datagroups/dataviews/copy/" dataViewId) ;;
    connector_putData (CJA.endpoint P ++ path)%string VNone VNone.

(** *** Filters *)

(** The query of [getFilters], as it is before the first request. *)
Definition filters_params (limit : value) (full : bool)
  (includeType name dataIds ownerId filterByIds : value) (cached : bool)
  : pydict :=
  let params := [(VStr "limit", limit); (VStr "cached", VBool cached);
                 (VStr "includeType", includeType); (VStr "page", VInt 0)] in
  let params := when full "expansion" (VStr filter_expansion) params in
  let params := given "name" name params in
  let params := given "dataIds" dataIds params in
  let params := given "ownerId" ownerId params in
  let params := given "filterByIds" filterByIds params in
  params.

Definition getFilters (fuel : nat) (limit : value) (full : bool)
  (output : string) (includeType name dataIds ownerId filterByIds : value)
  (cached : bool) : M S listing :=
  let path := "/filters" in
  let params := filters_params limit full includeType name dataIds ownerId
                               filterByIds cached in
  let url := (CJA.endpoint P ++ path)%string in
  res <- CJA.connector_getData P url (VDict params) ;;
  lastPage <- lift (py_get res (VStr "lastPage") (VBool true)) ;;
  data <- lift (subscript res (VStr "content")) ;;
  '(_, data') <-
     more_pages fuel url "lastPage" is_false params res data lastPage ;;
  if String.eqb output "df" then ret (DataFrame data') else ret (Json data').

Definition getFilter (filterId : value) (full : bool) : M S value :=
  if is_none filterId then raise (ValueError "Require a filter ID")
  else
    path <- lift (fpath "/filters/" filterId) ;;
    let params := [] in
    let params := when full "expansion" (VStr filter_expansion) params in
    CJA.connector_getData P (CJA.endpoint P ++ path)%string (VDict params).

Definition deleteFilter (filterId : value) : M S value :=
  if is_none filterId then raise (ValueError "Require a filter ID")
  else
    path <- lift (fpath "/filters/" filterId) ;;
    connector_deleteData (CJA.endpoint P ++ path)%string VNone.

Definition validateFilter (data : value) : M S value :=
  if is_none data then raise (ValueError "Require some data to validate")
  else
    let path := "/filters/validate" in
    data' <- lift (json_or_file load_json_text data) ;;
    CJA.connector_postData P (CJA.endpoint P ++ path)%string data' VNone.

Definition createFilter (data : value) : M S value :=
  if is_none data then raise (ValueError "Require some data to validate")
  else
    let path := "/filters" in
    data' <- lift (json_or_file load_json_file data) ;;
    CJA.connector_postData P (CJA.endpoint P ++ path)%string data' VNone.

Definition updateFilter (filterId data : value) : M S value :=
  if is_none filterId then raise (ValueError "Require a filter ID")
  else if is_none data then
    raise (ValueError "Require some data to validate")
  else
    path <- lift (fpath "/filters/" filterId) ;;
    data' <- lift (json_or_file load_json_text data) ;;
    connector_putData (CJA.endpoint P ++ path)%string data' VNone.

(** *** Audit logs *)

(** The loop of [getAuditLogs]: one request per turn ([print(res)] only
    prints), the records of the response appended to [data]; it stops when
    the response says "last" (or says nothing) or when more than
    [n_results] records are in. *)
Fixpoint auditLogs_pages (fuel : nat) (url : string) (n_results : value)
  (params : pydict) (data : list value) (lastPage : value)
  : M S (list value) :=
  if not_true lastPage then
    match fuel with
    | O => fun _ => None
    | Datatypes.S fuel' =>
        res <- CJA.connector_getData P url (VDict params) ;;
        content <- lift (py_get res (VStr "content") (VList [])) ;;
        items <- lift (py_iter content) ;;
        let data' := (data ++ items)%list in
        last <- lift (py_get res (VStr "last") (VBool true)) ;;
        cap <- lift (py_float n_results) ;;
        let lastPage' :=
          if len_exceeds (length data') cap then VBool true else last in
        params' <- lift (next_page "pageNumber" params) ;;
        auditLogs_pages fuel' url n_results params' data' lastPage'
    end
  else ret data.

(** [getAuditLogs] with [save] left at [False]: whatever [output] is, the
    result is the data frame built from the records (the four columns the
    [try] block derives from it, when it can, belong to pandas). *)
Definition getAuditLogs (fuel : nat) (a : auditLogs_args) : M S listing :=
  let path := "/auditlogs/api/v1/auditlogs" in
  params <- lift (auditLogs_params a) ;;
  data <- auditLogs_pages fuel (CJA.endpoint P ++ path)%string
                          (al_n_results a) params [] (VBool false) ;;
  ret (DataFrame (VList data)).

Definition searchAuditLogs (filterMessage : value) : M S value :=
  let path := "/auditlogs/api/v1/auditlogs/search" in
  if is_none filterMessage then raise (ValueError "Require a filterMessage")
  else
    CJA.connector_postData P (CJA.endpoint P ++ path)%string filterMessage
                           VNone.

End Methods.

End Endpoints.

(** ** More on the decoded table and on the store *)

(** The item ids of the rows, in the order of the rows. *)
Definition row_keys (rows : list value) : list value :=
  flat_map (fun r => match row_itemId r with
                     | Some i => [VStr i]
                     | None => []
                     end) rows.

(** The first of "value", "itemId" and "data" that the row [d] lacks. *)
Definition missing_field (d : pydict) : option string :=
  if negb (dict_has d (VStr "value")) then Some "value"
  else if negb (dict_has d (VStr "itemId")) then Some "itemId"
  else if negb (dict_has d (VStr "data")) then Some "data"
  else None.

(** ** More synthetic worlds *)

(** The caller holds [doc_m1_home]; the service has nothing to answer and
    the connector raises. *)
Definition world_unanswered : World.world (list value) :=
  World.mkWorld [doc_m1_home] [] [].

(** A static report of one metric over two static rows, with the extra
    filter "1" on the metric of the first row. *)
Definition doc_static_filtered : value :=
  VDict [
    (VStr "metricContainer", VDict [
       (VStr "metrics",
        VList [static_metric "0" "metrics/visits" ["STATIC_ROW_0"; "1"];
               static_metric "1" "metrics/visits" ["STATIC_ROW_1"]]);
       (VStr "metricFilters",
        VList [static_filter "STATIC_ROW_0" "All_Visits";
               static_filter "STATIC_ROW_1" "Mobile";
               static_filter "1" "Returning"])]);
    (VStr "settings", VDict []);
    (VStr "statistics", VDict [])].

Definition response_static_filtered : value :=
  VDict [(VStr "columns",
          VDict [(VStr "columnIds", VList [VStr "0"; VStr "1"])]);
         (VStr "summaryData",
          VDict [(VStr "totals", VList [VInt 10; VInt 4])])].

Definition world_static_filtered : World.world (list value) :=
  World.mkWorld [doc_static_filtered] [response_static_filtered] [].

Definition static_filtered_decoded : Z * pydict * pydict * pydict * pydict :=
  Eval vm_compute in
    match CJA._decrypteStaticData scripted doc_static_filtered
            response_static_filtered world_static_filtered with
    | Some (Ok out, _) => out
    | _ => (0%Z, [], [], [], [])
    end.

(** One dimension only; the service has the page of its items ready. *)
Definition args_page_only : CJA.multi_args :=
  CJA.mkMulti (Some ["page"]) (Some [("page", VInt 2)])
              (Some ["visits"]) (Some "dv1") (Some []) None true true.

Definition run_page_only
  : option (res CJA.multi_workspace * World.world (list value)) :=
  Eval vm_compute in
    CJA.getMultidimensionalReport scripted concrete_companions 5
      args_page_only world_page_device.

Definition result_page_only : res CJA.multi_workspace :=
  Eval vm_compute in
    match run_page_only with
    | Some (r, _) => r
    | None => Raise TypeError
    end.

Definition world_after_page_only : World.world (list value) :=
  Eval vm_compute in
    match run_page_only with
    | Some (_, w) => w
    | None => world_page_device
    end.

(** No dimension at all, and a first dimension without a limit. *)
Definition args_no_dimension : CJA.multi_args :=
  CJA.mkMulti (Some []) (Some [("page", VInt 2)])
              (Some ["visits"]) (Some "dv1") (Some []) None true true.

Definition args_unlimited_device : CJA.multi_args :=
  CJA.mkMulti (Some ["device"; "page"]) (Some [("page", VInt 2)])
              (Some ["visits"]) (Some "dv1") (Some []) None true true.

(** ** Listings that come in pages, described from outside *)

(** The query [params] with the page number under [key] set to [i]. *)
Definition page_query (key : string) (params : pydict) (i : Z) : value :=
  VDict (dict_set params (VStr key) (VInt i)).

(** The queries of the pages [i], [i+1], ..., [i+n-1]. *)
Fixpoint page_queries (key : string) (params : pydict) (i : Z) (n : nat)
  : list value :=
  match n with
  | O => []
  | Datatypes.S n' =>
      page_query key params i :: page_queries key params (i + 1) n'
  end.

(** What the service answers when the queries are sent one after the
    other with GET, and the state it ends in. *)
Fixpoint get_answers {S : Type} (P : CJA.platform S) (s : S)
  (url : string) (queries : list value) : list (res value) * S :=
  match queries with
  | [] => ([], s)
  | q :: queries' =>
      let (r, s1) := CJA.getData P s url q in
      let (rs, s2) := get_answers P s1 url queries' in
      (r :: rs, s2)
  end.

(** The journal entries of these requests. *)
Definition get_log (url : string) (queries : list value)
  (replies : list (res value)) : list World.exchange :=
  map (fun qr => World.mkExchange (World.Get url (fst qr)) (snd qr))
      (combine queries replies).

(** A page of a listing: a dictionary whose "content" is a list. *)
Definition listing_page (p : value) : Prop :=
  exists d items,
    p = VDict d /\ dict_get d (VStr "content") = Some (VList items).

(** A page of the audit log: a dictionary whose "content", when there is
    one, is a list. *)
Definition audit_page (p : value) : Prop :=
  exists d,
    p = VDict d /\
    (dict_get d (VStr "content") = None \/
     exists items, dict_get d (VStr "content") = Some (VList items)).

(** The records of a page. *)
Definition page_content (p : value) : list value :=
  match p with
  | VDict d => match dict_get d (VStr "content") with
               | Some (VList items) => items
               | _ => []
               end
  | _ => []
  end.

(** [p.get(flag, True)] *)
Definition flag_of (flag : string) (p : value) : value :=
  match p with
  | VDict d => match dict_get d (VStr flag) with
               | Some v => v
               | None => VBool true
               end
  | _ => VBool true
  end.

(** With the flag at [last], the loop goes on through the pages [ps], one
    turn each, and stops after the last of them. *)
Fixpoint goes_through (go_on : value -> bool) (flag : string)
  (last : value) (ps : list value) : bool :=
  match ps with
  | [] => negb (go_on last)
  | p :: ps' => go_on last && goes_through go_on flag (flag_of flag p) ps'
  end.

(** The loop of the audit log, with [n] records in, takes the pages [ps],
    one turn each, and stops after the last of them: that page says "last"
    or brings the records above the cap. *)
Fixpoint audit_goes_through (cap : extnum) (n : nat) (ps : list value)
  : bool :=
  match ps with
  | [] => false
  | p :: ps' =>
      let n' := n + length (page_content p) in
      let stop := Endpoints.len_exceeds n' cap
                  || negb (Endpoints.not_true (flag_of "last" p)) in
      match ps' with
      | [] => stop
      | _ :: _ => negb stop && audit_goes_through cap n' ps'
      end
  end.

(** [DataFrame] when [output] is [wanted], the JSON value otherwise. *)
Definition as_output (wanted output : string) (frame raw : value)
  : Endpoints.listing :=
  if String.eqb output wanted then Endpoints.DataFrame frame
  else Endpoints.Json raw.

(** A service that answers every GET with the next page of its script. *)
Definition paged : CJA.platform (list value) :=
  CJA.mkPlatform
    (fun s _ _ _ => (Raise (ConnectorError VNone), s))
    (fun s _ _ =>
       match s with
       | r :: s' => (Ok r, s')
       | [] => (Raise (ConnectorError VNone), [])
       end)
    "https://cja.adobe.io"
    (fun _ => Raise FileNotFoundError)
    (fun xs => xs).

(** A page of a listing, with the flag [flag] set or left out. *)
Definition mk_listing (flag : string) (last : option value)
  (items : list value) : value :=
  VDict ((VStr "content", VList items) ::
         match last with
         | Some v => [(VStr flag, v)]
         | None => []
         end).

(** Three records in three pages; the pages say whether they are the last
    under "lastPage" or under "last". *)
Definition pages_lastPage : list value :=
  [ mk_listing "lastPage" (Some (VBool false)) [VStr "a"];
    mk_listing "lastPage" (Some (VBool false)) [VStr "b"];
    mk_listing "lastPage" (Some (VBool true)) [VStr "c"] ].

Definition pages_last : list value :=
  [ mk_listing "last" (Some (VBool false)) [VStr "a"];
    mk_listing "last" (Some (VBool false)) [VStr "b"];
    mk_listing "last" None [VStr "c"] ].

(** The second page answers [null] to "is this the last page?". *)
Definition pages_null_flag : list value :=
  [ mk_listing "lastPage" (Some (VBool false)) [VStr "a"];
    mk_listing "lastPage" (Some VNone) [VStr "b"];
    mk_listing "lastPage" (Some (VBool true)) [VStr "c"] ].

Definition world_paged (pages : list value) : World.world (list value) :=
  World.mkWorld [] pages [].

(** The audit log in pages of two records; no page says it is the last. *)
Definition pages_audit : list value :=
  [ mk_listing "last" (Some (VBool false)) [VStr "a"; VStr "b"];
    mk_listing "last" (Some (VBool false)) [VStr "c"; VStr "d"];
    mk_listing "last" (Some (VBool false)) [VStr "e"; VStr "f"] ].

(** [getAuditLogs(n_results=2)] and [getAuditLogs(userType="admin")]. *)
Definition args_audit_two : Endpoints.auditLogs_args :=
  Endpoints.mkAuditLogs VNone VNone VNone VNone VNone VNone VNone VNone VNone
                        (VInt 2) (VInt 2) "raw".

Definition args_audit_userType : Endpoints.auditLogs_args :=
  Endpoints.mkAuditLogs VNone VNone VNone VNone VNone (VStr "admin") VNone
                        VNone VNone (VInt 100) (VStr "inf") "df".

(** A platform extension whose PUT and DELETE always answer and whose
    files are there: [read_text] hands back the text "{}". *)
Definition plain_extension : Endpoints.extension (list value) :=
  Endpoints.mkExtension
    (fun s _ _ _ => (Ok (VDict []), s))
    (fun s _ _ => (Ok (VDict []), s))
    (fun _ => Ok "{}").

(** A platform whose files hold the filter "Returning". *)
Definition with_files : CJA.platform (list value) :=
  CJA.mkPlatform
    (fun s _ data _ => (Ok data, s))
    (fun s _ _ => (Ok (VDict []), s))
    "https://cja.adobe.io"
    (fun _ => Ok (VDict [(VStr "name", VStr "Returning")]))
    (fun xs => xs).

Definition world_empty : World.world (list value) := World.mkWorld [] [] [].

(** [getTopItems] for the pages of a data view, with a start date and no
    end date, and remote loading switched off. *)
Definition args_top_pages : Endpoints.topItems_args :=
  Endpoints.mkTopItems (VStr "dv1") (VStr "variables/page") VNone
                       (VStr "2024-01-01") VNone (VInt 100) VNone VNone
                       VNone VNone VNone false false true.

(** ** The lookups of a static report *)

(** One [getFilter] per id that looks like a segment id, in order. *)
Definition segment_lookups (endpoint : string) (ids : list string)
  : list World.call :=
  map (fun id => World.Get (endpoint ++ "/filters/" ++ id)%string (VDict []))
      (filter CJA.is_segment_id ids).

(** Three static rows; the second one looks like a segment id. *)
Definition static_rows_mixed : list string :=
  ["All_Visits"; "s300_abc@AdobeOrg"; "Mobile"].

(** The caller's dictionary has a key ".json". *)
Definition world_json_key : World.world (list value) :=
  World.mkWorld [VDict [(VStr ".json", VBool true)]] three_pages [].

(** ** A static report, run with and without the workspace class *)

(** The static request of two rows once the settings block has run, for
    the raw call and for the call with the defaults. *)
Definition doc_static_settled_raw : value :=
  Eval vm_compute in
    match settle args_raw doc_static_filtered with
    | Ok doc => doc
    | Raise _ => VNone
    end.

Definition doc_static_settled : value :=
  Eval vm_compute in
    match settle CJA.default_args doc_static_filtered with
    | Ok doc => doc
    | Raise _ => VNone
    end.

(** What [getReport] returns for it with the defaults. *)
Definition report_static_filtered : CJA.report :=
  Eval vm_compute in
    match CJA.getReport scripted 10 (CJA.ReqRef 0) CJA.default_args
            world_static_filtered with
    | Some (Ok rep, _) => rep
    | _ => CJA.RawRows VNone
    end.

Definition world_after_static_filtered : World.world (list value) :=
  Eval vm_compute in
    match CJA.getReport scripted 10 (CJA.ReqRef 0) CJA.default_args
            world_static_filtered with
    | Some (_, w) => w
    | None => world_static_filtered
    end.

(** The first page of [three_pages] and the request [doc_m1_home] once the
    settings block has run with the defaults. *)
Definition doc_m1_home_settled_default : value :=
  Eval vm_compute in
    match settle CJA.default_args doc_m1_home with
    | Ok doc => doc
    | Raise _ => VNone
    end.

(** ** Column names as the specification words them

    The specification resolves a segment filter to the name the metadata
    service gives it when its id matches the segment-id pattern, and to
    the id otherwise.  [names] stands for the metadata service. *)

Definition spec_display_value (names : string -> string) (k : filter_kind)
  : string :=
  match k with
  | FBreakdown dimension itemId => dimension ++ ":" ++ itemId
  | FDateRange dateRange => dateRange
  | FSegment segmentId =>
      if CJA.is_segment_id segmentId then names segmentId else segmentId
  end.

Fixpoint spec_joined_name (names : string -> string)
  (fs : list filter_decl) (name : string) (chain : list string)
  : option string :=
  match chain with
  | [] => Some name
  | id :: chain' =>
      match find_filter fs id with
      | Some f =>
          spec_joined_name names fs
            (name ++ ":::" ++ spec_display_value names (f_kind f)) chain'
      | None => None
      end
  end.

Definition spec_resolved_name (names : string -> string)
  (fs : list filter_decl) (m : metric_decl) : option string :=
  spec_joined_name names fs (m_id m) (m_filters m).

(** Metric "m1" filtered by the segment "s300_abc@AdobeOrg", whose id
    matches the segment-id pattern. *)
Definition doc_m1_segment : value :=
  VDict [
    (VStr "globalFilters", VList []);
    (VStr "metricContainer", VDict [
       (VStr "metrics",
        VList [VDict [(VStr "columnId", VStr "0"); (VStr "id", VStr "m1");
                      (VStr "filters", VList [VStr "0"])]]);
       (VStr "metricFilters",
        VList [VDict [(VStr "id", VStr "0"); (VStr "type", VStr "segment");
                      (VStr "segmentId", VStr "s300_abc@AdobeOrg")]])]);
    (VStr "dimension", VStr "variables/page");
    (VStr "settings", VDict []);
    (VStr "statistics", VDict [])].

(** The service answers with one page, the last one; the metadata service
    names every segment "Named". *)
Definition world_m1_segment : World.world (list value) :=
  World.mkWorld [doc_m1_segment] [mk_page [mk_row "1" "a" [1]%Z] true] [].

(** ** Static requests, read as declarations *)

(** The interpreter iterates a set over its items, each of them once. *)
Definition orders_sets {S : Type} (P : CJA.platform S) : Prop :=
  forall xs, Permutation (CJA.set_order P xs) xs.

(** Every metadata lookup is answered with a dictionary whose name can be
    the key of a dictionary. *)
Definition lookups_name {S : Type} (P : CJA.platform S) : Prop :=
  forall s url params,
    exists d name s',
      CJA.getData P s url params = (Ok (VDict d), s') /\
      dict_get d (VStr "name") = Some name /\
      hashable name = true.

(** A declared filter whose id starts with "STATIC_ROW". *)
Definition is_static_row (f : filter_decl) : bool :=
  startswith "STATIC_ROW" (f_id f).

(** Every "STATIC_ROW" filter is a segment filter. *)
Definition rows_are_segments (fs : list filter_decl) : bool :=
  forallb (fun f =>
             negb (is_static_row f) ||
             match f_kind f with FSegment _ => true | _ => false end) fs.

(** The "STATIC_ROW" filters with their segments, in the order of the
    request. *)
Definition static_row_entries (fs : list filter_decl)
  : list (string * value) :=
  flat_map (fun f =>
              match f_kind f with
              | FSegment segmentId =>
                  if is_static_row f then [(f_id f, VStr segmentId)] else []
              | _ => []
              end) fs.

(** The distinct segments of the static rows. *)
Definition static_rows (fs : list filter_decl) : list value :=
  CJA.distinct_items [] (map snd (store_all (static_row_entries fs) [])).

(** The metric carries at least one filter. *)
Definition has_filters (m : metric_decl) : bool :=
  match m_filters m with [] => false | _ :: _ => true end.

(** The first filter of the metric is a declared static row. *)
Definition on_static_row (fs : list filter_decl) (m : metric_decl) : bool :=
  match m_filters m with
  | f :: _ => existsb (fun e => String.eqb (fst e) f) (static_row_entries fs)
  | [] => false
  end.

(** The column is the column of a declared metric. *)
Definition declared_column (ms : list metric_decl) (c : string) : bool :=
  existsb (fun m => String.eqb (m_columnId m) c) ms.

(** The column of a declared metric to the first filter of the metric. *)
Definition column_entries (ms : list metric_decl) : list (string * value) :=
  map (fun m => (m_columnId m, VStr (hd "" (m_filters m)))) ms.

(** Keys and values of a dictionary under a predicate each. *)
Definition entries (K V : value -> Prop) (d : pydict) : Prop :=
  Forall (fun kv => K (fst kv) /\ V (snd kv)) d.

(** A string, a value that can be a key, a list. *)
Definition str_value (v : value) : Prop := exists s, v = VStr s.

Definition key_value (v : value) : Prop := hashable v = true.

Definition list_value (v : value) : Prop := exists l, v = VList l.

(** * Properties *)

(** ** Dictionaries keyed by strings *)

Section DictFacts.

Lemma py_eqb_str (a b : string) : py_eqb (VStr a) (VStr b) = String.eqb a b.
Proof. reflexivity. Qed.

Lemma py_eqb_str_l (a : string) (k : value) :
  py_eqb (VStr a) k = true -> k = VStr a.
Proof.
  destruct k; simpl; try discriminate.
  intros H. apply String.eqb_eq in H. now subst.
Qed.

Lemma py_eqb_str_r (a : string) (k : value) :
  py_eqb k (VStr a) = true -> k = VStr a.
Proof.
  destruct k as [ | [] | | | | ]; simpl; try discriminate.
  intros H. apply String.eqb_eq in H. now subst.
Qed.

Lemma dict_get_set_same (d : pydict) (a : string) (x : value) :
  dict_get (dict_set d (VStr a) x) (VStr a) = Some x.
Proof.
  induction d as [ | [k v] d IH]; simpl.
  - now rewrite String.eqb_refl.
  - destruct (py_eqb k (VStr a)) eqn:E; simpl; rewrite E; auto.
Qed.

Lemma dict_get_set_other (d : pydict) (a b : string) (x : value) :
  a <> b ->
  dict_get (dict_set d (VStr a) x) (VStr b) = dict_get d (VStr b).
Proof.
  intros Hab. induction d as [ | [k v] d IH]; simpl.
  - destruct (String.eqb a b) eqn:E; auto.
    apply String.eqb_eq in E. contradiction.
  - destruct (py_eqb k (VStr a)) eqn:E; simpl.
    + apply py_eqb_str_r in E. subst k. simpl.
      destruct (String.eqb a b) eqn:E'; auto.
      apply String.eqb_eq in E'. contradiction.
    + now rewrite IH.
Qed.

Lemma dict_set_set (d : pydict) (a : string) (x y : value) :
  dict_set (dict_set d (VStr a) x) (VStr a) y = dict_set d (VStr a) y.
Proof.
  induction d as [ | [k v] d IH]; simpl.
  - now rewrite String.eqb_refl.
  - destruct (py_eqb k (VStr a)) eqn:E; simpl; rewrite E; auto.
    now rewrite IH.
Qed.

Lemma dict_get_none_not_key (d : pydict) (a : string) :
  dict_get d (VStr a) = None -> ~ In (VStr a) (dict_keys d).
Proof.
  induction d as [ | [k v] d IH]; simpl; auto.
  destruct (py_eqb k (VStr a)) eqn:E; try discriminate.
  intros Hn [Hk | Hin]; [ | now apply IH].
  subst k. simpl in E. now rewrite String.eqb_refl in E.
Qed.

Lemma dict_get_some_key (d : pydict) (a : string) (v : value) :
  dict_get d (VStr a) = Some v -> In (VStr a) (dict_keys d).
Proof.
  induction d as [ | [k w] d IH]; simpl; try discriminate.
  destruct (py_eqb k (VStr a)) eqn:E; auto.
  intros _. left. now apply py_eqb_str_r.
Qed.

Lemma dict_keys_set (d : pydict) (k x : value) :
  dict_keys (dict_set d k x) =
  if dict_has d k then dict_keys d else dict_keys d ++ [k].
Proof.
  unfold dict_has. induction d as [ | [k' v] d IH]; simpl; auto.
  destruct (py_eqb k' k) eqn:E; simpl; auto.
  rewrite IH. now destruct (dict_get d k).
Qed.

Lemma dict_keys_set_in (d : pydict) (a : string) (x k : value) :
  In k (dict_keys (dict_set d (VStr a) x)) <->
  In k (dict_keys d) \/ k = VStr a.
Proof.
  rewrite dict_keys_set. unfold dict_has.
  destruct (dict_get d (VStr a)) eqn:E.
  - split; auto. intros [H | ->]; auto.
    eapply dict_get_some_key; eauto.
  - rewrite in_app_iff. simpl. intuition.
Qed.

Lemma dict_keys_set_nodup (d : pydict) (a : string) (x : value) :
  NoDup (dict_keys d) -> NoDup (dict_keys (dict_set d (VStr a) x)).
Proof.
  intros Hnd. rewrite dict_keys_set. unfold dict_has.
  destruct (dict_get d (VStr a)) eqn:E; auto.
  apply dict_get_none_not_key in E.
  apply NoDup_app; auto.
  - constructor; [intros [] | constructor].
  - intros k Hk [<- | []]. contradiction.
Qed.

Lemma key_count_absent (ks : pydict) (a : string) :
  ~ In (VStr a) (dict_keys ks) -> key_count ks (VStr a) = 0.
Proof.
  unfold key_count. induction ks as [ | [k v] ks IH]; simpl; auto.
  intros Hn. destruct (py_eqb k (VStr a)) eqn:E.
  - apply py_eqb_str_r in E. tauto.
  - apply IH. tauto.
Qed.

Lemma key_count_nodup (d : pydict) (a : string) :
  NoDup (dict_keys d) -> In (VStr a) (dict_keys d) ->
  key_count d (VStr a) = 1.
Proof.
  induction d as [ | [k v] d IH]; simpl; [intros _ [] | ].
  intros Hnd Hin. inversion Hnd as [ | ? ? Hk Hnd']; subst.
  assert (Hc : key_count ((k, v) :: d) (VStr a) =
               (if py_eqb k (VStr a) then 1 else 0) + key_count d (VStr a)).
  { unfold key_count. simpl. now destruct (py_eqb k (VStr a)). }
  rewrite Hc. destruct (py_eqb k (VStr a)) eqn:E.
  - apply py_eqb_str_r in E. subst k.
    now rewrite (key_count_absent d a Hk).
  - destruct Hin as [-> | Hin].
    + simpl in E. now rewrite String.eqb_refl in E.
    + now rewrite IH.
Qed.

End DictFacts.

(** ** Decoding the rows of a normal response *)

Section PrepareData.

Lemma expand_row_valid (acc : pydict) (row : value) i v cells :
  row_fields row = Some (i, v, cells) ->
  CJA.expand_row acc row = Ok (dict_set acc (VStr i) (VList (v :: cells))).
Proof.
  unfold row_fields, CJA.expand_row. destruct row; try discriminate.
  simpl.
  destruct (dict_get d (VStr "itemId")) as [[ | | | s | | ] | ];
    try discriminate.
  destruct (dict_get d (VStr "value")) as [v0 | ]; try discriminate.
  destruct (dict_get d (VStr "data")) as [[ | | | | l | ] | ];
    try discriminate.
  intros H. injection H as -> -> ->. simpl.
  rewrite dict_get_set_same. simpl. now rewrite dict_set_set.
Qed.

(** The table after the rows [rows] have been folded into [acc]. *)
Lemma foldM_expand_valid (rows : list value) :
  Forall valid_row rows ->
  forall acc, exists table, foldM CJA.expand_row acc rows = Ok table.
Proof.
  induction 1 as [ | row rows (i & v & c & Hrow) _ IH]; intros acc; simpl.
  - now exists acc.
  - rewrite (expand_row_valid _ _ _ _ _ Hrow). simpl. apply IH.
Qed.

Lemma foldM_expand_keys (rows : list value) :
  Forall valid_row rows ->
  forall acc table,
    foldM CJA.expand_row acc rows = Ok table ->
    forall k, In k (dict_keys table) <->
      In k (dict_keys acc) \/
      exists r i, In r rows /\ row_itemId r = Some i /\ k = VStr i.
Proof.
  induction 1 as [ | row rows (i & v & c & Hrow) _ IH]; intros acc table;
    simpl.
  - intros [= <-] k. split; auto. intros [H | (r & j & [] & _)]; auto.
  - rewrite (expand_row_valid _ _ _ _ _ Hrow). simpl. intros Hf k.
    rewrite (IH _ _ Hf k), dict_keys_set_in. split.
    + intros [[H | ->] | (r & j & Hin & Hr & ->)]; auto.
      * right. exists row, i. unfold row_itemId. rewrite Hrow. auto.
      * right. exists r, j. auto.
    + intros [H | (r & j & [<- | Hin] & Hr & ->)]; auto.
      * unfold row_itemId in Hr. rewrite Hrow in Hr.
        injection Hr as ->. auto.
      * right. exists r, j. auto.
Qed.

Lemma foldM_expand_nodup (rows : list value) :
  Forall valid_row rows ->
  forall acc table,
    foldM CJA.expand_row acc rows = Ok table ->
    NoDup (dict_keys acc) -> NoDup (dict_keys table).
Proof.
  induction 1 as [ | row rows (i & v & c & Hrow) _ IH]; intros acc table;
    simpl.
  - now intros [= <-].
  - rewrite (expand_row_valid _ _ _ _ _ Hrow). simpl. intros Hf Hnd.
    eapply IH; eauto. now apply dict_keys_set_nodup.
Qed.

(** Rows that do not mention [i] leave the entry of [i] alone. *)
Lemma foldM_expand_frame (rows : list value) (i : string) :
  Forall valid_row rows ->
  (forall r, In r rows -> row_itemId r <> Some i) ->
  forall acc table,
    foldM CJA.expand_row acc rows = Ok table ->
    dict_get table (VStr i) = dict_get acc (VStr i).
Proof.
  induction 1 as [ | row rows (j & v & c & Hrow) _ IH]; intros Hno acc table;
    simpl.
  - now intros [= <-].
  - rewrite (expand_row_valid _ _ _ _ _ Hrow). simpl. intros Hf.
    rewrite (IH (fun r Hr => Hno r (or_intror Hr)) _ _ Hf).
    apply dict_get_set_other. intros ->.
    apply (Hno row (or_introl eq_refl)).
    unfold row_itemId. now rewrite Hrow.
Qed.

(** The entry of [i] is the one written by the last row that carries [i]. *)
Lemma foldM_expand_last (pre post : list value) (row : value) i v cells :
  Forall valid_row (pre ++ row :: post) ->
  row_fields row = Some (i, v, cells) ->
  (forall r, In r post -> row_itemId r <> Some i) ->
  forall acc table,
    foldM CJA.expand_row acc (pre ++ row :: post) = Ok table ->
    dict_get table (VStr i) = Some (VList (v :: cells)).
Proof.
  intros Hv Hrow Hno.
  apply Forall_app in Hv as [Hpre Hv]. inversion Hv as [ | ? ? _ Hpost]; subst.
  induction Hpre as [ | r0 pre (j & w & c & Hr0) _ IH]; intros acc table;
    simpl.
  - rewrite (expand_row_valid _ _ _ _ _ Hrow). simpl. intros Hf.
    rewrite (foldM_expand_frame _ _ Hpost Hno _ _ Hf).
    apply dict_get_set_same.
  - rewrite (expand_row_valid _ _ _ _ _ Hr0). simpl. apply IH.
Qed.

(** Every item id has a last row. *)
Lemma last_row_with (rows : list value) (i : string) :
  (exists r, In r rows /\ row_itemId r = Some i) ->
  exists pre row post,
    rows = pre ++ row :: post /\ row_itemId row = Some i /\
    forall r, In r post -> row_itemId r <> Some i.
Proof.
  induction rows as [ | r0 rows IH]; intros (r & Hin & Hr).
  - destruct Hin.
  - assert (D : (exists r', In r' rows /\ row_itemId r' = Some i) \/
                ~ (exists r', In r' rows /\ row_itemId r' = Some i)).
    { clear. induction rows as [ | a l IHl].
      - right. intros (r' & [] & _).
      - destruct IHl as [(r' & Hin & Hr') | Hn].
        + left. exists r'. split; [now right | auto].
        + destruct (row_itemId a) as [j | ] eqn:Ea.
          * destruct (string_dec j i) as [-> | Hne].
            -- left. exists a. split; [now left | auto].
            -- right. intros (r' & [<- | Hin] & Hr'); [congruence | ].
               apply Hn. eauto.
          * right. intros (r' & [<- | Hin] & Hr'); [congruence | ].
            apply Hn. eauto. }
    destruct D as [Hex | Hnex].
    + destruct (IH Hex) as (pre & row & post & -> & Hrow & Hno).
      exists (r0 :: pre), row, post. auto.
    + destruct Hin as [<- | Hin]; [ | exfalso; apply Hnex; eauto].
      exists [], r0, rows. repeat split; auto.
      intros r' Hr' Heq. apply Hnex. eauto.
Qed.

End PrepareData.

(** ** Claims on [_prepareData] *)

(** C1. For a normal response whose rows are well formed, [_prepareData]
    with report type "normal" returns a table with exactly one entry per
    distinct item id of the rows (the keys are pairwise distinct and they
    are exactly the item ids that occur), and the entry of an item id is
    the list [value :: data] of a row carrying that item id, cell for cell
    and in order. *)
Theorem prepareData_normal_one_entry_per_itemId (rows : list value) :
  Forall valid_row rows ->
  exists table,
    CJA._prepareData (VList rows) "normal" = Ok (VDict table) /\
    NoDup (dict_keys table) /\
    (forall k, In k (dict_keys table) <->
       exists r i, In r rows /\ row_itemId r = Some i /\ k = VStr i) /\
    (forall i, In (VStr i) (dict_keys table) ->
       exists r v cells,
         In r rows /\ row_fields r = Some (i, v, cells) /\
         dict_get table (VStr i) = Some (VList (v :: cells))).
Proof.
  intros Hv. destruct (foldM_expand_valid rows Hv []) as [table Hf].
  exists table. unfold CJA._prepareData. simpl. rewrite Hf. simpl.
  assert (Hkeys : forall k, In k (dict_keys table) <->
            exists r i, In r rows /\ row_itemId r = Some i /\ k = VStr i).
  { intros k. rewrite (foldM_expand_keys rows Hv [] table Hf k). simpl.
    tauto. }
  repeat split.
  - eapply foldM_expand_nodup; eauto. constructor.
  - apply Hkeys.
  - apply Hkeys.
  - intros i Hi. apply Hkeys in Hi as (r & j & Hin & Hr & [= <-]).
    destruct (last_row_with rows i) as (pre & row & post & -> & Hrow & Hno).
    { eauto. }
    unfold row_itemId in Hrow.
    destruct (row_fields row) as [[[j v] cells] | ] eqn:Hfields;
      try discriminate.
    injection Hrow as ->.
    exists row, v, cells. repeat split; auto.
    + apply in_elt.
    + eapply foldM_expand_last; eauto.
Qed.

Lemma rows_home_cart_valid : Forall valid_row rows_home_cart.
Proof.
  repeat constructor; unfold valid_row; simpl; eauto.
Qed.

Lemma prepareData_normal_one_entry_per_itemId_witness :
  exists table,
    CJA._prepareData (VList rows_home_cart) "normal" = Ok (VDict table) /\
    NoDup (dict_keys table) /\
    (forall k, In k (dict_keys table) <->
       exists r i, In r rows_home_cart /\ row_itemId r = Some i /\
                   k = VStr i) /\
    (forall i, In (VStr i) (dict_keys table) ->
       exists r v cells,
         In r rows_home_cart /\ row_fields r = Some (i, v, cells) /\
         dict_get table (VStr i) = Some (VList (v :: cells))).
Proof.
  apply (prepareData_normal_one_entry_per_itemId rows_home_cart).
  exact rows_home_cart_valid.
Defined.

(** C10. When several rows carry the same item id, [_prepareData] raises
    nothing and keeps a single entry for that item id, holding the cells
    [value :: data] of the last such row in input order. *)
Theorem prepareData_duplicate_itemId_last_wins
  (pre post : list value) (row : value) i v cells :
  Forall valid_row (pre ++ row :: post) ->
  row_fields row = Some (i, v, cells) ->
  (forall r, In r post -> row_itemId r <> Some i) ->
  exists table,
    CJA._prepareData (VList (pre ++ row :: post)) "normal"
      = Ok (VDict table) /\
    dict_get table (VStr i) = Some (VList (v :: cells)) /\
    key_count table (VStr i) = 1.
Proof.
  intros Hv Hrow Hno.
  destruct (foldM_expand_valid _ Hv []) as [table Hf].
  exists table. unfold CJA._prepareData. simpl. rewrite Hf. simpl.
  assert (Hget : dict_get table (VStr i) = Some (VList (v :: cells))).
  { eapply foldM_expand_last; eauto. }
  repeat split; auto.
  apply key_count_nodup.
  - eapply foldM_expand_nodup; eauto. constructor.
  - eapply dict_get_some_key; eauto.
Qed.

Lemma prepareData_duplicate_itemId_last_wins_witness :
  exists table,
    CJA._prepareData (VList rows_with_duplicate) "normal"
      = Ok (VDict table) /\
    dict_get table (VStr "1") = Some (VList [VStr "landing"; VInt 4]) /\
    key_count table (VStr "1") = 1.
Proof.
  apply (prepareData_duplicate_itemId_last_wins
           (firstn 2 rows_with_duplicate) [] _ "1" (VStr "landing")
           [VInt 4]).
  - repeat constructor; unfold valid_row; simpl; eauto.
  - reflexivity.
  - intros r [].
Defined.

(** ** Reasoning about runs *)

Import World.

Section Runs.

Context {S : Type}.

Lemma bindM_inv {A B} (m : M S A) (k : A -> M S B) w r w' :
  bindM m k w = Some (r, w') ->
  (exists a w1, m w = Some (Ok a, w1) /\ k a w1 = Some (r, w')) \/
  (exists e, m w = Some (Raise e, w') /\ r = Raise e).
Proof.
  unfold bindM. destruct (m w) as [[[a | e] w1] | ]; try discriminate.
  - intros H. left. eauto.
  - intros [= <- <-]. right. eauto.
Qed.

Lemma bindM_ok_inv {A B} (m : M S A) (k : A -> M S B) w b w' :
  bindM m k w = Some (Ok b, w') ->
  exists a w1, m w = Some (Ok a, w1) /\ k a w1 = Some (Ok b, w').
Proof.
  intros H. apply bindM_inv in H as [H | (e & _ & He)]; [auto | discriminate].
Qed.

Lemma bindM_ok {A B} (m : M S A) (k : A -> M S B) w a w1 :
  m w = Some (Ok a, w1) -> bindM m k w = k a w1.
Proof. unfold bindM. now intros ->. Qed.

Lemma bindM_lift_ok {A B} (x : res A) (a : A) (k : A -> M S B) w :
  x = Ok a -> bindM (lift x) k w = k a w.
Proof. now intros ->. Qed.

Lemma lift_inv {A} (x : res A) (w : world S) r w' :
  lift x w = Some (r, w') -> r = x /\ w' = w.
Proof. unfold lift. now intros [= <- <-]. Qed.

(** *** Evolution is compositional *)

Lemma evolves_trans l (w1 w2 w3 : world S) :
  evolves l w1 w2 -> evolves l w2 w3 -> evolves l w1 w3.
Proof.
  intros H12 H23. induction H23 as [ | w2 w3 w4 _ IH Hstep]; auto.
  apply ev_step with w3; auto.
Qed.

Lemma tame_ret {A} l (a : A) : tame (S := S) l (ret a).
Proof. intros w r w' [= <- <-]. constructor. Qed.

Lemma tame_raise {A} l e : tame (S := S) (A := A) l (raise e).
Proof. intros w r w' [= <- <-]. constructor. Qed.

Lemma tame_lift {A} l (x : res A) : tame (S := S) l (lift x).
Proof. intros w r w' [= <- <-]. constructor. Qed.

Lemma tame_load l l' : tame (S := S) l (load l').
Proof.
  intros w r w'. unfold load.
  destruct (nth_error (heap w) l'); intros [= <- <-]; constructor.
Qed.

Lemma tame_stuck {A} l : tame (S := S) (A := A) l (fun _ => None).
Proof. intros w r w'. discriminate. Qed.

Lemma tame_bind {A B} l (m : M S A) (k : A -> M S B) :
  tame l m -> (forall a, tame l (k a)) -> tame l (bindM m k).
Proof.
  intros Hm Hk w r w' H.
  apply bindM_inv in H as [(a & w1 & H1 & H2) | (e & H1 & _)].
  - eapply evolves_trans; [eapply Hm | eapply Hk]; eauto.
  - eapply Hm; eauto.
Qed.

Lemma tame_forM {A B} l (body : A -> B -> M S A) (xs : list B) :
  (forall acc x, tame l (body acc x)) ->
  forall acc, tame l (forM body acc xs).
Proof.
  intros Hb. induction xs as [ | x xs IH]; intros acc; simpl.
  - apply tame_ret.
  - apply tame_bind; auto.
Qed.

Lemma tame_getData l (P : CJA.platform S) url params :
  tame l (CJA.connector_getData P url params).
Proof.
  intros w r w'. unfold CJA.connector_getData.
  destruct (CJA.getData P (srv w) url params) as [r0 s'].
  intros [= <- <-]. eapply ev_step; [constructor | constructor].
Qed.

Lemma tame_getFilter l (P : CJA.platform S) id : tame l (CJA.getFilter P id).
Proof. apply tame_getData. Qed.

Lemma tame_getCalculatedMetric l (P : CJA.platform S) id :
  tame l (CJA.getCalculatedMetric P id).
Proof. apply tame_getData. Qed.

Lemma tame_post_report l (P : CJA.platform S) a :
  tame l (CJA.post_report P a l).
Proof.
  intros w r w'. unfold CJA.post_report, bindM, load.
  destruct (nth_error (heap w) l) as [doc | ] eqn:E.
  - unfold CJA.connector_postData.
    destruct (CJA.postData P (srv w) _ doc _) as [r0 s'].
    intros [= <- <-]. eapply ev_step; [constructor | ].
    now apply ps_post.
  - intros [= <- <-]. constructor.
Qed.

Lemma tame_next_page l :
  tame (S := S) l
    (CJA.update l (CJA.iadd_item2 "settings" "page" (VInt 1))).
Proof.
  intros w r w'. unfold CJA.update, bindM, load, lift, store.
  destruct (nth_error (heap w) l) as [doc | ] eqn:E.
  - destruct (CJA.iadd_item2 "settings" "page" (VInt 1) doc) as [doc' | e]
      eqn:E'; intros [= <- <-].
    + eapply ev_step; [constructor | ]. eapply ps_page; eauto.
    + constructor.
  - intros [= <- <-]. constructor.
Qed.

End Runs.

(** Takes a goal [tame l m] apart along the structure of [m]. *)
Ltac tame_step :=
  first
    [ apply tame_ret | apply tame_raise | apply tame_lift | apply tame_load
    | apply tame_stuck
    | apply tame_getFilter | apply tame_getCalculatedMetric
    | apply tame_post_report | apply tame_next_page
    | apply tame_bind; [ | intros ]
    | apply tame_forM; intros
    | match goal with
      | |- tame _ (if ?b then _ else _) => destruct b
      | |- tame _ (match ?x with _ => _ end) => destruct x
      end ].

Ltac tame_tac := repeat tame_step.

(** ** The report, once the settings are written, evolves the world *)

Section ReportEvolves.

Context {S : Type} (P : CJA.platform S).

Lemma tame_fetch_pages l fuel a :
  forall dataRows totalElements lastPage,
    tame l (CJA.fetch_pages P fuel a l dataRows totalElements lastPage).
Proof.
  induction fuel as [ | fuel IH]; intros dataRows totalElements lastPage;
    simpl; destruct (negb (py_eqb lastPage (VBool true)));
    try apply tame_ret; try apply tame_stuck.
  tame_tac. apply IH.
Qed.

Lemma tame_normal_filter_step l st filter :
  tame l (CJA.normal_filter_step P st filter).
Proof. unfold CJA.normal_filter_step. tame_tac. Qed.

Lemma tame_static_rowNames l rows : tame l (CJA.static_rowNames P rows).
Proof. unfold CJA.static_rowNames. tame_tac. Qed.

Lemma tame_decrypteStaticData l dataRequest response :
  tame l (CJA._decrypteStaticData P dataRequest response).
Proof.
  unfold CJA._decrypteStaticData. tame_tac; apply tame_static_rowNames.
Qed.

Lemma tame_static_metricColumn l res t f s st i :
  tame l (CJA.static_metricColumn P res t f s st i).
Proof. unfold CJA.static_metricColumn. destruct st. tame_tac. Qed.

Lemma tame_normal_report l fuel a res :
  tame l (CJA.normal_report P fuel a l res).
Proof.
  unfold CJA.normal_report, CJA.normal_workspace. tame_tac;
    first [ apply tame_fetch_pages | apply tame_normal_filter_step ].
Qed.

Lemma tame_static_report l a res : tame l (CJA.static_report P a l res).
Proof.
  unfold CJA.static_report. tame_tac;
    first [ apply tame_decrypteStaticData | apply tame_static_metricColumn ].
Qed.

End ReportEvolves.

(** ** Writes to a request document *)

Section DocumentWrites.

Lemma dict_get_set_str (d : pydict) (a b : string) (x : value) :
  dict_get (dict_set d (VStr a) x) (VStr b) =
  if String.eqb a b then Some x else dict_get d (VStr b).
Proof.
  destruct (String.eqb a b) eqn:E.
  - apply String.eqb_eq in E. subst. apply dict_get_set_same.
  - apply dict_get_set_other. intros ->. now rewrite String.eqb_refl in E.
Qed.

Lemma set_item2_inv k1 k2 v doc doc' :
  CJA.set_item2 k1 k2 v doc = Ok doc' ->
  exists d s,
    doc = VDict d /\ dict_get d (VStr k1) = Some (VDict s) /\
    doc' = VDict (dict_set d (VStr k1) (VDict (dict_set s (VStr k2) v))).
Proof.
  unfold CJA.set_item2. destruct doc as [ | | | | l | d]; simpl;
    try discriminate.
  destruct (dict_get d (VStr k1)) as [inner | ] eqn:E; simpl;
    try discriminate.
  destruct inner as [ | | | | l | s]; simpl; try discriminate.
  intros [= <-]. eauto.
Qed.

Lemma set_item2_get k1 k2 v doc doc' j1 j2 :
  CJA.set_item2 k1 k2 v doc = Ok doc' ->
  get2 doc' j1 j2 =
  if String.eqb k1 j1 && String.eqb k2 j2 then Some v else get2 doc j1 j2.
Proof.
  intros H. apply set_item2_inv in H as (d & s & -> & Hs & ->).
  unfold get2. rewrite dict_get_set_str.
  destruct (String.eqb k1 j1) eqn:E1; simpl; auto.
  apply String.eqb_eq in E1. subst j1. rewrite Hs.
  apply dict_get_set_str.
Qed.

Lemma iadd_item2_inv k1 k2 v doc doc' :
  CJA.iadd_item2 k1 k2 v doc = Ok doc' ->
  exists cur new,
    get2 doc k1 k2 = Some cur /\ py_iadd cur v = Ok new /\
    CJA.set_item2 k1 k2 new doc = Ok doc'.
Proof.
  unfold CJA.iadd_item2, CJA.set_item2, get2.
  destruct doc as [ | | | | l | d]; simpl; try discriminate.
  destruct (dict_get d (VStr k1)) as [inner | ] eqn:E; simpl;
    try discriminate.
  destruct inner as [ | | | | l | s]; simpl; try discriminate.
  destruct (dict_get s (VStr k2)) as [cur | ] eqn:E2; simpl;
    try discriminate.
  destruct (py_iadd cur v) as [new | e] eqn:E3; simpl; try discriminate.
  intros [= <-]. exists cur, new. auto.
Qed.

Lemma store_top_get (k : string) v doc doc' j1 j2 :
  store_subscript doc (VStr k) v = Ok doc' ->
  k <> j1 ->
  get2 doc' j1 j2 = get2 doc j1 j2.
Proof.
  destruct doc; simpl; try discriminate.
  intros [= <-] Hne. unfold get2. now rewrite dict_get_set_other.
Qed.

Lemma forced_settings_next_page a doc doc' :
  CJA.iadd_item2 "settings" "page" (VInt 1) doc = Ok doc' ->
  forced_settings a doc -> forced_settings a doc'.
Proof.
  intros H. apply iadd_item2_inv in H as (cur & new & _ & _ & H).
  unfold forced_settings.
  rewrite !(set_item2_get _ _ _ _ _ _ _ H). simpl. auto.
Qed.

Lemma page_of_next_page doc doc' n :
  CJA.iadd_item2 "settings" "page" (VInt 1) doc = Ok doc' ->
  page_of doc = Some n -> page_of doc' = Some (n + 1)%Z.
Proof.
  intros H. apply iadd_item2_inv in H as (cur & new & Hcur & Hnew & H).
  unfold page_of. rewrite (set_item2_get _ _ _ _ _ _ _ H). simpl.
  rewrite Hcur. destruct cur; try discriminate.
  intros [= ->]. simpl in Hnew. now injection Hnew as <-.
Qed.

End DocumentWrites.

(** ** The store *)

Section Store.

Lemma heap_set_same (h : list value) l v :
  l < length h -> nth_error (heap_set h l v) l = Some v.
Proof.
  revert l. induction h as [ | x h IH]; intros [ | l] Hl; simpl in *;
    try lia; auto. apply IH. lia.
Qed.

Lemma heap_set_length (h : list value) l v :
  length (heap_set h l v) = length h.
Proof.
  revert l. induction h as [ | x h IH]; intros [ | l]; simpl; auto.
Qed.

Lemma nth_error_lt (h : list value) l v :
  nth_error h l = Some v -> l < length h.
Proof. intros H. apply nth_error_Some. congruence. Qed.

Context {S : Type}.

Lemma update_inv l f (w : world S) r w' :
  CJA.update l f w = Some (r, w') ->
  calls w' = calls w /\ srv w' = srv w /\
  length (heap w') = length (heap w) /\
  forall doc, nth_error (heap w) l = Some doc ->
    match r with
    | Ok _ => exists doc', f doc = Ok doc' /\
                           nth_error (heap w') l = Some doc'
    | Raise _ => w' = w
    end.
Proof.
  unfold CJA.update, bindM, load, lift, store.
  destruct (nth_error (heap w) l) as [doc | ] eqn:E.
  - destruct (f doc) as [doc' | e] eqn:Ef; intros [= <- <-]; simpl.
    + rewrite heap_set_length. repeat split; auto.
      intros doc0 [= <-]. exists doc'. split; auto.
      apply heap_set_same. eapply nth_error_lt; eauto.
    + repeat split; auto.
  - intros [= <- <-]. repeat split; auto.
Qed.

Lemma update_ok l f (w : world S) doc doc' :
  nth_error (heap w) l = Some doc -> f doc = Ok doc' ->
  CJA.update l f w =
  Some (Ok tt, mkWorld (heap_set (heap w) l doc') (srv w) (calls w)).
Proof.
  intros Hl Hf. unfold CJA.update, bindM, load, lift, store.
  now rewrite Hl, Hf.
Qed.

End Store.

(** ** What the settings block and the evolution guarantee *)

(** Splits the conjunctions that are written in the goal. *)
Ltac splits := repeat match goal with |- _ /\ _ => split end.

Section Settings.

Context {S : Type}.

Lemma posted_app (xs ys : list exchange) :
  posted (xs ++ ys) = posted xs ++ posted ys.
Proof.
  induction xs as [ | x xs IH]; simpl; auto.
  destruct (sent x); simpl; now rewrite IH.
Qed.

Lemma update_ok_inv l f (w : world S) u w' doc :
  CJA.update l f w = Some (Ok u, w') ->
  nth_error (heap w) l = Some doc ->
  exists doc', f doc = Ok doc' /\ nth_error (heap w') l = Some doc' /\
               calls w' = calls w /\ srv w' = srv w.
Proof.
  intros H Hl. apply update_inv in H as (Hc & Hs & _ & H).
  destruct (H doc Hl) as (doc' & Hf & Hl'). eauto.
Qed.

(** The settings block leaves the connector alone and writes page 0 and
    the settings of the arguments into the dictionary at [l]. *)
Lemma apply_settings_inv a l (w : world S) u w1 doc :
  CJA.apply_settings a l w = Some (Ok u, w1) ->
  nth_error (heap w) l = Some doc ->
  exists doc1,
    nth_error (heap w1) l = Some doc1 /\
    forced_settings a doc1 /\ page_of doc1 = Some 0%Z /\
    calls w1 = calls w /\ srv w1 = srv w.
Proof.
  unfold CJA.apply_settings. intros H Hl.
  apply bindM_ok_inv in H as (u1 & wa & H1 & H).
  destruct (update_ok_inv _ _ _ _ _ _ H1 Hl) as (d1 & F1 & L1 & C1 & S1).
  apply bindM_ok_inv in H as (u2 & wb & H2 & H).
  destruct (update_ok_inv _ _ _ _ _ _ H2 L1) as (d2 & F2 & L2 & C2 & S2).
  apply bindM_ok_inv in H as (u3 & wc & H3 & H).
  assert (exists d3, CJA.set_item2 "settings" "nonesBehavior"
            (VStr (if truthy (CJA.returnsNone a) then "return-nones"
                   else "exclude-nones")) d2 = Ok d3 /\
          nth_error (heap wc) l = Some d3 /\
          calls wc = calls wb /\ srv wc = srv wb)
    as (d3 & F3 & L3 & C3 & S3).
  { destruct (truthy (CJA.returnsNone a));
      destruct (update_ok_inv _ _ _ _ _ _ H3 L2) as (d3 & ? & ? & ? & ?);
      eauto. }
  apply bindM_ok_inv in H as (u4 & wd & H4 & H).
  assert (exists d4, CJA.set_item2 "settings" "countRepeatInstances"
            (VBool (truthy (CJA.countRepeatInstances a))) d3 = Ok d4 /\
          nth_error (heap wd) l = Some d4 /\
          calls wd = calls wc /\ srv wd = srv wc)
    as (d4 & F4 & L4 & C4 & S4).
  { destruct (truthy (CJA.countRepeatInstances a));
      destruct (update_ok_inv _ _ _ _ _ _ H4 L3) as (d4 & ? & ? & ? & ?);
      eauto. }
  apply bindM_ok_inv in H as (u5 & we & H5 & H).
  assert (exists d5, nth_error (heap we) l = Some d5 /\
          (forall j2, get2 d5 "settings" j2 = get2 d4 "settings" j2) /\
          (forall j2, get2 d5 "statistics" j2 = get2 d4 "statistics" j2) /\
          calls we = calls wd /\ srv we = srv wd)
    as (d5 & L5 & G5 & G5' & C5 & S5).
  { destruct (CJA.dataViewId a) as [dv | ].
    - destruct (update_ok_inv _ _ _ _ _ _ H5 L4) as (d5 & F5 & ? & ? & ?).
      exists d5. repeat split; auto; intros j2;
        apply (store_top_get _ _ _ _ _ _ F5); discriminate.
    - injection H5 as <- <-. exists d4. auto. }
  assert (exists d6, CJA.set_item2 "statistics" "ignoreZeroes"
            (VBool (truthy (CJA.ignoreZeroes a))) d5 = Ok d6 /\
          nth_error (heap w1) l = Some d6 /\
          calls w1 = calls we /\ srv w1 = srv we)
    as (d6 & F6 & L6 & C6 & S6).
  { destruct (truthy (CJA.ignoreZeroes a));
      destruct (update_ok_inv _ _ _ _ _ _ H L5) as (d6 & ? & ? & ? & ?);
      eauto. }
  exists d6. split; [exact L6 | ].
  assert (G : forall j1 j2, get2 d6 j1 j2 =
    if String.eqb "statistics" j1 && String.eqb "ignoreZeroes" j2
    then Some (VBool (truthy (CJA.ignoreZeroes a))) else get2 d5 j1 j2).
  { intros. apply (set_item2_get _ _ _ _ _ _ _ F6). }
  unfold forced_settings, page_of. rewrite !G. simpl. rewrite !G5.
  rewrite !(set_item2_get _ _ _ _ _ _ _ F4). simpl.
  rewrite !(set_item2_get _ _ _ _ _ _ _ F3). simpl.
  rewrite !(set_item2_get _ _ _ _ _ _ _ F2). simpl.
  rewrite !(set_item2_get _ _ _ _ _ _ _ F1). simpl.
  repeat split; congruence.
Qed.

(** Along an evolution the log only grows, the dictionary at [l] keeps
    the forced settings, its page number only grows, and every document
    posted carried the forced settings. *)
Lemma evolves_inv a l (w w' : world S) :
  evolves l w w' ->
  forall doc n,
    nth_error (heap w) l = Some doc ->
    forced_settings a doc -> page_of doc = Some n ->
    exists more doc' n',
      calls w' = calls w ++ more /\
      nth_error (heap w') l = Some doc' /\
      forced_settings a doc' /\ page_of doc' = Some n' /\ (n <= n')%Z /\
      Forall (forced_settings a) (posted more) /\
      Forall (fun d => exists k, page_of d = Some k /\ (n <= k <= n')%Z)
             (posted more).
Proof.
  induction 1 as [w | w1 w2 w3 _ IH Hstep]; intros doc n Hl Hf Hp.
  - exists [], doc, n. rewrite app_nil_r. splits; auto; try lia;
      constructor.
  - destruct (IH doc n Hl Hf Hp)
      as (more & doc2 & n2 & Hc & Hl2 & Hf2 & Hp2 & Hle & Hall & Hpg).
    inversion Hstep as [? url params r s' | ? url params r s' d Hd
                        | ? d d' Hd Hd']; subst; simpl.
    + exists (more ++ [mkExchange (Get url params) r]), doc2, n2.
      rewrite Hc, app_assoc, posted_app. simpl. rewrite app_nil_r.
      splits; auto.
    + rewrite Hl2 in Hd. injection Hd as <-.
      exists (more ++ [mkExchange (Post url doc2 params) r]), doc2, n2.
      rewrite Hc, app_assoc, posted_app. simpl.
      splits; auto.
      * apply Forall_app. split; auto.
      * apply Forall_app. split; auto. constructor; [ | constructor].
        exists n2. split; auto. lia.
    + rewrite Hl2 in Hd. injection Hd as <-.
      exists more, d', (n2 + 1)%Z. splits; auto.
      * apply heap_set_same. eapply nth_error_lt; eauto.
      * eapply forced_settings_next_page; eauto.
      * eapply page_of_next_page; eauto.
      * lia.
      * eapply Forall_impl; [ | exact Hpg].
        intros d0 (k & Hk & Hr). exists k. split; auto. lia.
Qed.

Lemma evolves_calls l (w w' : world S) :
  evolves l w w' -> exists more, calls w' = calls w ++ more.
Proof.
  induction 1 as [w | w1 w2 w3 _ (more & IH) Hstep].
  - exists []. now rewrite app_nil_r.
  - inversion Hstep; subst; simpl; rewrite IH.
    + eexists. now rewrite <- app_assoc.
    + eexists. now rewrite <- app_assoc.
    + eauto.
Qed.

End Settings.

(** ** What a report returns *)

Section Returns.

Context {S : Type}.

Lemma returns_ret {A} (Q : A -> Prop) (a : A) :
  Q a -> returns (S := S) Q (ret a).
Proof. intros H w b w' [= <- <-]. exact H. Qed.

Lemma returns_raise {A} (Q : A -> Prop) e : returns (S := S) Q (raise e).
Proof. intros w b w'. discriminate. Qed.

Lemma returns_bind {A B} (Q : B -> Prop) (m : M S A) (k : A -> M S B) :
  (forall a, returns Q (k a)) -> returns Q (bindM m k).
Proof.
  intros Hk w b w' H. apply bindM_ok_inv in H as (a & w1 & _ & H).
  eapply Hk; eauto.
Qed.

Lemma list_contains_keys (d : pydict) (k : value) :
  list_contains (dict_keys d) k = dict_has d k.
Proof.
  unfold dict_has. induction d as [ | [k' v] d IH]; simpl; auto.
  destruct (py_eqb k' k); auto.
Qed.

Context (P : CJA.platform S).

Lemma normal_report_shape fuel a l res :
  returns (fun rep => shape_of_report rep = "normal")
          (CJA.normal_report P fuel a l res).
Proof.
  unfold CJA.normal_report, CJA.normal_workspace.
  repeat (apply returns_bind; intros).
  destruct (negb (CJA.returnClass a)).
  - now apply returns_ret.
  - repeat (apply returns_bind; intros). now apply returns_ret.
Qed.

Lemma static_report_shape a l res :
  returns (fun rep => shape_of_report rep = "static")
          (CJA.static_report P a l res).
Proof.
  unfold CJA.static_report.
  destruct (negb (CJA.returnClass a)).
  - now apply returns_ret.
  - repeat (apply returns_bind; intros;
            repeat match goal with
                   | x : (_ * _)%type |- _ => destruct x
                   end).
    now apply returns_ret.
Qed.

Lemma resolve_request_inv request (w : world S) l w0 :
  CJA.resolve_request P request w = Some (Ok l, w0) ->
  exists doc, nth_error (heap w0) l = Some doc /\
              calls w0 = calls w /\ srv w0 = srv w.
Proof.
  destruct request as [ | path | l0]; simpl; try discriminate.
  - destruct (str_contains ".json" path); try discriminate.
    unfold bindM, lift, alloc.
    destruct (CJA.read_json P path) as [doc | e]; try discriminate.
    intros [= <- <-]. simpl. exists doc. splits; auto.
    rewrite nth_error_app2, Nat.sub_diag; auto.
  - unfold bindM, load.
    destruct (nth_error (heap w) l0) as [obj | ] eqn:E; try discriminate.
    destruct obj as [ | | | | xs | d]; try discriminate.
    + destruct (list_contains xs (VStr ".json")); discriminate.
    + destruct (dict_has d (VStr ".json")); try discriminate.
      intros [= <- <-]. eauto.
Qed.

Lemma post_report_inv a l (w : world S) res w2 doc :
  CJA.post_report P a l w = Some (Ok res, w2) ->
  nth_error (heap w) l = Some doc ->
  exists s',
    w2 = mkWorld (heap w) s'
           (calls w ++
            [mkExchange (Post (CJA.endpoint P ++ "/reports")%string doc
                              (CJA.report_params a)) (Ok res)]).
Proof.
  unfold CJA.post_report, bindM, load, CJA.connector_postData.
  intros H Hl. rewrite Hl in H.
  destruct (CJA.postData P (srv w) _ doc _) as [r s'].
  injection H as -> <-. eauto.
Qed.

End Returns.

(** ** Claims on [getReport] *)

(** Whenever [getReport] returns, the first answer of the service is in
    the journal and the shape of the result is "normal" if that answer has
    a "rows" key and "static" otherwise. *)
Lemma getReport_shape_of_result {S : Type} (P : CJA.platform S)
  (fuel : nat) (request : CJA.request_arg) (a : CJA.report_args)
  (w : world S) (rep : CJA.report) (w' : world S) :
  CJA.getReport P fuel request a w = Some (Ok rep, w') ->
  exists url doc params res more,
    calls w' = calls w ++ mkExchange (Post url doc params) (Ok res) :: more /\
    shape_of_report rep = if has_rows res then "normal" else "static".
Proof.
  unfold CJA.getReport. intros H.
  apply bindM_ok_inv in H as (l & w0 & Hreq & H).
  apply resolve_request_inv in Hreq as (doc & Hl & Hc0 & _).
  apply bindM_ok_inv in H as (u & w1 & Hset & H).
  destruct (apply_settings_inv _ _ _ _ _ _ Hset Hl)
    as (doc1 & Hl1 & _ & _ & Hc1 & _).
  apply bindM_ok_inv in H as (res & w2 & Hpost & H).
  destruct (post_report_inv _ _ _ _ _ _ _ Hpost Hl1) as (s' & ->).
  apply bindM_ok_inv in H as (keys & w3 & Hkeys & H).
  apply lift_inv in Hkeys as (Hkeys & ->).
  destruct res as [ | | | | xs | d]; try discriminate.
  injection Hkeys as ->. rewrite list_contains_keys in H.
  exists (CJA.endpoint P ++ "/reports")%string, doc1, (CJA.report_params a),
         (VDict d).
  simpl has_rows. destruct (dict_has d (VStr "rows")).
  - destruct (evolves_calls _ _ _ (tame_normal_report P l fuel a _ _ _ _ H))
      as (more & Hmore).
    exists more. split.
    + rewrite Hmore. simpl. rewrite Hc1, Hc0, <- app_assoc. reflexivity.
    + eapply normal_report_shape; eauto.
  - destruct (evolves_calls _ _ _ (tame_static_report P l a _ _ _ _ H))
      as (more & Hmore).
    exists more. split.
    + rewrite Hmore. simpl. rewrite Hc1, Hc0, <- app_assoc. reflexivity.
    + eapply static_report_shape; eauto.
Qed.

(** C9. When [getReport] is given a dictionary of the caller and returns,
    that very dictionary (not a copy) holds the settings derived from the
    arguments of the call: limit, nonesBehavior, countRepeatInstances and
    statistics.ignoreZeroes, and a page number counted from 0.  The first
    document posted has page 0, and every document posted carries the
    settings of the arguments, whatever the dictionary held before. *)
Theorem getReport_overwrites_caller_settings {S : Type} (P : CJA.platform S)
  (fuel : nat) (a : CJA.report_args) (l : loc) (w : world S)
  (d : pydict) (rep : CJA.report) (w' : world S) :
  nth_error (heap w) l = Some (VDict d) ->
  CJA.getReport P fuel (CJA.ReqRef l) a w = Some (Ok rep, w') ->
  exists doc' n more first rest,
    nth_error (heap w') l = Some doc' /\
    forced_settings a doc' /\
    page_of doc' = Some n /\ (0 <= n)%Z /\
    calls w' = calls w ++ more /\
    posted more = first :: rest /\
    page_of first = Some 0%Z /\
    Forall (forced_settings a) (posted more).
Proof.
  unfold CJA.getReport. intros Hd H.
  apply bindM_ok_inv in H as (l0 & w0 & Hreq & H).
  assert (l0 = l /\ w0 = w) as [-> ->].
  { simpl in Hreq. unfold bindM, load in Hreq. rewrite Hd in Hreq.
    destruct (dict_has d (VStr ".json")); try discriminate.
    now injection Hreq as <- <-. }
  apply bindM_ok_inv in H as (u & w1 & Hset & H).
  destruct (apply_settings_inv _ _ _ _ _ _ Hset Hd)
    as (doc1 & Hl1 & Hf1 & Hp1 & Hc1 & _).
  apply bindM_ok_inv in H as (res & w2 & Hpost & H).
  destruct (post_report_inv _ _ _ _ _ _ _ Hpost Hl1) as (s' & ->).
  apply bindM_ok_inv in H as (keys & w3 & Hkeys & H).
  apply lift_inv in Hkeys as (_ & ->).
  assert (Hev : evolves l
            (mkWorld (heap w1) s'
               (calls w1 ++
                [mkExchange
                   (Post (CJA.endpoint P ++ "/reports")%string doc1
                         (CJA.report_params a)) (Ok res)])) w').
  { destruct (list_contains keys (VStr "rows")).
    - eapply tame_normal_report; eauto.
    - eapply tame_static_report; eauto. }
  destruct (evolves_inv a _ _ _ Hev doc1 0%Z Hl1 Hf1 Hp1)
    as (more & doc' & n & Hc & Hl' & Hf' & Hp' & Hn & Hall & _).
  simpl in Hc.
  exists doc', n,
    (mkExchange (Post (CJA.endpoint P ++ "/reports")%string doc1
                      (CJA.report_params a)) (Ok res) :: more),
    doc1, (posted more).
  splits; auto.
  - rewrite Hc, Hc1, <- app_assoc. reflexivity.
  - simpl. constructor; auto.
Qed.

Lemma getReport_overwrites_caller_settings_witness :
  exists doc' n more first rest,
    nth_error (heap world_after_three_pages) 0 = Some doc' /\
    forced_settings CJA.default_args doc' /\
    page_of doc' = Some n /\ (0 <= n)%Z /\
    calls world_after_three_pages = calls world_three_pages ++ more /\
    posted more = first :: rest /\
    page_of first = Some 0%Z /\
    Forall (forced_settings CJA.default_args) (posted more).
Proof.
  apply (getReport_overwrites_caller_settings scripted 10 CJA.default_args
           0 world_three_pages
           (match doc_m1_home with VDict d => d | _ => [] end)
           report_three_pages world_after_three_pages).
  - reflexivity.
  - vm_compute. reflexivity.
Defined.

(** ** Pagination *)

Section Pagination.

Lemma dict_set_id (d : pydict) (k : string) (v : value) :
  dict_get d (VStr k) = Some v -> dict_set d (VStr k) v = d.
Proof.
  induction d as [ | [k' v'] d IH]; simpl; try discriminate.
  destruct (py_eqb k' (VStr k)).
  - now intros [= ->].
  - intros H. now rewrite IH.
Qed.

Lemma heap_set_set (h : list value) l x y :
  heap_set (heap_set h l x) l y = heap_set h l y.
Proof.
  revert l. induction h as [ | z h IH]; intros [ | l]; simpl; auto.
  now rewrite IH.
Qed.

Lemma heap_set_id (h : list value) l v :
  nth_error h l = Some v -> heap_set h l v = h.
Proof.
  revert l. induction h as [ | z h IH]; intros [ | l]; simpl;
    try discriminate.
  - now intros [= ->].
  - intros H. now rewrite IH.
Qed.

Lemma settle_page a doc doc0 :
  settle a doc = Ok doc0 -> get2 doc0 "settings" "page" = Some (VInt 0).
Proof.
  unfold settle. intros H.
  destruct (CJA.set_item2 "settings" "page" (VInt 0) doc) as [d1 | ] eqn:F1;
    simpl in H; try discriminate.
  destruct (CJA.set_item2 "settings" "limit" (CJA.limit a) d1)
    as [d2 | ] eqn:F2; simpl in H; try discriminate.
  destruct (CJA.set_item2 "settings" "nonesBehavior" _ d2)
    as [d3 | ] eqn:F3; simpl in H; try discriminate.
  destruct (CJA.set_item2 "settings" "countRepeatInstances" _ d3)
    as [d4 | ] eqn:F4; simpl in H; try discriminate.
  assert (G5 : exists d5,
             CJA.set_item2 "statistics" "ignoreZeroes"
               (VBool (truthy (CJA.ignoreZeroes a))) d5 = Ok doc0 /\
             get2 d5 "settings" "page" = get2 d4 "settings" "page").
  { destruct (CJA.dataViewId a) as [dv | ].
    - destruct (store_subscript d4 (VStr "dataId") (VStr dv))
        as [d5 | ] eqn:F5; simpl in H; try discriminate.
      exists d5. split; auto.
      apply (store_top_get _ _ _ _ _ _ F5). discriminate.
    - simpl in H. eauto. }
  destruct G5 as (d5 & F6 & G5).
  rewrite (set_item2_get _ _ _ _ _ _ _ F6). simpl. rewrite G5.
  rewrite (set_item2_get _ _ _ _ _ _ _ F4). simpl.
  rewrite (set_item2_get _ _ _ _ _ _ _ F3). simpl.
  rewrite (set_item2_get _ _ _ _ _ _ _ F2). simpl.
  now rewrite (set_item2_get _ _ _ _ _ _ _ F1).
Qed.

Lemma get2_settings_inv doc k v :
  get2 doc "settings" k = Some v ->
  exists d s, doc = VDict d /\ dict_get d (VStr "settings") = Some (VDict s) /\
              dict_get s (VStr k) = Some v.
Proof.
  unfold get2. destruct doc as [ | | | | | d]; try discriminate.
  destruct (dict_get d (VStr "settings")) as [[ | | | | | s] | ] eqn:E;
    try discriminate.
  intros H. exists d, s. auto.
Qed.

Lemma page_doc_zero doc :
  get2 doc "settings" "page" = Some (VInt 0) -> page_doc doc 0 = doc.
Proof.
  intros H. apply get2_settings_inv in H as (d & s & -> & Hs & Hp).
  unfold page_doc. rewrite Hs. rewrite (dict_set_id _ _ _ Hp).
  now rewrite (dict_set_id _ _ _ Hs).
Qed.

Lemma page_doc_next doc v i :
  get2 doc "settings" "page" = Some v ->
  CJA.iadd_item2 "settings" "page" (VInt 1) (page_doc doc i) =
  Ok (page_doc doc (i + 1)).
Proof.
  intros H. apply get2_settings_inv in H as (d & s & -> & Hs & Hp).
  unfold page_doc, CJA.iadd_item2. rewrite Hs. simpl.
  rewrite dict_get_set_same. simpl. rewrite dict_get_set_same. simpl.
  now rewrite !dict_set_set.
Qed.

Context {S : Type} (P : CJA.platform S).

Lemma update_ok_set l f (h : list value) (s : S) c d d' :
  l < length h -> f d = Ok d' ->
  CJA.update l f (mkWorld (heap_set h l d) s c) =
  Some (Ok tt, mkWorld (heap_set h l d') s c).
Proof.
  intros Hlt Hf.
  rewrite (update_ok l f (mkWorld (heap_set h l d) s c) d d'
             (heap_set_same _ _ _ Hlt) Hf).
  simpl. now rewrite heap_set_set.
Qed.

Lemma apply_settings_ok a l (w : world S) doc doc0 :
  nth_error (heap w) l = Some doc ->
  settle a doc = Ok doc0 ->
  CJA.apply_settings a l w =
  Some (Ok tt, mkWorld (heap_set (heap w) l doc0) (srv w) (calls w)).
Proof.
  unfold settle, CJA.apply_settings. intros Hl H.
  assert (Hlt : l < length (heap w)) by (eapply nth_error_lt; eauto).
  destruct (CJA.set_item2 "settings" "page" (VInt 0) doc) as [d1 | ] eqn:F1;
    simpl in H; try discriminate.
  rewrite (bindM_ok _ _ _ _ _ (update_ok _ _ _ _ _ Hl F1)).
  destruct (CJA.set_item2 "settings" "limit" (CJA.limit a) d1)
    as [d2 | ] eqn:F2; simpl in H; try discriminate.
  rewrite (bindM_ok _ _ _ _ _ (update_ok_set _ _ _ _ _ _ _ Hlt F2)).
  destruct (CJA.set_item2 "settings" "nonesBehavior" _ d2)
    as [d3 | ] eqn:F3; simpl in H; try discriminate.
  assert (E3 : forall k : unit -> M S unit,
    bindM (if truthy (CJA.returnsNone a)
           then CJA.update l (CJA.set_item2 "settings" "nonesBehavior"
                                (VStr "return-nones"))
           else CJA.update l (CJA.set_item2 "settings" "nonesBehavior"
                                (VStr "exclude-nones"))) k
          (mkWorld (heap_set (heap w) l d2) (srv w) (calls w)) =
    k tt (mkWorld (heap_set (heap w) l d3) (srv w) (calls w))).
  { intros k. apply bindM_ok.
    destruct (truthy (CJA.returnsNone a));
      apply update_ok_set; auto. }
  rewrite E3. clear E3.
  destruct (CJA.set_item2 "settings" "countRepeatInstances" _ d3)
    as [d4 | ] eqn:F4; simpl in H; try discriminate.
  assert (E4 : forall k : unit -> M S unit,
    bindM (if truthy (CJA.countRepeatInstances a)
           then CJA.update l (CJA.set_item2 "settings" "countRepeatInstances"
                                (VBool true))
           else CJA.update l (CJA.set_item2 "settings" "countRepeatInstances"
                                (VBool false))) k
          (mkWorld (heap_set (heap w) l d3) (srv w) (calls w)) =
    k tt (mkWorld (heap_set (heap w) l d4) (srv w) (calls w))).
  { intros k. apply bindM_ok.
    destruct (truthy (CJA.countRepeatInstances a));
      apply update_ok_set; auto. }
  rewrite E4. clear E4.
  assert (E5 : exists d5,
    CJA.set_item2 "statistics" "ignoreZeroes"
      (VBool (truthy (CJA.ignoreZeroes a))) d5 = Ok doc0 /\
    forall k : unit -> M S unit,
    bindM (match CJA.dataViewId a with
           | Some dv =>
               CJA.update l
                 (fun obj => store_subscript obj (VStr "dataId") (VStr dv))
           | None => ret tt
           end) k
          (mkWorld (heap_set (heap w) l d4) (srv w) (calls w)) =
    k tt (mkWorld (heap_set (heap w) l d5) (srv w) (calls w))).
  { destruct (CJA.dataViewId a) as [dv | ].
    - destruct (store_subscript d4 (VStr "dataId") (VStr dv))
        as [d5 | ] eqn:F5; simpl in H; try discriminate.
      exists d5. split; auto. intros k. apply bindM_ok.
      apply update_ok_set; auto.
    - simpl in H. exists d4. split; auto. }
  destruct E5 as (d5 & F6 & E5). rewrite E5.
  destruct (truthy (CJA.ignoreZeroes a)); apply update_ok_set; auto.
Qed.

Lemma post_report_ok a l (w : world S) doc r s1 :
  nth_error (heap w) l = Some doc ->
  CJA.postData P (srv w) (CJA.endpoint P ++ "/reports")%string doc
               (CJA.report_params a) = (r, s1) ->
  CJA.post_report P a l w =
  Some (r, mkWorld (heap w) s1
             (calls w ++
              [mkExchange (Post (CJA.endpoint P ++ "/reports")%string doc
                                (CJA.report_params a)) r])).
Proof.
  intros Hl Hp. unfold CJA.post_report, bindM, load,
    CJA.connector_postData. now rewrite Hl, Hp.
Qed.

End Pagination.

Section FetchLoop.

Context {S : Type} (P : CJA.platform S) (a : CJA.report_args) (l : loc).

Let url : string := (CJA.endpoint P ++ "/reports")%string.
Let params : value := CJA.report_params a.

Lemma valid_page_reads p :
  valid_page p ->
  exists n lp,
    py_get p (VStr "rows") VNone = Ok (VList (page_rows p)) /\
    py_get p (VStr "numberOfElements") VNone = Ok (VInt n) /\
    py_get p (VStr "lastPage") (VBool true) = Ok lp /\
    py_eqb lp (VBool true) = says_last p /\
    py_keys p = Ok (match p with VDict d => dict_keys d | _ => [] end) /\
    has_rows p = true.
Proof.
  intros (d & rows & n & -> & Hr & Hn). simpl. rewrite Hr, Hn.
  exists n. unfold dict_has. rewrite Hr.
  destruct (dict_get d (VStr "lastPage")) as [lp | ]; eauto 10.
Qed.

Lemma cap_lastPage_stop cap rows lp p :
  py_float (CJA.n_results a) = Ok cap ->
  py_eqb lp (VBool true) = says_last p ->
  exists lp',
    CJA.cap_lastPage a (VList rows) lp = Ok lp' /\
    py_eqb lp' (VBool true) = stop_after cap (length rows) p.
Proof.
  intros Hcap Hlp. unfold CJA.cap_lastPage, stop_after. simpl.
  rewrite Hcap. simpl. destruct (len_reaches (length rows) cap); eauto.
Qed.

(** The loop takes in the pages [others] one by one and stops after the
    last of them. *)
Lemma fetch_pages_run doc0 v0 cap :
  get2 doc0 "settings" "page" = Some v0 ->
  py_float (CJA.n_results a) = Ok cap ->
  forall others fuel acc tot lp i (w : world S) s',
    Forall valid_page others ->
    length others <= fuel ->
    nth_error (heap w) l = Some (page_doc doc0 i) ->
    answers P (srv w) url params
            (page_docs doc0 (i + 1) (length others)) = (map Ok others, s') ->
    stops_at_end cap (length acc) (py_eqb lp (VBool true)) others = true ->
    CJA.fetch_pages P fuel a l (VList acc) (VInt tot) lp w =
    Some (Ok (VList (acc ++ concat (map page_rows others))),
          mkWorld
            (heap_set (heap w) l
               (page_doc doc0 (i + Z.of_nat (length others))))
            s'
            (calls w ++
             post_log url params
               (page_docs doc0 (i + 1) (length others)) (map Ok others))).
Proof.
  intros Hpage Hcap.
  induction others as [ | p others IH];
    intros fuel acc tot lp i w s' Hv Hfuel Hl Hans Hstop.
  - simpl in *. injection Hans as <-. rewrite Z.add_0_r, !app_nil_r.
    rewrite (heap_set_id _ _ _ Hl).
    destruct fuel; simpl; rewrite Hstop; simpl; now destruct w.
  - simpl in Hstop. apply andb_prop in Hstop as [Hgo Hstop].
    destruct fuel as [ | fuel]; [simpl in Hfuel; lia | ].
    simpl CJA.fetch_pages. rewrite Hgo.
    inversion Hv as [ | ? ? Hp Hv']; subst.
    destruct (valid_page_reads p Hp) as (n & lp1 & Hr & Hn & Hlp & Hlast & _).
    simpl in Hans.
    destruct (CJA.postData P (srv w) url (page_doc doc0 (i + 1)) params)
      as [r s1] eqn:Hpost.
    destruct (answers P s1 url params
                (page_docs doc0 (i + 1 + 1) (length others)))
      as [rs s2] eqn:Hrest.
    injection Hans as -> -> ->.
    rewrite (bindM_ok _ _ _ _ _
               (update_ok _ _ _ _ _ Hl (page_doc_next _ _ _ Hpage))).
    assert (Hlt : l < length (heap w)) by (eapply nth_error_lt; eauto).
    rewrite (bindM_ok _ _ _ _ _
               (post_report_ok P a l
                  (mkWorld (heap_set (heap w) l (page_doc doc0 (i + 1)))
                           (srv w) (calls w)) _ _ _
                  (heap_set_same _ _ _ Hlt) Hpost)).
    destruct (cap_lastPage_stop cap (acc ++ page_rows p) lp1 p Hcap Hlast)
      as (lp2 & Hcl & Hlp2).
    rewrite (bindM_lift_ok _ _ _ _ Hr).
    rewrite (bindM_lift_ok _ (VList (acc ++ page_rows p)) _ _ eq_refl).
    rewrite (bindM_lift_ok _ _ _ _ Hlp).
    rewrite (bindM_lift_ok _ _ _ _ Hn).
    rewrite (bindM_lift_ok _ (VInt (tot + n)) _ _ eq_refl).
    rewrite (bindM_lift_ok _ _ _ _ Hcl).
    rewrite length_app in Hlp2.
    rewrite (IH fuel (acc ++ page_rows p) (tot + n)%Z lp2 (i + 1)%Z _ s');
      simpl; auto.
    + rewrite heap_set_set, <- !app_assoc.
      replace (i + 1 + Z.of_nat (length others))%Z
        with (i + Z.of_nat (length (p :: others)))%Z
        by (simpl length; lia).
      reflexivity.
    + simpl in Hfuel. lia.
    + apply heap_set_same; auto.
    + rewrite length_app. now rewrite Hlp2.
Qed.

End FetchLoop.

(** Up to the end of the pagination loop: [getReport] has posted one
    request per page and holds the rows of all the pages. *)
Lemma getReport_fetch {S : Type} (P : CJA.platform S)
  (a : CJA.report_args) (l : loc) (w : world S) (d : pydict)
  (doc0 : value) (cap : extnum) (first : value) (others : list value)
  (fuel : nat) (s' : S) :
  let url := (CJA.endpoint P ++ "/reports")%string in
  let params := CJA.report_params a in
  let docs := page_docs doc0 0 (Datatypes.S (length others)) in
  nth_error (heap w) l = Some (VDict d) ->
  dict_has d (VStr ".json") = false ->
  settle a (VDict d) = Ok doc0 ->
  py_float (CJA.n_results a) = Ok cap ->
  Forall valid_page (first :: others) ->
  answers P (srv w) url params docs = (map Ok (first :: others), s') ->
  stops_at_end cap 0 false (first :: others) = true ->
  length others <= fuel ->
  exists columns summaryData,
    CJA.getReport P fuel (CJA.ReqRef l) a w =
    CJA.normal_workspace P a l columns summaryData
      (VList (concat (map page_rows (first :: others))))
      (mkWorld
         (heap_set (heap w) l (page_doc doc0 (Z.of_nat (length others))))
         s'
         (calls w ++ post_log url params docs (map Ok (first :: others)))).
Proof.
  intros url params docs Hl Hjson Hset Hcap Hv Hans Hstop Hfuel.
  assert (Hpage := settle_page _ _ _ Hset).
  unfold CJA.getReport.
  assert (Hreq : CJA.resolve_request P (CJA.ReqRef l) w = Some (Ok l, w)).
  { simpl. unfold bindM, load. now rewrite Hl, Hjson. }
  rewrite (bindM_ok _ _ _ _ _ Hreq).
  rewrite (bindM_ok _ _ _ _ _ (apply_settings_ok a l w _ _ Hl Hset)).
  assert (Hlt : l < length (heap w)) by (eapply nth_error_lt; eauto).
  inversion Hv as [ | ? ? Hfirst Hothers]; subst.
  unfold docs in *. simpl page_docs in *. simpl answers in Hans.
  rewrite (page_doc_zero _ Hpage) in *.
  fold url params in Hans.
  destruct (CJA.postData P (srv w) url doc0 params) as [r s1] eqn:Hpost.
  destruct (answers P s1 url params (page_docs doc0 1 (length others)))
    as [rs s2] eqn:Hrest.
  simpl in Hans. injection Hans as -> -> ->.
  rewrite (bindM_ok _ _ _ _ _
             (post_report_ok P a l
                (mkWorld (heap_set (heap w) l doc0) (srv w) (calls w))
                _ _ _ (heap_set_same _ _ _ Hlt) Hpost)).
  destruct (valid_page_reads first Hfirst)
    as (n & lp & Hr & Hn & Hlp & Hlast & Hkeys & Hrows).
  rewrite (bindM_lift_ok _ _ _ _ Hkeys).
  assert (Hin : list_contains
                  (match first with VDict d0 => dict_keys d0 | _ => [] end)
                  (VStr "rows") = true).
  { destruct first; try discriminate. simpl in Hrows.
    now rewrite list_contains_keys. }
  rewrite Hin. unfold CJA.normal_report.
  rewrite (bindM_lift_ok _ _ _ _ Hr).
  destruct (py_get first (VStr "columns") VNone) as [cols | ] eqn:Hcols.
  2: { destruct Hfirst as (d1 & ? & ? & -> & _). discriminate. }
  rewrite (bindM_lift_ok (Ok cols) cols _ _ eq_refl).
  destruct (py_get first (VStr "summaryData") VNone) as [summ | ] eqn:Hsum.
  2: { destruct Hfirst as (d1 & ? & ? & -> & _). discriminate. }
  rewrite (bindM_lift_ok (Ok summ) summ _ _ eq_refl).
  rewrite (bindM_lift_ok _ _ _ _ Hn).
  rewrite (bindM_lift_ok _ _ _ _ Hlp).
  destruct (cap_lastPage_stop a cap (page_rows first) lp first Hcap Hlast)
    as (lp' & Hcl & Hlp').
  rewrite (bindM_lift_ok _ _ _ _ Hcl).
  simpl in Hstop.
  rewrite (bindM_ok _ _ _ _ _
             (fetch_pages_run P a l doc0 _ cap Hpage Hcap others fuel
                (page_rows first) n lp' 0%Z
                (mkWorld (heap_set (heap w) l doc0) s1
                   (calls w ++ [mkExchange (Post url doc0 params)
                                           (Ok first)]))
                s' Hothers Hfuel
                ltac:(simpl; rewrite (page_doc_zero _ Hpage);
                      now apply heap_set_same)
                Hrest
                ltac:(now rewrite Hlp'))).
  exists cols, summ. simpl. rewrite heap_set_set, <- app_assoc.
  reflexivity.
Qed.

(** C2. A caller posts a dictionary and the service answers the first
    request with the dictionary [rd].  Then [getReport] goes on as the
    normal branch when [rd] has a key "rows" and as the static branch
    otherwise, whatever else [rd] holds: the run of [getReport] is the run
    of that branch on [rd], started in the world the first request leaves
    behind.  In particular a response without "rows" asked for raw
    ([returnClass = False]) is returned as it is, and whenever [getReport]
    returns, its result has the shape "normal" exactly when "rows" is a
    key of [rd] and the shape "static" otherwise. *)
Theorem getReport_shape_decided_by_rows {S : Type} (P : CJA.platform S)
  (fuel : nat) (a : CJA.report_args) (l : loc) (w : world S)
  (d : pydict) (doc0 : value) (rd : pydict) (s1 : S) :
  let url := (CJA.endpoint P ++ "/reports")%string in
  let params := CJA.report_params a in
  let w1 :=
    mkWorld (heap_set (heap w) l doc0) s1
            (calls w ++ [mkExchange (Post url doc0 params) (Ok (VDict rd))]) in
  nth_error (heap w) l = Some (VDict d) ->
  dict_has d (VStr ".json") = false ->
  settle a (VDict d) = Ok doc0 ->
  CJA.postData P (srv w) url doc0 params = (Ok (VDict rd), s1) ->
  CJA.getReport P fuel (CJA.ReqRef l) a w =
    (if has_rows (VDict rd) then CJA.normal_report P fuel a l (VDict rd) w1
     else CJA.static_report P a l (VDict rd) w1) /\
  (has_rows (VDict rd) = false -> CJA.returnClass a = false ->
   CJA.getReport P fuel (CJA.ReqRef l) a w =
     Some (Ok (CJA.RawResponse (VDict rd)), w1)) /\
  (forall rep w',
     CJA.getReport P fuel (CJA.ReqRef l) a w = Some (Ok rep, w') ->
     shape_of_report rep =
       if has_rows (VDict rd) then "normal" else "static").
Proof.
  intros url params w1 Hl Hjson Hset Hpost.
  assert (Hlt : l < length (heap w)) by (eapply nth_error_lt; eauto).
  assert (Hrun : CJA.getReport P fuel (CJA.ReqRef l) a w =
            if has_rows (VDict rd)
            then CJA.normal_report P fuel a l (VDict rd) w1
            else CJA.static_report P a l (VDict rd) w1).
  { unfold CJA.getReport.
    assert (Hreq : CJA.resolve_request P (CJA.ReqRef l) w = Some (Ok l, w)).
    { simpl. unfold bindM, load. now rewrite Hl, Hjson. }
    rewrite (bindM_ok _ _ _ _ _ Hreq).
    rewrite (bindM_ok _ _ _ _ _ (apply_settings_ok a l w _ _ Hl Hset)).
    rewrite (bindM_ok _ _ _ _ _
               (post_report_ok P a l
                  (mkWorld (heap_set (heap w) l doc0) (srv w) (calls w))
                  _ _ _ (heap_set_same _ _ _ Hlt) Hpost)).
    rewrite (bindM_lift_ok _ (dict_keys rd) _ _ eq_refl).
    rewrite list_contains_keys. simpl has_rows.
    destruct (dict_has rd (VStr "rows")); reflexivity. }
  splits.
  - exact Hrun.
  - intros Hrows Hraw. rewrite Hrun, Hrows.
    unfold CJA.static_report. now rewrite Hraw.
  - intros rep w' H. rewrite Hrun in H.
    destruct (has_rows (VDict rd)).
    + eapply normal_report_shape; eauto.
    + eapply static_report_shape; eauto.
Qed.

(** A response without "rows": asked for raw it comes back as it is, one
    request sent; asked for with the defaults it comes back as a workspace
    of type "static". *)
Lemma getReport_shape_decided_by_rows_witness :
  CJA.getReport scripted 10 (CJA.ReqRef 0) args_raw world_static_filtered =
    Some (Ok (CJA.RawResponse response_static_filtered),
          mkWorld [doc_static_settled_raw] []
            [mkExchange
               (Post "https://cja.adobe.io/reports" doc_static_settled_raw
                     (CJA.report_params args_raw))
               (Ok response_static_filtered)]) /\
  shape_of_report report_static_filtered = "static" /\
  shape_of_report report_three_pages = "normal".
Proof.
  splits.
  - apply (getReport_shape_decided_by_rows scripted 10 args_raw 0
             world_static_filtered
             (match doc_static_filtered with VDict d => d | _ => [] end)
             doc_static_settled_raw
             (match response_static_filtered with VDict d => d | _ => [] end)
             []); reflexivity.
  - apply (getReport_shape_decided_by_rows scripted 10 CJA.default_args 0
             world_static_filtered
             (match doc_static_filtered with VDict d => d | _ => [] end)
             doc_static_settled
             (match response_static_filtered with VDict d => d | _ => [] end)
             [] eq_refl eq_refl eq_refl eq_refl)
      with (w' := world_after_static_filtered).
    vm_compute. reflexivity.
  - apply (getReport_shape_decided_by_rows scripted 10 CJA.default_args 0
             world_three_pages
             (match doc_m1_home with VDict d => d | _ => [] end)
             doc_m1_home_settled_default
             (match mk_page [mk_row "1" "a" [1]%Z] false with
              | VDict d => d | _ => [] end)
             (tl three_pages) eq_refl eq_refl eq_refl eq_refl)
      with (w' := world_after_three_pages).
    vm_compute. reflexivity.
Defined.

(** C4. A caller posts a dictionary and asks for the rows
    ([returnClass = False]).  The service answers the documents of the
    pages 0, 1, 2, ... with the pages [first :: others], and the loop
    condition (the service says "last page", or the accumulated rows reach
    [n_results]; "inf" never does) first holds after the last of them.
    Then [getReport], given enough fuel for the loop, returns the rows of
    all the pages concatenated in order, nothing dropped and nothing
    reordered; it has posted exactly one request per page, the [i]-th with
    page number [i], and the caller's dictionary is left on the last page
    number. *)
Theorem getReport_pagination {S : Type} (P : CJA.platform S)
  (a : CJA.report_args) (l : loc) (w : world S) (d : pydict)
  (doc0 : value) (cap : extnum) (first : value) (others : list value)
  (fuel : nat) (s' : S) :
  let url := (CJA.endpoint P ++ "/reports")%string in
  let params := CJA.report_params a in
  let docs := page_docs doc0 0 (Datatypes.S (length others)) in
  nth_error (heap w) l = Some (VDict d) ->
  dict_has d (VStr ".json") = false ->
  settle a (VDict d) = Ok doc0 ->
  CJA.returnClass a = false ->
  py_float (CJA.n_results a) = Ok cap ->
  Forall valid_page (first :: others) ->
  answers P (srv w) url params docs = (map Ok (first :: others), s') ->
  stops_at_end cap 0 false (first :: others) = true ->
  length others <= fuel ->
  CJA.getReport P fuel (CJA.ReqRef l) a w =
  Some (Ok (CJA.RawRows
              (VList (concat (map page_rows (first :: others))))),
        mkWorld
          (heap_set (heap w) l (page_doc doc0 (Z.of_nat (length others))))
          s'
          (calls w ++ post_log url params docs (map Ok (first :: others))))
  /\ posted (post_log url params docs (map Ok (first :: others))) = docs
  /\ length docs = length (first :: others).
Proof.
  intros url params docs Hl Hjson Hset Hraw Hcap Hv Hans Hstop Hfuel.
  assert (Hlen : forall k z, length (page_docs doc0 z k) = k).
  { induction k as [ | k IH]; intros z; simpl; auto. }
  splits.
  - destruct (getReport_fetch P a l w d doc0 cap first others fuel s'
                Hl Hjson Hset Hcap Hv Hans Hstop Hfuel)
      as (columns & summaryData & ->).
    unfold CJA.normal_workspace. now rewrite Hraw.
  - assert (G : forall (ds : list value) (ps : list (res value)),
               length ds = length ps ->
               posted (post_log url params ds ps) = ds).
    { induction ds as [ | x ds IH]; intros [ | q ps]; simpl;
        try discriminate; auto.
      intros [= Hq]. unfold post_log in IH. now rewrite IH. }
    apply G. unfold docs. rewrite Hlen, length_map. reflexivity.
  - unfold docs. rewrite Hlen. reflexivity.
Qed.

Lemma three_pages_valid : Forall valid_page three_pages.
Proof.
  repeat constructor; unfold valid_page;
    eexists _, _, _; repeat split; reflexivity.
Qed.

(** Three pages with [lastPage = [False, False, True]]: three posts, and
    the rows of the three pages in order. *)
Lemma getReport_pagination_witness :
  exists w',
    CJA.getReport scripted 10 (CJA.ReqRef 0) args_raw world_three_pages =
    Some (Ok (CJA.RawRows
                (VList [mk_row "1" "a" [1]%Z; mk_row "2" "b" [2]%Z;
                        mk_row "3" "c" [3]%Z])), w') /\
    length (calls w') = 3 /\
    map page_of (posted (calls w')) = [Some 0%Z; Some 1%Z; Some 2%Z].
Proof.
  destruct (getReport_pagination scripted args_raw 0 world_three_pages
              (match doc_m1_home with VDict d => d | _ => [] end)
              doc_m1_home_settled PlusInf
              (mk_page [mk_row "1" "a" [1]%Z] false)
              [mk_page [mk_row "2" "b" [2]%Z] false;
               mk_page [mk_row "3" "c" [3]%Z] true]
              10 []
              eq_refl eq_refl eq_refl eq_refl eq_refl three_pages_valid
              eq_refl eq_refl ltac:(simpl; lia))
    as (Hrun & _ & _).
  eexists. split; [exact Hrun | ]. split; reflexivity.
Defined.

(** ** Dictionaries built by a comprehension *)

Section Comprehensions.

Lemma store_all_notin (es : list (string * value)) (k : string) :
  ~ In k (map fst es) ->
  forall acc, dict_get (store_all es acc) (VStr k) = dict_get acc (VStr k).
Proof.
  unfold store_all. induction es as [ | [j v] es IH]; intros Hn acc; simpl;
    auto.
  rewrite IH by (simpl in Hn; tauto).
  apply dict_get_set_other. simpl in Hn. intros ->. tauto.
Qed.

Lemma store_all_in (es : list (string * value)) (k : string) (v : value) :
  NoDup (map fst es) -> In (k, v) es ->
  forall acc, dict_get (store_all es acc) (VStr k) = Some v.
Proof.
  unfold store_all.
  induction es as [ | [j x] es IH]; intros Hnd Hin acc; simpl in *;
    [contradiction | ].
  inversion Hnd as [ | ? ? Hj Hnd']; subst.
  destruct Hin as [[= -> ->] | Hin].
  - fold (store_all es (dict_set acc (VStr k) v)).
    rewrite store_all_notin by exact Hj. apply dict_get_set_same.
  - now apply IH.
Qed.

Lemma dict_set_new (d : pydict) (k : string) (v : value) :
  dict_get d (VStr k) = None -> dict_set d (VStr k) v = d ++ [(VStr k, v)].
Proof.
  induction d as [ | [k' v'] d IH]; simpl; auto.
  destruct (py_eqb k' (VStr k)); try discriminate.
  intros H. now rewrite IH.
Qed.

Lemma store_all_keys (es : list (string * value)) :
  NoDup (map fst es) ->
  forall acc,
    (forall k, In k (map fst es) -> dict_get acc (VStr k) = None) ->
    store_all es acc = acc ++ map (fun e => (VStr (fst e), snd e)) es.
Proof.
  unfold store_all.
  induction es as [ | [j x] es IH]; intros Hnd acc Hacc; simpl.
  - now rewrite app_nil_r.
  - inversion Hnd as [ | ? ? Hj Hnd']; subst.
    assert (Hnew : dict_get acc (VStr j) = None).
    { apply Hacc. simpl. auto. }
    rewrite (dict_set_new acc j x Hnew).
    rewrite IH; auto.
    + now rewrite <- app_assoc.
    + intros k Hk.
      assert (Hne : j <> k) by (intros ->; contradiction).
      rewrite <- (dict_set_new acc j x Hnew).
      rewrite dict_get_set_other by exact Hne. apply Hacc. simpl. auto.
Qed.

Lemma strings_map (vs : list value) (l : list string) :
  strings vs = Some l -> vs = map VStr l.
Proof.
  revert l. induction vs as [ | v vs IH]; intros l; simpl.
  - now intros [= <-].
  - destruct v; try discriminate.
    destruct (strings vs) as [l' | ]; try discriminate.
    intros [= <-]. simpl. now rewrite (IH l').
Qed.

(** What the code reads in a well-formed metric. *)
Lemma metric_fields_reads (v : value) (m : metric_decl) :
  metric_fields v = Some m ->
  subscript v (VStr "columnId") = Ok (VStr (m_columnId m)) /\
  subscript v (VStr "id") = Ok (VStr (m_id m)) /\
  py_get v (VStr "filters") (VList []) = Ok (VList (map VStr (m_filters m))) /\
  (m_filters m <> [] ->
   subscript v (VStr "filters") = Ok (VList (map VStr (m_filters m)))).
Proof.
  unfold metric_fields. destruct v as [ | | | | | d]; try discriminate.
  simpl.
  destruct (dict_get d (VStr "columnId")) as [[ | | | c | | ] | ];
    try discriminate.
  destruct (dict_get d (VStr "id")) as [[ | | | i | | ] | ];
    try discriminate.
  destruct (dict_get d (VStr "filters")) as [[ | | | | fs | ] | ];
    try discriminate.
  - destruct (strings fs) as [l | ] eqn:E; try discriminate.
    intros [= <-]. simpl. rewrite (strings_map _ _ E). auto.
  - intros [= <-]. simpl. splits; auto. intros H. now contradiction H.
Qed.

Lemma normal_columnIdRelations_ok (ml : list value) (ms : list metric_decl) :
  read_all metric_fields ml = Some ms ->
  forall acc,
    foldM (fun acc obj =>
             k <- subscript obj (VStr "columnId") ;;
             v <- subscript obj (VStr "id") ;;
             CJA.dict_store acc k v)%py acc ml =
    Ok (store_all (map (fun m => (m_columnId m, VStr (m_id m))) ms) acc).
Proof.
  revert ms. induction ml as [ | v ml IH]; intros ms; simpl.
  - now intros [= <-].
  - destruct (metric_fields v) as [m | ] eqn:Ev; try discriminate.
    destruct (read_all metric_fields ml) as [ms' | ]; try discriminate.
    intros [= <-] acc.
    destruct (metric_fields_reads _ _ Ev) as (Hc & Hi & _).
    rewrite Hc, Hi. simpl. now rewrite (IH ms' eq_refl).
Qed.

Lemma normal_filterRelations_ok (ml : list value) (ms : list metric_decl) :
  read_all metric_fields ml = Some ms ->
  forall acc,
    foldM (fun acc obj =>
             fs <- py_get obj (VStr "filters") (VList []) ;;
             n <- py_len fs ;;
             if (0 <? n)%nat then
               k <- subscript obj (VStr "columnId") ;;
               v <- subscript obj (VStr "filters") ;;
               CJA.dict_store acc k v
             else Ok acc)%py acc ml =
    Ok (store_all
          (map (fun m => (m_columnId m, VList (map VStr (m_filters m))))
               (filtered ms)) acc).
Proof.
  revert ms. induction ml as [ | v ml IH]; intros ms; simpl.
  - now intros [= <-].
  - destruct (metric_fields v) as [m | ] eqn:Ev; try discriminate.
    destruct (read_all metric_fields ml) as [ms' | ]; try discriminate.
    intros [= <-] acc.
    destruct (metric_fields_reads _ _ Ev) as (Hc & _ & Hg & Hs).
    rewrite Hg. simpl. rewrite length_map.
    destruct (m_filters m) as [ | f fs] eqn:Ef; simpl.
    + now rewrite (IH ms' eq_refl).
    + assert (Hs' := Hs ltac:(discriminate)).
      rewrite Hc, Hs'. simpl. rewrite (IH ms' eq_refl).
      now rewrite Ef.
Qed.

End Comprehensions.

(** ** The loop over the declared metric filters *)

Section FilterLoop.

Context {S : Type} (P : CJA.platform S).

Hypothesis Hlookups : lookups_answer P.

Lemma getFilter_answers (id : string) (w : world S) :
  exists d name w',
    CJA.getFilter P id w = Some (Ok (VDict d), w') /\
    dict_get d (VStr "name") = Some name.
Proof.
  unfold CJA.getFilter, CJA.connector_getData.
  destruct (Hlookups (srv w) (CJA.endpoint P ++ "/filters/" ++ id)%string
                     (VDict [])) as (d & name & s' & Hg & Hn).
  rewrite Hg. eauto.
Qed.

(** One turn of the loop on a well-formed filter records its display
    value under its id. *)
Lemma normal_filter_step_ok (v : value) (f : filter_decl) :
  filter_fields v = Some f ->
  forall st (w : world S),
  exists mf w',
    CJA.normal_filter_step P st v w =
    Some (Ok (CJA.mkLoop mf
                (dict_set (CJA.fl_translation st) (VStr (f_id f))
                          (VStr (display_value (f_kind f))))
                (Some (display_value (f_kind f)))), w').
Proof.
  unfold filter_fields. destruct v as [ | | | | | d]; try discriminate.
  destruct (dict_get d (VStr "id")) as [[ | | | i | | ] | ] eqn:Ei;
    try discriminate.
  destruct (dict_get d (VStr "type")) as [[ | | | ty | | ] | ] eqn:Et;
    try discriminate.
  intros H st w. unfold CJA.normal_filter_step.
  assert (Hid : subscript (VDict d) (VStr "id") = Ok (VStr i))
    by (simpl; now rewrite Ei).
  assert (Hty : subscript (VDict d) (VStr "type") = Ok (VStr ty))
    by (simpl; now rewrite Et).
  rewrite (bindM_lift_ok _ _ _ _ Hid).
  rewrite (bindM_lift_ok _ _ _ _ Hty).
  simpl py_eqb.
  destruct (String.eqb ty "breakdown") eqn:Eb.
  { apply String.eqb_eq in Eb. subst ty.
    destruct (dict_get d (VStr "dimension")) as [[ | | | dim | | ] | ] eqn:Ed;
      try discriminate.
    destruct (dict_get d (VStr "itemId")) as [[ | | | item | | ] | ] eqn:Em;
      try discriminate.
    injection H as <-.
    eexists _, w. unfold bindM, lift. simpl. rewrite Ed, Em, Et. simpl.
    reflexivity. }
  rewrite (bindM_ok _ _ _ _ _ (eq_refl : ret st w = Some (Ok st, w))).
  rewrite (bindM_lift_ok _ _ _ _ Hty).
  simpl py_eqb.
  destruct (String.eqb ty "dateRange") eqn:Er.
  { apply String.eqb_eq in Er. subst ty.
    destruct (dict_get d (VStr "dateRange")) as [[ | | | dr | | ] | ] eqn:Ed;
      try discriminate.
    injection H as <-.
    eexists _, w. unfold bindM, lift. simpl. rewrite Ed, Et. simpl.
    reflexivity. }
  rewrite (bindM_ok _ _ _ _ _ (eq_refl : ret st w = Some (Ok st, w))).
  rewrite (bindM_lift_ok _ _ _ _ Hty).
  simpl py_eqb.
  destruct (String.eqb ty "segment") eqn:Es; try discriminate.
  destruct (dict_get d (VStr "segmentId")) as [[ | | | sid | | ] | ] eqn:Ed;
    try discriminate.
  injection H as <-.
  assert (Hsid : subscript (VDict d) (VStr "segmentId") = Ok (VStr sid))
    by (simpl; now rewrite Ed).
  destruct (CJA.is_segment_id sid) eqn:Eseg.
  - destruct (getFilter_answers sid w) as (fd & name & w' & Hgf & Hname).
    eexists _, w'. unfold bindM, lift.
    cbn -[CJA.getFilter CJA.is_segment_id dict_get dict_set].
    rewrite Ed. cbn -[CJA.getFilter CJA.is_segment_id dict_get dict_set].
    rewrite Eseg, Hgf.
    cbn -[CJA.getFilter CJA.is_segment_id dict_get dict_set].
    rewrite Hname. reflexivity.
  - eexists _, w. unfold bindM, lift.
    cbn -[CJA.getFilter CJA.is_segment_id dict_get dict_set].
    rewrite Ed. cbn -[CJA.getFilter CJA.is_segment_id dict_get dict_set].
    rewrite Eseg. reflexivity.
Qed.

Lemma normal_filter_loop_ok (vs : list value) (fs : list filter_decl) :
  read_all filter_fields vs = Some fs ->
  forall st (w : world S),
  exists loop w',
    forM (CJA.normal_filter_step P) st vs w = Some (Ok loop, w') /\
    CJA.fl_translation loop =
    store_all (map (fun f => (f_id f, VStr (display_value (f_kind f)))) fs)
              (CJA.fl_translation st).
Proof.
  revert fs. induction vs as [ | v vs IH]; intros fs; simpl.
  - intros [= <-] st w. exists st, w. auto.
  - destruct (filter_fields v) as [f | ] eqn:Ev; try discriminate.
    destruct (read_all filter_fields vs) as [fs' | ]; try discriminate.
    intros [= <-] st w.
    destruct (normal_filter_step_ok v f Ev st w) as (mf & w1 & Hstep).
    rewrite (bindM_ok _ _ _ _ _ Hstep).
    destruct (IH fs' eq_refl
                 (CJA.mkLoop mf
                    (dict_set (CJA.fl_translation st) (VStr (f_id f))
                       (VStr (display_value (f_kind f))))
                    (Some (display_value (f_kind f)))) w1)
      as (loop & w' & Hrun & Htr).
    exists loop, w'. split; auto.
Qed.

End FilterLoop.

(** ** The names of the metric columns *)

Section MetricColumns.

Variable fs : list filter_decl.
Variable translation : pydict.

Hypothesis Hfs : NoDup (map f_id fs).
Hypothesis Htranslation :
  translation =
  store_all (map (fun f => (f_id f, VStr (display_value (f_kind f)))) fs) [].

Lemma find_filter_in (id : string) (f : filter_decl) :
  find_filter fs id = Some f -> In f fs /\ f_id f = id.
Proof.
  clear. induction fs as [ | g gs IH]; simpl; try discriminate.
  destruct (String.eqb (f_id g) id) eqn:E.
  - intros [= <-]. apply String.eqb_eq in E. auto.
  - intros H. destruct (IH H). auto.
Qed.

Lemma translation_lookup (id : string) (f : filter_decl) :
  find_filter fs id = Some f ->
  dict_get translation (VStr id) = Some (VStr (display_value (f_kind f))).
Proof.
  intros H. apply find_filter_in in H as (Hin & <-).
  rewrite Htranslation. apply store_all_in.
  - now rewrite map_map.
  - apply (in_map (fun f => (f_id f, VStr (display_value (f_kind f))))).
    exact Hin.
Qed.

(** The inner loop appends ":::" and a display value per chained filter. *)
Lemma chain_loop (col : string) (chain : list string) :
  forall (name final : string) (mc : pydict),
    joined_name fs name chain = Some final ->
    dict_get mc (VStr col) = Some (VStr name) ->
    foldM (fun mc element =>
             cur <- CJA.dict_lookup mc (VStr col) ;;
             tr <- CJA.dict_lookup translation element ;;
             trs <- py_format tr ;;
             new <- py_iadd cur (VStr (":::" ++ trs)) ;;
             Ok (dict_set mc (VStr col) new))%py
          mc (map VStr chain) =
    Ok (dict_set mc (VStr col) (VStr final)).
Proof.
  induction chain as [ | id chain IH]; intros name final mc; simpl.
  - intros [= <-] Hmc. now rewrite (dict_set_id _ _ _ Hmc).
  - destruct (find_filter fs id) as [f | ] eqn:Ef; try discriminate.
    intros Hj Hmc. unfold CJA.dict_lookup at 1 2. simpl.
    rewrite Hmc, (translation_lookup _ _ Ef). simpl.
    rewrite (IH _ final _ Hj) by apply dict_get_set_same.
    now rewrite dict_set_set.
Qed.

Lemma normal_metricColumn_ok (cir fr : pydict) (m : metric_decl)
  (name : string) (mc : pydict) :
  dict_get cir (VStr (m_columnId m)) = Some (VStr (m_id m)) ->
  dict_get fr (VStr (m_columnId m)) =
    match m_filters m with
    | [] => None
    | chain => Some (VList (map VStr chain))
    end ->
  resolved_name fs m = Some name ->
  CJA.normal_metricColumn cir fr translation mc (VStr (m_columnId m)) =
  Ok (dict_set mc (VStr (m_columnId m)) (VStr name)).
Proof.
  intros Hcir Hfr Hname. unfold CJA.normal_metricColumn, CJA.dict_lookup.
  simpl. rewrite Hcir. simpl. rewrite Hfr.
  unfold resolved_name in Hname.
  assert (Hloop := chain_loop (m_columnId m) (m_filters m) (m_id m) name
                     (dict_set mc (VStr (m_columnId m)) (VStr (m_id m)))
                     Hname (dict_get_set_same _ _ _)).
  rewrite dict_set_set in Hloop.
  destruct (m_filters m) as [ | id chain]; simpl py_iter; simpl bind;
    exact Hloop.
Qed.

End MetricColumns.

(** ** The workspace of a normal report *)

Section NormalWorkspace.

Lemma set_item2_top k1 k2 v doc doc' (k : string) :
  CJA.set_item2 k1 k2 v doc = Ok doc' -> k1 <> k ->
  subscript doc' (VStr k) = subscript doc (VStr k).
Proof.
  intros H Hne. apply set_item2_inv in H as (d & s & -> & _ & ->).
  simpl. now rewrite dict_get_set_other.
Qed.

Lemma store_top k0 v doc doc' (k : string) :
  store_subscript doc (VStr k0) v = Ok doc' -> k0 <> k ->
  subscript doc' (VStr k) = subscript doc (VStr k).
Proof.
  destruct doc; simpl; try discriminate.
  intros [= <-] Hne. simpl. now rewrite dict_get_set_other.
Qed.

(** The settings block does not touch the metric container. *)
Lemma settle_metricContainer a doc doc0 :
  settle a doc = Ok doc0 ->
  subscript doc0 (VStr "metricContainer") =
  subscript doc (VStr "metricContainer").
Proof.
  unfold settle. intros H.
  destruct (CJA.set_item2 "settings" "page" (VInt 0) doc) as [d1 | ] eqn:F1;
    simpl in H; try discriminate.
  destruct (CJA.set_item2 "settings" "limit" (CJA.limit a) d1)
    as [d2 | ] eqn:F2; simpl in H; try discriminate.
  destruct (CJA.set_item2 "settings" "nonesBehavior" _ d2)
    as [d3 | ] eqn:F3; simpl in H; try discriminate.
  destruct (CJA.set_item2 "settings" "countRepeatInstances" _ d3)
    as [d4 | ] eqn:F4; simpl in H; try discriminate.
  rewrite <- (set_item2_top _ _ _ _ _ "metricContainer" F1)
    by discriminate.
  rewrite <- (set_item2_top _ _ _ _ _ "metricContainer" F2)
    by discriminate.
  rewrite <- (set_item2_top _ _ _ _ _ "metricContainer" F3)
    by discriminate.
  rewrite <- (set_item2_top _ _ _ _ _ "metricContainer" F4)
    by discriminate.
  destruct (CJA.dataViewId a) as [dv | ].
  - destruct (store_subscript d4 (VStr "dataId") (VStr dv))
      as [d5 | ] eqn:F5; simpl in H; try discriminate.
    rewrite <- (store_top _ _ _ _ "metricContainer" F5) by discriminate.
    apply (set_item2_top _ _ _ _ _ "metricContainer" H). discriminate.
  - simpl in H.
    apply (set_item2_top _ _ _ _ _ "metricContainer" H). discriminate.
Qed.

Lemma page_doc_metricContainer doc i :
  subscript (page_doc doc i) (VStr "metricContainer") =
  subscript doc (VStr "metricContainer").
Proof.
  unfold page_doc. destruct doc as [ | | | | | d]; auto.
  destruct (dict_get d (VStr "settings")) as [[ | | | | | s] | ]; auto.
  simpl. rewrite dict_get_set_other; auto. discriminate.
Qed.

Lemma NoDup_map_filter {A B} (f : A -> B) (p : A -> bool) (xs : list A) :
  NoDup (map f xs) -> NoDup (map f (filter p xs)).
Proof.
  induction xs as [ | x xs IH]; simpl; auto.
  intros H. inversion H as [ | ? ? Hx Hnd]; subst.
  destruct (p x); simpl; auto.
  constructor; auto. intros Hin. apply Hx.
  apply in_map_iff in Hin as (y & Hy & Hin).
  apply filter_In in Hin as [Hin _]. rewrite <- Hy. now apply in_map.
Qed.

Lemma NoDup_map_eq {A B} (f : A -> B) (xs : list A) (x y : A) :
  NoDup (map f xs) -> In x xs -> In y xs -> f x = f y -> x = y.
Proof.
  induction xs as [ | z xs IH]; simpl; [tauto | ].
  intros H. inversion H as [ | ? ? Hz Hnd]; subst.
  intros [-> | Hx] [-> | Hy] Hf; auto.
  - exfalso. apply Hz. rewrite Hf. now apply in_map.
  - exfalso. apply Hz. rewrite <- Hf. now apply in_map.
Qed.

Variable fs : list filter_decl.
Variable translation : pydict.
Variable ms : list metric_decl.

Hypothesis Hfs : NoDup (map f_id fs).
Hypothesis Htranslation :
  translation =
  store_all (map (fun f => (f_id f, VStr (display_value (f_kind f)))) fs) [].
Hypothesis Hms : NoDup (map m_columnId ms).
Hypothesis Hresolved : Forall (fun m => resolved_name fs m <> None) ms.

Let cir : pydict :=
  store_all (map (fun m => (m_columnId m, VStr (m_id m))) ms) [].
Let fr : pydict :=
  store_all (map (fun m => (m_columnId m, VList (map VStr (m_filters m))))
                 (filtered ms)) [].

(** The name of a metric column, the empty string when a chained filter
    is not declared. *)
Let name_of (m : metric_decl) : string :=
  match resolved_name fs m with Some n => n | None => "" end.

Lemma cir_lookup m :
  In m ms -> dict_get cir (VStr (m_columnId m)) = Some (VStr (m_id m)).
Proof.
  intros Hin. unfold cir. apply store_all_in.
  - now rewrite map_map.
  - apply (in_map (fun m => (m_columnId m, VStr (m_id m)))). exact Hin.
Qed.

Lemma fr_lookup m :
  In m ms ->
  dict_get fr (VStr (m_columnId m)) =
  match m_filters m with
  | [] => None
  | chain => Some (VList (map VStr chain))
  end.
Proof.
  intros Hin. unfold fr. destruct (m_filters m) as [ | id chain] eqn:E.
  - rewrite store_all_notin; auto.
    rewrite map_map. simpl. intros Hc.
    apply in_map_iff in Hc as (m' & Hcol & Hm').
    apply filter_In in Hm' as [Hm' Hne].
    assert (m' = m) by (eapply NoDup_map_eq; eauto). subst m'.
    rewrite E in Hne. discriminate.
  - rewrite <- E. apply store_all_in.
    + rewrite map_map. simpl. now apply NoDup_map_filter.
    + apply (in_map (fun m => (m_columnId m,
                               VList (map VStr (m_filters m))))).
      apply filter_In. split; auto. now rewrite E.
Qed.

Lemma metricColumns_loop (sub : list metric_decl) :
  (forall m, In m sub -> In m ms) ->
  forall acc,
    foldM (CJA.normal_metricColumn cir fr translation) acc
          (map (fun m => VStr (m_columnId m)) sub) =
    Ok (store_all (map (fun m => (m_columnId m, VStr (name_of m))) sub) acc).
Proof.
  induction sub as [ | m sub IH]; intros Hsub acc; simpl; auto.
  assert (Hin : In m ms) by (apply Hsub; now left).
  assert (Hname : resolved_name fs m = Some (name_of m)).
  { unfold name_of. rewrite Forall_forall in Hresolved.
    specialize (Hresolved m Hin).
    now destruct (resolved_name fs m). }
  rewrite (normal_metricColumn_ok fs translation Hfs Htranslation cir fr m
             (name_of m) acc (cir_lookup m Hin) (fr_lookup m Hin) Hname).
  simpl. apply IH. intros m' Hm'. apply Hsub. now right.
Qed.

Lemma metricColumns_ok :
  exists cols,
    foldM (CJA.normal_metricColumn cir fr translation) [] (dict_keys cir) =
    Ok cols /\
    forall m name,
      In m ms -> resolved_name fs m = Some name ->
      dict_get cols (VStr (m_columnId m)) = Some (VStr name).
Proof.
  exists (store_all (map (fun m => (m_columnId m, VStr (name_of m))) ms) []).
  split.
  - unfold cir at 2. rewrite store_all_keys.
    + unfold dict_keys. simpl. rewrite !map_map. simpl.
      apply metricColumns_loop. auto.
    + now rewrite map_map.
    + reflexivity.
  - intros m name Hin Hname. apply store_all_in.
    + now rewrite map_map.
    + apply (in_map (fun m => (m_columnId m, VStr (name_of m)))) in Hin.
      unfold name_of in Hin at 1. now rewrite Hname in Hin.
Qed.

End NormalWorkspace.

Lemma prepareData_normal_ok (rows : list value) (table : pydict) :
  foldM CJA.expand_row [] rows = Ok table ->
  CJA._prepareData (VList rows) "normal" = Ok (VDict table).
Proof. intros H. unfold CJA._prepareData. simpl. now rewrite H. Qed.

Lemma load_ok {S : Type} (l : loc) (w : world S) (v : value) :
  nth_error (heap w) l = Some v -> load l w = Some (Ok v, w).
Proof. unfold load. now intros ->. Qed.


Lemma scripted_lookups_answer : lookups_answer scripted.
Proof. intros s url params. eexists _, _, _. split; reflexivity. Qed.



(** ** Claims on [_decrypteStaticData] *)

Lemma quotient_bounds (a b : Z) :
  (0 < b)%Z -> (a / b * b <= a < (a / b + 1) * b)%Z.
Proof.
  intros Hb. pose proof (Z.div_mod a b ltac:(lia)) as Hdm.
  pose proof (Z.mod_pos_bound a b Hb) as Hm. nia.
Qed.

(** Whatever the request, a decoder that returns has counted at least one
    static row and returns the quotient of the two counts, rounded
    down. *)
Lemma decrypteStaticData_returned_nb_columns {S : Type}
  (P : CJA.platform S) (dataRequest response : value) (w w' : world S)
  (nb_columns : Z) (tableColumnIds segmentApplied filterRelations
                    dataRows : pydict) :
  CJA._decrypteStaticData P dataRequest response w =
    Some (Ok (nb_columns, tableColumnIds, segmentApplied, filterRelations,
              dataRows), w') ->
  exists nb_metrics nb_rows,
    static_counts P dataRequest = Ok (nb_metrics, nb_rows) /\
    0 < nb_rows /\
    nb_columns = (Z.of_nat nb_metrics / Z.of_nat nb_rows)%Z /\
    (nb_columns * Z.of_nat nb_rows <= Z.of_nat nb_metrics
     < (nb_columns + 1) * Z.of_nat nb_rows)%Z.
Proof.
  unfold CJA._decrypteStaticData, static_counts. intros H.
  apply bindM_ok_inv in H as (mc & ? & E1 & H).
  apply lift_inv in E1 as (E1 & ->). rewrite <- E1.
  apply bindM_ok_inv in H as (mfs & ? & E2 & H).
  apply lift_inv in E2 as (E2 & ->). simpl bind. rewrite <- E2.
  apply bindM_ok_inv in H as (mfl & ? & E3 & H).
  apply lift_inv in E3 as (E3 & ->). simpl bind. rewrite <- E3.
  apply bindM_ok_inv in H as (tsr & ? & E4 & H).
  apply lift_inv in E4 as (E4 & ->). simpl bind. rewrite <- E4.
  apply bindM_ok_inv in H as (sa & ? & _ & H).
  apply bindM_ok_inv in H as (ms & ? & E6 & H).
  apply lift_inv in E6 as (E6 & ->). simpl bind. rewrite <- E6.
  apply bindM_ok_inv in H as (ml & ? & _ & H).
  apply bindM_ok_inv in H as (tci & ? & _ & H).
  apply bindM_ok_inv in H as (fr & ? & _ & H).
  apply bindM_ok_inv in H as (staticRows & ? & E10 & H).
  apply lift_inv in E10 as (E10 & ->). simpl bind. rewrite <- E10.
  apply bindM_ok_inv in H as (nb_metrics & ? & E11 & H).
  apply lift_inv in E11 as (E11 & ->). simpl bind. rewrite <- E11.
  apply bindM_ok_inv in H as (nbc & ? & Hnbc & H).
  apply bindM_ok_inv in H as (names & ? & _ & H).
  apply bindM_ok_inv in H as (rows & ? & _ & H).
  injection H as <- _ _ _ _ _.
  exists nb_metrics, (length staticRows).
  destruct (length staticRows) as [ | n] eqn:En; [discriminate Hnbc | ].
  injection Hnbc as <- _.
  splits; auto; try lia; apply quotient_bounds; lia.
Qed.

(** ** The static decoder on a well-formed request *)

Section StaticFacts.

Lemma store_all_app (xs ys : list (string * value)) (acc : pydict) :
  store_all (xs ++ ys) acc = store_all ys (store_all xs acc).
Proof. unfold store_all. apply fold_left_app. Qed.

Lemma store_all_get (es : list (string * value)) (k : string) :
  In k (map fst es) ->
  exists v, In (k, v) es /\
    forall acc, dict_get (store_all es acc) (VStr k) = Some v.
Proof.
  induction es as [ | [j x] es IH]; simpl; [intros [] | ].
  intros Hin.
  destruct (in_dec string_dec k (map fst es)) as [Hk | Hk].
  - destruct (IH Hk) as (v & Hv & Hget). exists v. split; [now right | ].
    intros acc. apply Hget.
  - destruct Hin as [-> | Hin]; [ | contradiction].
    exists x. split; auto. intros acc.
    change (store_all ((k, x) :: es) acc)
      with (store_all es (dict_set acc (VStr k) x)).
    rewrite store_all_notin by exact Hk. apply dict_get_set_same.
Qed.

Lemma entries_set (K V : value -> Prop) (d : pydict) (k v : value) :
  entries K V d -> K k -> V v -> entries K V (dict_set d k v).
Proof.
  unfold entries. intros Hd Hk Hv.
  induction d as [ | [k' v'] d IH]; simpl.
  - repeat constructor; auto.
  - inversion Hd as [ | ? ? [Hk' Hv'] Hd']; subst. simpl in *.
    destruct (py_eqb k' k); constructor; simpl; auto.
Qed.

Lemma entries_store_all (K V : value -> Prop) (es : list (string * value)) :
  (forall k, K (VStr k)) ->
  Forall (fun e => V (snd e)) es ->
  forall acc, entries K V acc -> entries K V (store_all es acc).
Proof.
  intros HK. unfold store_all.
  induction es as [ | [j x] es IH]; intros Hes acc Hacc; simpl; auto.
  inversion Hes; subst. apply IH; auto. apply entries_set; auto.
Qed.

Lemma entries_get (K V : value -> Prop) (d : pydict) (k v : value) :
  entries K V d -> dict_get d k = Some v -> V v.
Proof.
  unfold entries. induction d as [ | [k' v'] d IH]; simpl; try discriminate.
  intros Hd. inversion Hd as [ | ? ? [_ Hv'] Hd']; subst. simpl in *.
  destruct (py_eqb k' k); auto. now intros [= <-].
Qed.

Lemma entries_key (K V : value -> Prop) (d : pydict) (k : value) :
  entries K V d -> In k (dict_keys d) -> K k.
Proof.
  unfold entries, dict_keys. intros Hd Hin.
  apply in_map_iff in Hin as ([k' v] & <- & Hin).
  rewrite Forall_forall in Hd. now apply (Hd _ Hin).
Qed.

Lemma entries_values (K V : value -> Prop) (d : pydict) :
  entries K V d -> Forall V (map snd d).
Proof.
  unfold entries. intros Hd. apply Forall_map.
  eapply Forall_impl; [ | exact Hd]. now intros kv [_ H].
Qed.

Lemma dict_get_of_key (d : pydict) (a : string) :
  In (VStr a) (dict_keys d) -> exists v, dict_get d (VStr a) = Some v.
Proof.
  intros Hin. destruct (dict_get d (VStr a)) eqn:E; eauto.
  now apply dict_get_none_not_key in E.
Qed.

Lemma strings_are_map (xs : list value) :
  Forall str_value xs -> exists ids, xs = map VStr ids.
Proof.
  induction 1 as [ | x xs (s & ->) _ (ids & ->)].
  - now exists [].
  - now exists (s :: ids).
Qed.

Lemma distinct_items_incl (xs : list value) :
  forall seen x, In x (CJA.distinct_items seen xs) -> In x xs.
Proof.
  induction xs as [ | y xs IH]; intros seen x; simpl; auto.
  destruct (list_contains seen y); simpl; intros H.
  - right. eapply IH; eauto.
  - destruct H as [H | H]; auto. right. eapply IH; eauto.
Qed.

Lemma foldM_total {A B} (I : A -> Prop) (body : A -> B -> res A)
  (xs : list B) :
  (forall acc x, In x xs -> I acc ->
     exists acc', body acc x = Ok acc' /\ I acc') ->
  forall acc, I acc -> exists r, foldM body acc xs = Ok r /\ I r.
Proof.
  induction xs as [ | x xs IH]; intros Hbody acc Hacc; simpl.
  - eauto.
  - destruct (Hbody acc x (or_introl eq_refl) Hacc) as (acc' & -> & Hacc').
    simpl. apply IH; [ | exact Hacc'].
    intros a y Hy. apply Hbody. now right.
Qed.

Lemma fold_left_invariant {A B} (I : A -> Prop) (f : A -> B -> A)
  (xs : list B) :
  (forall acc x, In x xs -> I acc -> I (f acc x)) ->
  forall acc, I acc -> I (fold_left f xs acc).
Proof.
  induction xs as [ | x xs IH]; intros Hf acc Hacc; simpl; auto.
  apply IH.
  - intros a y Hy. apply Hf. now right.
  - apply Hf; auto. now left.
Qed.

End StaticFacts.

Section StaticTables.

Lemma filter_fields_reads (v : value) (f : filter_decl) :
  filter_fields v = Some f ->
  subscript v (VStr "id") = Ok (VStr (f_id f)) /\
  (exists ty, subscript v (VStr "type") = Ok (VStr ty) /\
     match f_kind f with
     | FBreakdown dimension itemId =>
         ty = "breakdown" /\
         subscript v (VStr "dimension") = Ok (VStr dimension) /\
         subscript v (VStr "itemId") = Ok (VStr itemId)
     | FDateRange dateRange =>
         ty = "dateRange" /\
         subscript v (VStr "dateRange") = Ok (VStr dateRange)
     | FSegment segmentId =>
         ty = "segment" /\
         subscript v (VStr "segmentId") = Ok (VStr segmentId)
     end).
Proof.
  unfold filter_fields. destruct v as [ | | | | | d]; try discriminate.
  simpl.
  destruct (dict_get d (VStr "id")) as [[ | | | i | | ] | ];
    try discriminate.
  destruct (dict_get d (VStr "type")) as [[ | | | ty | | ] | ];
    try discriminate.
  destruct (String.eqb ty "breakdown") eqn:Eb.
  { apply String.eqb_eq in Eb. subst ty.
    destruct (dict_get d (VStr "dimension")) as [[ | | | dim | | ] | ];
      try discriminate.
    destruct (dict_get d (VStr "itemId")) as [[ | | | item | | ] | ];
      try discriminate.
    intros [= <-]. simpl. eauto 6. }
  destruct (String.eqb ty "dateRange") eqn:Er.
  { apply String.eqb_eq in Er. subst ty.
    destruct (dict_get d (VStr "dateRange")) as [[ | | | dr | | ] | ];
      try discriminate.
    intros [= <-]. simpl. eauto 6. }
  destruct (String.eqb ty "segment") eqn:Es; try discriminate.
  apply String.eqb_eq in Es. subst ty.
  destruct (dict_get d (VStr "segmentId")) as [[ | | | sid | | ] | ];
    try discriminate.
  intros [= <-]. simpl. eauto 6.
Qed.

Lemma static_tableSegmentsRows_ok (mfl : list value) :
  forall (fs : list filter_decl),
  read_all filter_fields mfl = Some fs ->
  rows_are_segments fs = true ->
  forall acc,
    foldM (fun acc obj =>
      id <- subscript obj (VStr "id") ;;
      ids <- CJA.as_str id ;;
      if startswith "STATIC_ROW" ids then
        k <- subscript obj (VStr "id") ;;
        v <- subscript obj (VStr "segmentId") ;;
        CJA.dict_store acc k v
      else Ok acc)%py acc mfl =
    Ok (store_all (static_row_entries fs) acc).
Proof.
  induction mfl as [ | v mfl IH]; intros fs; simpl.
  - now intros [= <-].
  - destruct (filter_fields v) as [f | ] eqn:Ef; try discriminate.
    destruct (read_all filter_fields mfl) as [fs' | ]; try discriminate.
    intros [= <-] Hrows acc. simpl in Hrows.
    apply andb_true_iff in Hrows as [Hf Hrows].
    destruct (filter_fields_reads v f Ef) as (Hid & ty & Hty & Hkind).
    rewrite Hid. simpl.
    change (static_row_entries (f :: fs'))
      with ((match f_kind f with
             | FSegment segmentId =>
                 if is_static_row f then [(f_id f, VStr segmentId)] else []
             | _ => []
             end) ++ static_row_entries fs').
    rewrite store_all_app. unfold is_static_row in *.
    destruct (startswith "STATIC_ROW" (f_id f)) eqn:Est.
    + destruct (f_kind f) as [ | | sid]; try discriminate Hf.
      destruct Hkind as (_ & Hsid). rewrite Hsid. simpl.
      now apply IH.
    + simpl. rewrite (IH fs') by auto.
      now destruct (f_kind f).
Qed.

Lemma static_segmentApplied_total (mfl : list value) (fs : list filter_decl) :
  read_all filter_fields mfl = Some fs ->
  exists sa, CJA.static_segmentApplied mfl = Ok sa.
Proof.
  unfold CJA.static_segmentApplied. generalize (@nil (value * value)).
  revert fs. induction mfl as [ | v mfl IH]; intros fs acc; simpl.
  - eauto.
  - destruct (filter_fields v) as [f | ] eqn:Ef; try discriminate.
    destruct (read_all filter_fields mfl) as [fs' | ]; try discriminate.
    intros _.
    destruct (filter_fields_reads v f Ef) as (Hid & ty & Hty & Hkind).
    rewrite Hid. simpl.
    destruct (startswith "STATIC_ROW" (f_id f)); simpl;
      [now apply (IH fs' _ eq_refl) | ].
    rewrite Hty. simpl.
    destruct (f_kind f) as [dim item | dr | sid].
    + destruct Hkind as (-> & Hd & Hi). simpl. rewrite Hd, Hi. simpl.
      now apply (IH fs' _ eq_refl).
    + destruct Hkind as (-> & Hd). simpl. rewrite Hd. simpl.
      now apply (IH fs' _ eq_refl).
    + destruct Hkind as (-> & Hs). simpl. rewrite Hs. simpl.
      now apply (IH fs' _ eq_refl).
Qed.

Lemma static_tableColumnIds_ok (ml : list value) :
  forall (ms : list metric_decl),
  read_all metric_fields ml = Some ms ->
  forallb has_filters ms = true ->
  forall acc,
    foldM (fun acc obj =>
      k <- subscript obj (VStr "columnId") ;;
      fs <- subscript obj (VStr "filters") ;;
      v <- subscript fs (VInt 0) ;;
      CJA.dict_store acc k v)%py acc ml =
    Ok (store_all (column_entries ms) acc).
Proof.
  induction ml as [ | v ml IH]; intros ms; simpl.
  - now intros [= <-].
  - destruct (metric_fields v) as [m | ] eqn:Em; try discriminate.
    destruct (read_all metric_fields ml) as [ms' | ]; try discriminate.
    intros [= <-] Hf acc. simpl in Hf.
    apply andb_true_iff in Hf as [Hm Hf].
    destruct (metric_fields_reads v m Em) as (Hc & _ & _ & Hfs).
    unfold has_filters in Hm.
    destruct (m_filters m) as [ | f rest] eqn:Efs; try discriminate.
    rewrite Hc, Hfs by discriminate. simpl bind.
    rewrite (IH ms' eq_refl Hf). unfold column_entries. simpl.
    now rewrite Efs.
Qed.

Lemma static_filterRelations_total (ml : list value) (ms : list metric_decl) :
  read_all metric_fields ml = Some ms ->
  forallb has_filters ms = true ->
  exists fr, CJA.static_filterRelations ml = Ok fr.
Proof.
  unfold CJA.static_filterRelations. generalize (@nil (value * value)).
  revert ms. induction ml as [ | v ml IH]; intros ms acc; simpl.
  - eauto.
  - destruct (metric_fields v) as [m | ] eqn:Em; try discriminate.
    destruct (read_all metric_fields ml) as [ms' | ]; try discriminate.
    intros [= <-] Hf. simpl in Hf.
    apply andb_true_iff in Hf as [Hm Hf].
    destruct (metric_fields_reads v m Em) as (_ & _ & _ & Hfs).
    unfold has_filters in Hm.
    destruct (m_filters m) as [ | f rest] eqn:Efs; try discriminate.
    rewrite Hfs by discriminate. simpl bind.
    match goal with |- context [if ?c then _ else _] => destruct c end.
    + simpl. now apply (IH ms' _ eq_refl).
    + now apply (IH ms' _ eq_refl).
Qed.

End StaticTables.

Section StaticRows.

Lemma read_all_length {A} (read : value -> option A) (vs : list value) :
  forall xs, read_all read vs = Some xs -> length xs = length vs.
Proof.
  induction vs as [ | v vs IH]; intros xs; simpl.
  - now intros [= <-].
  - destruct (read v); try discriminate.
    destruct (read_all read vs) as [xs' | ]; try discriminate.
    intros [= <-]. simpl. now rewrite (IH xs').
Qed.

Lemma static_row_entries_strings (fs : list filter_decl) :
  Forall (fun e => str_value (snd e)) (static_row_entries fs).
Proof.
  unfold static_row_entries. induction fs as [ | f fs IH]; simpl.
  - constructor.
  - apply Forall_app. split; auto.
    destruct (f_kind f); try constructor.
    destruct (is_static_row f); repeat constructor. simpl. now eexists.
Qed.

Lemma tableSegmentsRows_strings (fs : list filter_decl) :
  entries str_value str_value (store_all (static_row_entries fs) []).
Proof.
  apply entries_store_all.
  - intros k. now eexists.
  - apply static_row_entries_strings.
  - constructor.
Qed.

Lemma static_rows_strings (fs : list filter_decl) :
  Forall str_value (static_rows fs).
Proof.
  apply Forall_forall. intros x Hx. unfold static_rows in Hx.
  apply distinct_items_incl in Hx.
  pose proof (entries_values _ _ _ (tableSegmentsRows_strings fs)) as Hv.
  rewrite Forall_forall in Hv. now apply Hv.
Qed.

Lemma strings_hashable (xs : list value) :
  Forall str_value xs -> forallb hashable xs = true.
Proof.
  induction 1 as [ | x xs (s & ->) _ IH]; simpl; auto.
Qed.

(** The row of a column: the column of a declared metric leads to a
    static row filter, and the filter to its segment. *)
Lemma column_leads_to_row (fs : list filter_decl) (ms : list metric_decl)
  (c : string) :
  forallb (on_static_row fs) ms = true ->
  declared_column ms c = true ->
  exists f sid,
    dict_get (store_all (column_entries ms) []) (VStr c) = Some (VStr f) /\
    dict_get (store_all (static_row_entries fs) []) (VStr f) =
      Some (VStr sid).
Proof.
  intros Hon Hc. unfold declared_column in Hc.
  apply existsb_exists in Hc as (m & Hm & Hmc).
  apply String.eqb_eq in Hmc.
  assert (Hin : In c (map fst (column_entries ms))).
  { unfold column_entries. rewrite map_map. simpl.
    apply in_map_iff. eauto. }
  destruct (store_all_get _ _ Hin) as (v & Hv & Hget).
  unfold column_entries in Hv.
  apply in_map_iff in Hv as (m' & [= _ <-] & Hm').
  rewrite forallb_forall in Hon. specialize (Hon m' Hm').
  unfold on_static_row in Hon.
  destruct (m_filters m') as [ | f rest]; try discriminate.
  apply existsb_exists in Hon as ([f' x] & Hx & Hfx).
  apply String.eqb_eq in Hfx. simpl in Hfx. subst f'.
  assert (Hinf : In f (map fst (static_row_entries fs))).
  { apply in_map_iff. exists (f, x). auto. }
  destruct (store_all_get _ _ Hinf) as (y & Hy & Hgety).
  pose proof (static_row_entries_strings fs) as Hs.
  rewrite Forall_forall in Hs. destruct (Hs _ Hy) as (sid & Hsid).
  simpl in Hsid. subst y.
  exists f, sid. simpl. split; [apply Hget | apply Hgety].
Qed.

Lemma dict_get_lookup (d : pydict) (k v : value) :
  hashable k = true -> dict_get d k = Some v ->
  CJA.dict_lookup d k = Ok v.
Proof. unfold CJA.dict_lookup. simpl. now intros -> ->. Qed.

Lemma defaultdict_get_total (dataRows : pydict) (name : value) :
  hashable name = true ->
  entries (fun _ => True) list_value dataRows ->
  exists d cells,
    CJA.defaultdict_get dataRows name = Ok (d, cells) /\
    entries (fun _ => True) list_value d.
Proof.
  intros Hn Hd. unfold CJA.defaultdict_get. rewrite Hn.
  destruct (dict_get dataRows name) as [v | ] eqn:E.
  - destruct (entries_get _ _ _ _ _ Hd E) as (l & ->). eauto.
  - eexists _, _. split; [reflexivity | ].
    apply entries_set; auto. now eexists.
Qed.

Lemma static_cell_total (tableSegmentsRows tableColumnIds staticRowDict
                           : pydict)
  (row : value) (dataRows : pydict) (c : string) (data : value) :
  (exists f sid,
     dict_get tableColumnIds (VStr c) = Some (VStr f) /\
     dict_get tableSegmentsRows (VStr f) = Some (VStr sid)) ->
  entries str_value key_value staticRowDict ->
  In row (dict_keys staticRowDict) ->
  entries (fun _ => True) list_value dataRows ->
  exists r,
    CJA.static_cell tableSegmentsRows tableColumnIds staticRowDict row
                    dataRows (VStr c, data) = Ok r /\
    entries (fun _ => True) list_value r.
Proof.
  intros (f & sid & Hc & Hf) Hsrd Hrow Hd. unfold CJA.static_cell.
  rewrite (dict_get_lookup _ (VStr c) _ eq_refl Hc). simpl bind.
  rewrite (dict_get_lookup _ (VStr f) _ eq_refl Hf). simpl bind.
  destruct (entries_key _ _ _ _ Hsrd Hrow) as (r & ->).
  change (py_eqb (VStr sid) (VStr r)) with (String.eqb sid r).
  destruct (String.eqb sid r); [ | eauto].
  destruct (dict_get_of_key _ r Hrow) as (name & Hname).
  pose proof (entries_get _ _ _ _ _ Hsrd Hname) as Hkey.
  rewrite (dict_get_lookup _ (VStr r) _ eq_refl Hname). simpl bind.
  destruct (defaultdict_get_total dataRows name Hkey Hd)
    as (d1 & cells & -> & Hd1).
  simpl bind.
  assert (Hmid : exists d2 cells2,
            (if negb (list_contains cells (VStr r))
             then
               '(d0, c0) <- CJA.defaultdict_get d1 name ;;
               Ok (dict_set d0 name (VList (c0 ++ [VStr r])),
                   c0 ++ [VStr r])
             else Ok (d1, cells))%py = Ok (d2, cells2) /\
            entries (fun _ => True) list_value d2).
  { destruct (negb (list_contains cells (VStr r))); [ | eauto].
    destruct (defaultdict_get_total d1 name Hkey Hd1)
      as (d0 & c0 & -> & Hd0).
    simpl. eexists _, _. split; [reflexivity | ].
    apply entries_set; auto. now eexists. }
  destruct Hmid as (d2 & cells2 & -> & Hd2). simpl bind.
  destruct (defaultdict_get_total d2 name Hkey Hd2) as (d3 & c3 & -> & Hd3).
  simpl. eexists. split; [reflexivity | ].
  apply entries_set; auto. now eexists.
Qed.

End StaticRows.

Section StaticRun.

Context {S : Type} (P : CJA.platform S).

Hypothesis Hnames : lookups_name P.

Lemma static_rowNames_total (ids : list string) :
  forall (names0 : list value) (w : world S),
  Forall key_value names0 ->
  exists names w',
    forM (fun names row =>
            r <- lift (CJA.as_str row) ;;
            if CJA.is_segment_id r then
              filter <- CJA.getFilter P r ;;
              name <- lift (subscript filter (VStr "name")) ;;
              ret (names ++ [name])
            else ret (names ++ [row]))%m names0 (map VStr ids) w =
      Some (Ok names, w') /\
    Forall key_value names.
Proof.
  induction ids as [ | id ids IH]; intros names0 w H0.
  - exists names0, w. split; auto.
  - cbn [map forM].
    destruct (CJA.is_segment_id id) eqn:Eseg.
    + destruct (Hnames (srv w) (CJA.endpoint P ++ "/filters/" ++ id)%string
                       (VDict [])) as (d & name & s' & Hg & Hn & Hk).
      set (w1 := mkWorld (heap w) s'
                   (calls w ++
                    [mkExchange
                       (Get (CJA.endpoint P ++ "/filters/" ++ id)%string
                            (VDict [])) (Ok (VDict d))])).
      match goal with
      | |- exists _ _, bindM ?m _ _ = _ /\ _ =>
          assert (Hbody : m w = Some (Ok (names0 ++ [name]), w1))
      end.
      { unfold bindM, lift, ret, CJA.getFilter, CJA.connector_getData.
        simpl CJA.as_str. cbv iota. rewrite Eseg, Hg. simpl subscript.
        now rewrite Hn. }
      rewrite (bindM_ok _ _ _ _ _ Hbody). apply IH.
      apply Forall_app. split; auto.
    + match goal with
      | |- exists _ _, bindM ?m _ _ = _ /\ _ =>
          assert (Hbody : m w = Some (Ok (names0 ++ [VStr id]), w))
      end.
      { unfold bindM, lift, ret. simpl CJA.as_str. cbv iota.
        now rewrite Eseg. }
      rewrite (bindM_ok _ _ _ _ _ Hbody). apply IH.
      apply Forall_app. split; auto. repeat constructor.
Qed.

End StaticRun.

Section StaticDecoder.

Context {S : Type} (P : CJA.platform S).

Hypothesis Horder : orders_sets P.
Hypothesis Hnames : lookups_name P.

Variables (d mcd : pydict) (ml mfl : list value).
Variables (ms : list metric_decl) (fs : list filter_decl).

Hypothesis Hmc : dict_get d (VStr "metricContainer") = Some (VDict mcd).
Hypothesis Hml : dict_get mcd (VStr "metrics") = Some (VList ml).
Hypothesis Hmfl : dict_get mcd (VStr "metricFilters") = Some (VList mfl).
Hypothesis Hms : read_all metric_fields ml = Some ms.
Hypothesis Hfs : read_all filter_fields mfl = Some fs.
Hypothesis Hfilters : forallb has_filters ms = true.
Hypothesis Hrows : rows_are_segments fs = true.

Lemma static_tables_ok :
  CJA.static_tableSegmentsRows mfl =
    Ok (store_all (static_row_entries fs) []) /\
  CJA.static_tableColumnIds ml = Ok (store_all (column_entries ms) []).
Proof.
  split.
  - now apply static_tableSegmentsRows_ok.
  - now apply static_tableColumnIds_ok.
Qed.

Lemma static_set_ok :
  exists ids,
    CJA.py_set P (map snd (store_all (static_row_entries fs) [])) =
      Ok (map VStr ids) /\
    Permutation (map VStr ids) (static_rows fs).
Proof.
  unfold CJA.py_set.
  rewrite strings_hashable
    by apply (entries_values _ _ _ (tableSegmentsRows_strings fs)).
  fold (static_rows fs).
  assert (Hstr : Forall str_value (CJA.set_order P (static_rows fs))).
  { apply Forall_forall. intros x Hx.
    pose proof (static_rows_strings fs) as Hs.
    rewrite Forall_forall in Hs. apply Hs.
    eapply Permutation_in; [apply Horder | exact Hx]. }
  destruct (strings_are_map _ Hstr) as (ids & Hids).
  exists ids. rewrite <- Hids. split; auto.
Qed.

Lemma static_counts_ok :
  static_counts P (VDict d) = Ok (length ms, length (static_rows fs)).
Proof.
  unfold static_counts. simpl subscript. rewrite Hmc. simpl.
  rewrite Hmfl, Hml. simpl.
  destruct static_tables_ok as (-> & _). simpl.
  destruct static_set_ok as (ids & -> & Hperm). simpl.
  rewrite (Permutation_length Hperm).
  now rewrite (read_all_length _ _ _ Hms).
Qed.

(** The decoder up to the division. *)
Lemma decrypteStaticData_prefix (response : value) (w : world S) :
  exists ids sa fr,
    Permutation (map VStr ids) (static_rows fs) /\
    CJA._decrypteStaticData P (VDict d) response w =
    (nb_columns <- (match length (map VStr ids) with
                    | O => raise ZeroDivisionError
                    | _ => ret (Z.of_nat (length ml) /
                                Z.of_nat (length (map VStr ids)))%Z
                    end) ;;
     staticRowsNames <- CJA.static_rowNames P (map VStr ids) ;;
     let staticRowDict :=
       fold_left (fun d rn => dict_set d (fst rn) (snd rn))
                 (CJA.py_zip (map VStr ids) staticRowsNames) [] in
     dataRows <- lift (foldM (fun dataRows row =>
         cols <- subscript response (VStr "columns") ;;
         cids <- subscript cols (VStr "columnIds") ;;
         cidl <- py_iter cids ;;
         sd <- subscript response (VStr "summaryData") ;;
         tots <- subscript sd (VStr "totals") ;;
         totl <- py_iter tots ;;
         foldM (CJA.static_cell (store_all (static_row_entries fs) [])
                                (store_all (column_entries ms) [])
                                staticRowDict row)
               dataRows (CJA.py_zip cidl totl))%py []
                             (dict_keys staticRowDict)) ;;
     ret (nb_columns, store_all (column_entries ms) [], sa, fr,
          dataRows))%m w.
Proof.
  destruct static_tables_ok as (Htsr & Htci).
  destruct static_set_ok as (ids & Hset & Hperm).
  destruct (static_segmentApplied_total mfl fs Hfs) as (sa & Hsa).
  destruct (static_filterRelations_total ml ms Hms Hfilters) as (fr & Hfr).
  exists ids, sa, fr. split; [exact Hperm | ].
  unfold CJA._decrypteStaticData.
  assert (E1 : subscript (VDict d) (VStr "metricContainer") = Ok (VDict mcd))
    by (simpl; now rewrite Hmc).
  assert (E2 : subscript (VDict mcd) (VStr "metricFilters") = Ok (VList mfl))
    by (simpl; now rewrite Hmfl).
  assert (E3 : subscript (VDict mcd) (VStr "metrics") = Ok (VList ml))
    by (simpl; now rewrite Hml).
  rewrite (bindM_lift_ok _ _ _ _ E1).
  rewrite (bindM_lift_ok _ _ _ _ E2).
  rewrite (bindM_lift_ok _ mfl _ _ eq_refl).
  rewrite (bindM_lift_ok _ _ _ _ Htsr).
  rewrite (bindM_lift_ok _ _ _ _ Hsa).
  rewrite (bindM_lift_ok _ _ _ _ E3).
  rewrite (bindM_lift_ok _ ml _ _ eq_refl).
  rewrite (bindM_lift_ok _ _ _ _ Htci).
  rewrite (bindM_lift_ok _ _ _ _ Hfr).
  rewrite (bindM_lift_ok _ _ _ _ Hset).
  rewrite (bindM_lift_ok _ (length ml) _ _ eq_refl).
  reflexivity.
Qed.

End StaticDecoder.

Section StaticData.

Variables (response : value) (rd cd sd : pydict).
Variables (cids : list string) (totals : list value).

Hypothesis Hresponse : response = VDict rd.
Hypothesis Hcolumns : dict_get rd (VStr "columns") = Some (VDict cd).
Hypothesis Hcids :
  dict_get cd (VStr "columnIds") = Some (VList (map VStr cids)).
Hypothesis Hsummary : dict_get rd (VStr "summaryData") = Some (VDict sd).
Hypothesis Htotals : dict_get sd (VStr "totals") = Some (VList totals).

Variables (ms : list metric_decl) (fs : list filter_decl).

Hypothesis Hon : forallb (on_static_row fs) ms = true.
Hypothesis Hdeclared : forallb (declared_column ms) cids = true.

(** The loop over the static rows and, for each, over the columns of the
    response. *)
Lemma static_dataRows_total (staticRowDict : pydict) :
  entries str_value key_value staticRowDict ->
  exists dataRows,
    foldM (fun dataRows row =>
        cols <- subscript response (VStr "columns") ;;
        cids <- subscript cols (VStr "columnIds") ;;
        cidl <- py_iter cids ;;
        sd <- subscript response (VStr "summaryData") ;;
        tots <- subscript sd (VStr "totals") ;;
        totl <- py_iter tots ;;
        foldM (CJA.static_cell (store_all (static_row_entries fs) [])
                               (store_all (column_entries ms) [])
                               staticRowDict row)
              dataRows (CJA.py_zip cidl totl))%py []
          (dict_keys staticRowDict) = Ok dataRows.
Proof.
  intros Hsrd.
  match goal with
  | |- exists r, foldM ?body _ ?xs = Ok r =>
      assert (Hstep : forall a x,
                In x xs -> entries (fun _ => True) list_value a ->
                exists a', body a x = Ok a' /\
                           entries (fun _ => True) list_value a')
  end.
  { intros acc row Hrow Hacc. subst response. simpl subscript.
    rewrite Hcolumns, Hsummary. simpl. rewrite Hcids, Htotals. simpl.
    apply foldM_total; [ | exact Hacc].
    intros acc' [col data] Hin Hacc'.
    apply in_combine_l in Hin. apply in_map_iff in Hin as (c & <- & Hc).
    rewrite forallb_forall in Hdeclared.
    apply static_cell_total; auto.
    apply column_leads_to_row; auto. }
  destruct (foldM_total _ _ _ Hstep [] (Forall_nil _)) as (r & Hr & _).
  eauto.
Qed.

End StaticData.

(** C3, as the code has it.  The request declares the metrics [ms], each
    with a filter, and the metric filters [fs], whose "STATIC_ROW" filters
    are segment filters; [nb_rows] is the number of distinct segments of
    the static rows, as the decoder counts them.  With no static row the
    decoder raises [ZeroDivisionError] before any lookup.  With at least
    one, and a response whose columns are columns of metrics placed on
    static rows, the decoder returns, whatever the remainder of the number
    of metrics by [nb_rows]: [nb_columns] is the quotient rounded down, so
    [nb_columns * nb_rows] does not exceed the number of metrics and falls
    short of it by less than [nb_rows]. *)
Theorem decrypteStaticData_nb_columns_truncates {S : Type}
  (P : CJA.platform S) (response : value) (w : world S)
  (d mcd : pydict) (ml mfl : list value)
  (ms : list metric_decl) (fs : list filter_decl) :
  let nb_metrics := length ms in
  let nb_rows := length (static_rows fs) in
  orders_sets P ->
  lookups_name P ->
  dict_get d (VStr "metricContainer") = Some (VDict mcd) ->
  dict_get mcd (VStr "metrics") = Some (VList ml) ->
  dict_get mcd (VStr "metricFilters") = Some (VList mfl) ->
  read_all metric_fields ml = Some ms ->
  read_all filter_fields mfl = Some fs ->
  forallb has_filters ms = true ->
  rows_are_segments fs = true ->
  static_counts P (VDict d) = Ok (nb_metrics, nb_rows) /\
  (nb_rows = 0 ->
   CJA._decrypteStaticData P (VDict d) response w =
     Some (Raise ZeroDivisionError, w)) /\
  (0 < nb_rows ->
   forall (rd cd sd : pydict) (cids : list string) (totals : list value),
     response = VDict rd ->
     dict_get rd (VStr "columns") = Some (VDict cd) ->
     dict_get cd (VStr "columnIds") = Some (VList (map VStr cids)) ->
     dict_get rd (VStr "summaryData") = Some (VDict sd) ->
     dict_get sd (VStr "totals") = Some (VList totals) ->
     forallb (on_static_row fs) ms = true ->
     forallb (declared_column ms) cids = true ->
     exists nb_columns tableColumnIds segmentApplied filterRelations
            dataRows w',
       CJA._decrypteStaticData P (VDict d) response w =
         Some (Ok (nb_columns, tableColumnIds, segmentApplied,
                   filterRelations, dataRows), w') /\
       nb_columns = (Z.of_nat nb_metrics / Z.of_nat nb_rows)%Z /\
       (nb_columns * Z.of_nat nb_rows <= Z.of_nat nb_metrics
        < (nb_columns + 1) * Z.of_nat nb_rows)%Z).
Proof.
  intros nb_metrics nb_rows Horder Hnames Hmc Hml Hmfl Hms Hfs Hfilters
    Hrows.
  destruct (decrypteStaticData_prefix P Horder d mcd ml mfl ms fs
              Hmc Hml Hmfl Hms Hfs Hfilters Hrows response w)
    as (ids & sa & fr & Hperm & Hrun).
  assert (Hlen : length (map VStr ids) = nb_rows)
    by apply (Permutation_length Hperm).
  assert (Hmetrics : length ml = nb_metrics)
    by (symmetry; apply (read_all_length _ _ _ Hms)).
  split; [ | split].
  - now apply static_counts_ok with (mcd := mcd) (ml := ml) (mfl := mfl).
  - intros Hzero. rewrite Hrun, Hlen, Hzero. reflexivity.
  - intros Hpos rd cd sd cids totals -> Hcolumns Hcids Hsummary Htotals
      Hon Hdeclared.
    rewrite Hrun, Hlen, Hmetrics.
    destruct nb_rows as [ | n] eqn:En; [lia | ]. rewrite <- En.
    destruct (static_rowNames_total P Hnames ids [] w (Forall_nil _))
      as (names & w' & Hrn & Hkeys).
    assert (Hsrd : entries str_value key_value
                     (fold_left (fun d rn => dict_set d (fst rn) (snd rn))
                                (CJA.py_zip (map VStr ids) names) [])).
    { apply fold_left_invariant; [ | constructor].
      intros acc [row name] Hin Hacc. simpl.
      apply entries_set; auto.
      - apply in_combine_l in Hin.
        apply in_map_iff in Hin as (id & <- & _). now eexists.
      - apply in_combine_r in Hin. rewrite Forall_forall in Hkeys.
        now apply Hkeys. }
    destruct (static_dataRows_total (VDict rd) rd cd sd cids totals eq_refl
                Hcolumns Hcids Hsummary Htotals ms fs Hon Hdeclared _ Hsrd)
      as (dataRows & Hdata).
    eexists _, _, _, _, dataRows, w'.
    split; [ | split; [reflexivity | apply quotient_bounds; lia]].
    unfold bindM at 1. unfold ret at 1.
    fold (CJA.static_rowNames P (map VStr ids)) in Hrn.
    rewrite (bindM_ok _ _ _ _ _ Hrn). cbv zeta.
    rewrite (bindM_lift_ok _ _ _ _ Hdata). reflexivity.
Qed.

(** Three metrics over two static rows return one column per row, with a
    remainder of one; a request with no static row divides by zero. *)
Lemma decrypteStaticData_nb_columns_truncates_witness :
  static_counts scripted doc_three_over_two = Ok (3, 2) /\
  (exists nb_columns tableColumnIds segmentApplied filterRelations dataRows
          w',
     CJA._decrypteStaticData scripted doc_three_over_two
       response_three_over_two world_static =
       Some (Ok (nb_columns, tableColumnIds, segmentApplied, filterRelations,
                 dataRows), w') /\
     nb_columns = 1%Z /\
     (nb_columns * 2 <= 3 < (nb_columns + 1) * 2)%Z) /\
  static_counts scripted doc_m1_home = Ok (1, 0) /\
  CJA._decrypteStaticData scripted doc_m1_home (VDict []) world_static =
    Some (Raise ZeroDivisionError, world_static).
Proof.
  assert (Horder : orders_sets scripted)
    by (intros xs; apply Permutation_refl).
  assert (Hnames : lookups_name scripted)
    by (intros s url params; eexists _, _, _; repeat split; reflexivity).
  pose proof (fun d mcd ml mfl ms fs =>
                decrypteStaticData_nb_columns_truncates scripted
                  response_three_over_two world_static d mcd ml mfl ms fs
                  Horder Hnames) as Hrows.
  specialize (Hrows (match doc_three_over_two with VDict d => d | _ => [] end)
                _ _ _ _ _ eq_refl eq_refl eq_refl eq_refl eq_refl eq_refl
                eq_refl).
  destruct Hrows as (Hcount & _ & Hpos).
  pose proof (fun d mcd ml mfl ms fs =>
                decrypteStaticData_nb_columns_truncates scripted
                  (VDict []) world_static d mcd ml mfl ms fs
                  Horder Hnames) as Hnone.
  specialize (Hnone (match doc_m1_home with VDict d => d | _ => [] end)
                _ _ _ _ _ eq_refl eq_refl eq_refl eq_refl eq_refl eq_refl
                eq_refl).
  destruct Hnone as (Hcount0 & Hzero & _).
  split; [exact Hcount | ].
  split; [ | split; [exact Hcount0 | exact (Hzero eq_refl)]].
  destruct (Hpos ltac:(simpl; lia) _ _ _ ["0"; "1"; "2"] _
                 eq_refl eq_refl eq_refl eq_refl eq_refl eq_refl eq_refl)
    as (nbc & tci & sa & fr & rows & w' & Hrun & Hq & Hb).
  exists nbc, tci, sa, fr, rows, w'.
  split; [exact Hrun | ]. split; [exact Hq | exact Hb].
Defined.

(** C3 as stated fails: the request declares three metrics over two static
    rows, 3 is not a multiple of 2, and the decoder raises nothing: it
    returns [nb_columns = 1], with [1 * 2 <> 3], and [getReport] returns a
    static workspace. *)
Lemma static_three_over_two_decodes :
  static_counts scripted doc_three_over_two = Ok (3, 2) /\
  (3 mod 2 <> 0)%Z /\
  (exists tableColumnIds segmentApplied filterRelations dataRows w',
     CJA._decrypteStaticData scripted doc_three_over_two
       response_three_over_two world_static =
     Some (Ok (1%Z, tableColumnIds, segmentApplied, filterRelations,
               dataRows), w')) /\
  (1 * 2 <> 3)%Z /\
  (exists data w',
     CJA.getReport scripted 0 (CJA.ReqRef 0) CJA.default_args world_static =
     Some (Ok (CJA.Class data), w') /\
     CJA.reportType data = "static").
Proof.
  split; [reflexivity | ]. split; [discriminate | ].
  split; [eexists _, _, _, _, _; vm_compute; reflexivity | ].
  split; [discriminate | ].
  eexists _, _. split; vm_compute; reflexivity.
Qed.

(** ** Claims on [getMultidimensionalReport] *)

(** The four arguments the function checks: a missing one raises a
    [ValueError] before anything is sent and before anything is built. *)
Lemma getMultidimensionalReport_checks_four {S : Type} (P : CJA.platform S)
  (C : CJA.companions) (fuel : nat) (a : CJA.multi_args) (w : world S) :
  CJA.md_dimensions a = None \/ CJA.md_dimensionLimit a = None \/
  CJA.md_metrics a = None \/ CJA.md_dataViewId a = None ->
  exists msg,
    CJA.getMultidimensionalReport P C fuel a w =
    Some (Raise (ValueError msg), w).
Proof.
  unfold CJA.getMultidimensionalReport.
  destruct (CJA.md_dimensions a); [ | eexists; reflexivity].
  destruct (CJA.md_dimensionLimit a); [ | eexists; reflexivity].
  destruct (CJA.md_metrics a); [ | eexists; reflexivity].
  destruct (CJA.md_dataViewId a); [ | eexists; reflexivity].
  intros [H | [H | [H | H]]]; discriminate.
Qed.

(** C8, at the argument the code does not check.  When the list of global
    filters is missing and the four checked arguments are present, the
    call raises a [TypeError] (the loop over [globalFilters] iterates
    [None]), not a [ValueError]; nothing has been sent. *)
Theorem getMultidimensionalReport_missing_globalFilters {S : Type}
  (P : CJA.platform S) (C : CJA.companions) (fuel : nat)
  (dimensions : list string) (limits : list (string * value))
  (metrics : list string) (dataViewId : string)
  (metricFilters : option (list (string * string)))
  (countRepeatInstances returnNones : bool) (w : world S) :
  CJA.getMultidimensionalReport P C fuel
    (CJA.mkMulti (Some dimensions) (Some limits) (Some metrics)
                 (Some dataViewId) None metricFilters
                 countRepeatInstances returnNones) w =
  Some (Raise TypeError, w).
Proof. reflexivity. Qed.

(** *** Where the traversal files the item ids *)

Section ItemPools.

Context {S : Type} (P : CJA.platform S) (C : CJA.companions).

Lemma returns_bind_with {A B} (Q1 : A -> Prop) (Q : B -> Prop)
  (m : M S A) (k : A -> M S B) :
  returns Q1 m -> (forall a, Q1 a -> returns Q (k a)) ->
  returns Q (bindM m k).
Proof.
  intros Hm Hk w b w' H. apply bindM_ok_inv in H as (a & w1 & H1 & H2).
  eapply Hk; eauto.
Qed.

Lemma returns_forM {A B} (I : A -> Prop) (body : A -> B -> M S A)
  (xs : list B) :
  (forall acc x, I acc -> returns I (body acc x)) ->
  forall acc, I acc -> returns I (forM body acc xs).
Proof.
  intros Hb. induction xs as [ | x xs IH]; intros acc Hacc; simpl.
  - now apply returns_ret.
  - eapply returns_bind_with; [now apply Hb | ]. intros a Ha. now apply IH.
Qed.

Lemma sdict_get_set {A} (d : list (string * A)) (k k' : string) (v : A) :
  CJA.sdict_get (CJA.sdict_set d k v) k' =
  if String.eqb k k' then Some v else CJA.sdict_get d k'.
Proof.
  induction d as [ | [j x] d IH]; simpl.
  - reflexivity.
  - destruct (String.eqb j k) eqn:E; simpl.
    + apply String.eqb_eq in E. subst j.
      destruct (String.eqb k k'); reflexivity.
    + rewrite IH. destruct (String.eqb j k') eqn:E'; auto.
      apply String.eqb_eq in E'. subst j.
      now rewrite String.eqb_sym, E.
Qed.

Lemma pool_within_set ks st st' key (items : list value) :
  pool_within ks st ->
  CJA.dict_breakdown_itemId st' =
    CJA.sdict_set (CJA.dict_breakdown_itemId st) key items ->
  pool_within (key :: ks) st'.
Proof.
  intros Hst Heq k Hk. rewrite Heq, sdict_get_set in Hk.
  destruct (String.eqb key k) eqn:E.
  - apply String.eqb_eq in E. now left.
  - right. now apply Hst.
Qed.

(** A turn of the item loop files the item ids it found under the
    dimension it is breaking down, not under the next one. *)
Lemma breakdown_item_pool fuel dimensions metrics limits dimension limit
  st itemId :
  returns (fun st' =>
             CJA.level st' = CJA.level st /\
             exists items,
               CJA.dict_breakdown_itemId st' =
               CJA.sdict_set (CJA.dict_breakdown_itemId st) dimension items)
          (CJA.breakdown_item P C fuel dimensions metrics limits dimension
                              limit st itemId).
Proof.
  unfold CJA.breakdown_item.
  repeat (apply returns_bind; intros).
  match goal with x : (_ * _)%type |- _ => destruct x as [order final] end.
  destruct order as [names | ]; [ | apply returns_raise].
  apply returns_bind; intros. apply returns_ret. simpl. eauto.
Qed.

Lemma returns_lift {A} (x : res A) :
  returns (S := S) (fun a => x = Ok a) (lift x).
Proof. intros w a w' H. apply lift_inv in H as (H & _). now symmetry. Qed.

Lemma first_level_pool fuel dimensions limits dimension limit st :
  returns (fun st' =>
             CJA.level st' = CJA.level st /\
             exists key items,
               CJA.py_nth (tl dimensions) (Z.of_nat (CJA.level st)) = Ok key /\
               CJA.dict_breakdown_itemId st' =
               CJA.sdict_set (CJA.dict_breakdown_itemId st) key items)
          (CJA.first_level P C fuel dimensions limits dimension limit st).
Proof.
  unfold CJA.first_level.
  apply returns_bind; intros n. apply returns_bind; intros df.
  apply returns_bind; intros items.
  eapply returns_bind_with; [apply returns_lift | ]. intros key Hkey.
  repeat (apply returns_bind; intros). apply returns_ret. simpl.
  split; auto. exists key, items. auto.
Qed.

(** The first dimension files its item ids under the second one. *)
Lemma dimension_step_first fuel d0 d1 rest metrics limits st :
  CJA.level st = 0 -> pool_within [] st ->
  returns (fun st' => CJA.level st' = 1 /\ pool_within [d1] st')
          (CJA.dimension_step P C fuel (d0 :: d1 :: rest) metrics limits
                              st d0).
Proof.
  intros Hlevel Hpool. unfold CJA.dimension_step.
  apply returns_bind; intros requested. apply returns_bind; intros count.
  apply returns_bind; intros [tpl' limit].
  eapply returns_bind_with; [apply returns_lift | ]. intros first Hfirst.
  injection Hfirst as <-. rewrite String.eqb_refl.
  eapply returns_bind_with; [apply first_level_pool | ].
  simpl. intros st1 (Hl & key & items & Hkey & Hset).
  apply returns_ret. simpl. rewrite Hl, Hlevel. split; auto.
  rewrite Hlevel in Hkey. injection Hkey as <-.
  eapply pool_within_set; [ | exact Hset]. exact Hpool.
Qed.

(** Every later dimension files the item ids of its items under its own
    name. *)
Lemma dimension_step_other fuel d0 rest metrics limits ks st dimension :
  dimension <> d0 -> pool_within ks st ->
  returns (fun st' =>
             CJA.level st' = Datatypes.S (CJA.level st) /\
             pool_within (dimension :: ks) st')
          (CJA.dimension_step P C fuel (d0 :: rest) metrics limits
                              st dimension).
Proof.
  intros Hne Hpool. unfold CJA.dimension_step.
  apply returns_bind; intros requested. apply returns_bind; intros count.
  apply returns_bind; intros [tpl' limit].
  eapply returns_bind_with; [apply returns_lift | ]. intros first Hfirst.
  injection Hfirst as <-.
  assert (E : String.eqb dimension d0 = false).
  { destruct (String.eqb dimension d0) eqn:E; auto.
    apply String.eqb_eq in E. contradiction. }
  rewrite E.
  eapply returns_bind_with.
  - apply (returns_forM
             (fun acc => CJA.level acc = CJA.level st /\
                         pool_within (dimension :: ks) acc)).
    + intros acc itemId (Hl & Hp) w a w' H.
      destruct (breakdown_item_pool _ _ _ _ _ _ _ _ _ _ _ H)
        as (Hl' & items & Hset).
      split; [congruence | ].
      intros k Hk. rewrite Hset, sdict_get_set in Hk.
      destruct (String.eqb dimension k) eqn:Ek.
      * apply String.eqb_eq in Ek. now left.
      * now apply Hp.
    + simpl. split; auto. intros k Hk. right. now apply Hpool.
  - intros st1 (Hl & Hp). apply returns_ret. simpl. now rewrite Hl.
Qed.

(** A later dimension with no items filed under its name sends nothing
    and leaves an empty table. *)
Lemma dimension_step_idle fuel d0 rest metrics limits st dimension
  (w : world S) st' w' :
  dimension <> d0 ->
  CJA.sdict_get (CJA.dict_breakdown_itemId st) dimension = None ->
  CJA.dimension_step P C fuel (d0 :: rest) metrics limits st dimension w =
    Some (Ok st', w') ->
  w' = w /\ CJA.df_final st' = Some Pandas.empty_frame.
Proof.
  intros Hne Hnone. unfold CJA.dimension_step. intros H.
  apply bindM_ok_inv in H as (requested & ? & E1 & H).
  apply lift_inv in E1 as (_ & ->).
  apply bindM_ok_inv in H as (count & ? & E2 & H).
  apply lift_inv in E2 as (_ & ->).
  apply bindM_ok_inv in H as ([tpl' limit] & w1 & E3 & H).
  assert (w1 = w) as ->.
  { destruct (ext_gtb count 20000).
    - now injection E3 as _ _ <-.
    - apply bindM_ok_inv in E3 as (l0 & ? & E4 & E3).
      apply lift_inv in E4 as (_ & ->). now injection E3 as _ _ <-. }
  apply bindM_ok_inv in H as (first & ? & E5 & H).
  apply lift_inv in E5 as (E5 & ->). simpl in E5. injection E5 as ->.
  assert (E : String.eqb dimension d0 = false).
  { destruct (String.eqb dimension d0) eqn:E; auto.
    apply String.eqb_eq in E. contradiction. }
  rewrite E in H. simpl in H. rewrite Hnone in H. simpl in H.
  injection H as <- <-. auto.
Qed.

End ItemPools.

(** C6, what the code does instead.  In a traversal of three pairwise
    distinct dimensions nothing is requested at level 2: the items found at
    level 1 are filed under the name of the level-1 dimension, so the pool
    of the third dimension is empty.  The call ends in the world reached
    after the first two dimensions and returns an empty table; no request
    ever carries a parent filter together with a grandparent filter. *)
Theorem three_dimensions_request_nothing_at_level_2 {S : Type}
  (P : CJA.platform S) (C : CJA.companions) (fuel : nat)
  (d0 d1 d2 : string) (limits : list (string * value))
  (metrics : list string) (dataViewId : string)
  (globalFilters : list string)
  (metricFilters : option (list (string * string)))
  (countRepeatInstances returnNones : bool)
  (w : world S) (r : CJA.multi_workspace) (w' : world S) :
  d0 <> d1 -> d0 <> d2 -> d1 <> d2 ->
  CJA.getMultidimensionalReport P C fuel
    (CJA.mkMulti (Some [d0; d1; d2]) (Some limits) (Some metrics)
                 (Some dataViewId) (Some globalFilters) metricFilters
                 countRepeatInstances returnNones) w = Some (Ok r, w') ->
  CJA.mw_table r = Pandas.empty_frame /\
  exists st0 st2,
    forM (CJA.dimension_step P C fuel [d0; d1; d2] metrics limits) st0
         [d0; d1] w = Some (Ok st2, w').
Proof.
  intros H01 H02 H12 H. unfold CJA.getMultidimensionalReport in H.
  cbn [CJA.md_dimensions CJA.md_dimensionLimit CJA.md_metrics
       CJA.md_dataViewId CJA.md_globalFilters CJA.md_metricFilters
       CJA.md_countRepeatInstances CJA.md_returnNones] in H.
  apply bindM_ok_inv in H as (st3 & w3 & Hloop & Hfin).
  cbn [forM] in Hloop.
  apply bindM_ok_inv in Hloop as (s1 & w1 & H1 & Hloop).
  apply bindM_ok_inv in Hloop as (s2 & w2 & H2 & Hloop).
  apply bindM_ok_inv in Hloop as (s3 & w3' & H3 & Hloop).
  injection Hloop as <- <-.
  assert (Hs1 : CJA.level s1 = 1 /\ pool_within [d1] s1).
  { refine (dimension_step_first P C fuel d0 d1 [d2] metrics limits _
              _ _ w s1 w1 H1).
    - reflexivity.
    - intros k Hk. now contradiction Hk. }
  destruct Hs1 as (Hl1 & Hp1).
  assert (Hs2 : CJA.level s2 = Datatypes.S (CJA.level s1) /\
                pool_within [d1; d1] s2).
  { refine (dimension_step_other P C fuel d0 [d1; d2] metrics limits [d1]
              s1 d1 _ Hp1 w1 s2 w2 H2).
    intros E. now apply H01. }
  destruct Hs2 as (Hl2 & Hp2).
  assert (Hnone : CJA.sdict_get (CJA.dict_breakdown_itemId s2) d2 = None).
  { destruct (CJA.sdict_get (CJA.dict_breakdown_itemId s2) d2) eqn:E; auto.
    exfalso. destruct (Hp2 d2) as [E' | [E' | []]];
      [ now rewrite E | congruence | congruence ]. }
  assert (H20 : d2 <> d0) by congruence.
  destruct (dimension_step_idle P C _ _ _ _ _ _ _ _ _ _ H20 Hnone H3)
    as (-> & Hdf).
  rewrite Hdf in Hfin. injection Hfin as <- <-. split; [reflexivity | ].
  eexists _, s2. cbn [forM].
  rewrite (bindM_ok _ _ _ _ _ H1), (bindM_ok _ _ _ _ _ H2). reflexivity.
Qed.

(** Dimensions "page", "device", "browser": three requests are posted, one
    for "page" and two for "device", none for "browser", and the table is
    empty although the service had rows for a third level. *)
Lemma three_dimensions_request_nothing_at_level_2_witness :
  (CJA.mw_table result_page_device_browser = Pandas.empty_frame /\
   exists st0 st2,
     forM (CJA.dimension_step scripted concrete_companions 5
             ["page"; "device"; "browser"] ["visits"]
             [("page", VInt 2); ("device", VStr "inf");
              ("browser", VInt 5)]) st0
          ["page"; "device"] world_page_device_browser =
     Some (Ok st2, world_after_page_device_browser)) /\
  posted_dimensions (calls world_after_page_device_browser) =
    ["page"; "device"; "device"] /\
  length (srv world_after_page_device_browser) = 2.
Proof.
  split; [ | split; reflexivity].
  apply (three_dimensions_request_nothing_at_level_2 scripted
           concrete_companions 5 "page" "device" "browser"
           [("page", VInt 2); ("device", VStr "inf"); ("browser", VInt 5)]
           ["visits"] "dv1" [] None true true
           world_page_device_browser result_page_device_browser
           world_after_page_device_browser);
    try discriminate.
  vm_compute. reflexivity.
Defined.

(** *** The columns of a row block *)

Section RowBlock.

Lemma renamed_notin (pairs : list (string * string)) (c : string) :
  ~ In c (map fst pairs) -> Pandas.renamed pairs c = c.
Proof.
  induction pairs as [ | [old new] pairs IH]; simpl; auto.
  intros Hn. rewrite IH by tauto.
  destruct (String.eqb old c) eqn:E; auto.
  apply String.eqb_eq in E. tauto.
Qed.

Lemma existsb_key_false (pairs : list (string * string)) (c : string) :
  ~ In c (map fst pairs) ->
  existsb (fun p => String.eqb (fst p) c) pairs = false.
Proof.
  induction pairs as [ | [old new] pairs IH]; simpl; auto.
  intros Hn. rewrite IH by tauto.
  destruct (String.eqb old c) eqn:E; auto.
  apply String.eqb_eq in E. tauto.
Qed.

Lemma in_combine_keys (xs ys : list string) (c : string) :
  In c (map fst (combine xs ys)) -> In c xs.
Proof.
  revert ys. induction xs as [ | x xs IH]; intros [ | y ys]; simpl; auto.
  - intros [].
  - intros [-> | H]; eauto.
Qed.

(** Distinct labels renamed through [zip(labels, names)] become the
    names. *)
Lemma rename_zip (labels names : list string) :
  NoDup labels -> length labels = length names ->
  map (Pandas.renamed (combine labels names)) labels = names.
Proof.
  revert names. induction labels as [ | c labels IH]; intros [ | n names];
    simpl; try discriminate; auto.
  intros Hnd [= Hlen]. inversion Hnd as [ | ? ? Hc Hnd']; subst.
  rewrite String.eqb_refl.
  rewrite existsb_key_false
    by (intros H; apply Hc; eapply in_combine_keys; eauto).
  f_equal.
  transitivity (map (Pandas.renamed (combine labels names)) labels);
    [ | now apply IH].
  apply map_ext_in. intros x Hx.
  destruct (String.eqb c x) eqn:E; auto.
  apply String.eqb_eq in E. subst x. contradiction.
Qed.

(** Renaming the last [n] of distinct columns: the leading columns stay,
    the last [n] take the new names. *)
Lemma rename_last_columns (cols names : list string) :
  NoDup cols -> 0 < length names -> length names <= length cols ->
  map (Pandas.renamed
         (combine (Pandas.last_columns (length names) cols) names)) cols =
  firstn (length cols - length names) cols ++ names.
Proof.
  intros Hnd Hpos Hle.
  assert (Hlast : Pandas.last_columns (length names) cols =
                  skipn (length cols - length names) cols).
  { unfold Pandas.last_columns. destruct (length names); [lia | auto]. }
  rewrite Hlast.
  assert (Hlen : length (skipn (length cols - length names) cols) =
                 length names) by (rewrite length_skipn; lia).
  assert (Hcols := firstn_skipn (length cols - length names) cols).
  revert Hlen Hcols.
  generalize (skipn (length cols - length names) cols) as suf.
  generalize (firstn (length cols - length names) cols) as pre.
  intros pre suf Hlen Hcols. subst cols.
  apply NoDup_app_remove_l in Hnd as Hsuf.
  rewrite map_app. f_equal.
  - rewrite <- (map_id pre) at 2.
    apply map_ext_in. intros c Hc. apply renamed_notin.
    intros Hin. apply in_combine_keys in Hin.
    clear - Hnd Hc Hin.
    induction pre as [ | x xs IH]; simpl in *; [tauto | ].
    inversion Hnd as [ | ? ? Hx Hnd']; subst.
    destruct Hc as [-> | Hc]; auto.
    apply Hx. apply in_or_app. now right.
  - apply rename_zip; auto.
Qed.

End RowBlock.

Lemma index_of_in (name : string) (cols : list string) :
  In name cols -> Pandas.index_of name cols <> None.
Proof.
  induction cols as [ | c cols IH]; simpl; [tauto | ].
  intros Hin. destruct (String.eqb c name) eqn:E; [discriminate | ].
  destruct Hin as [-> | Hin]; [now rewrite String.eqb_refl in E | ].
  destruct (Pandas.index_of name cols); [discriminate | now apply IH].
Qed.

Lemma select_all (names : list string) (df : Pandas.DataFrame) :
  (forall n, In n names -> In n (Pandas.columns df)) ->
  exists table,
    Pandas.select names df = Ok table /\ Pandas.columns table = names.
Proof.
  intros Hall. unfold Pandas.select.
  destruct (find _ names) as [missing | ] eqn:E.
  - apply find_some in E as (Hin & Hmiss).
    apply Hall, index_of_in in Hin.
    destruct (Pandas.index_of missing (Pandas.columns df));
      [discriminate | contradiction].
  - eexists. split; reflexivity.
Qed.

Lemma set_column_columns (name : string) (v : value)
  (df : Pandas.DataFrame) (n : string) :
  n = name \/ In n (Pandas.columns df) ->
  In n (Pandas.columns (Pandas.set_column name v df)).
Proof.
  unfold Pandas.set_column.
  destruct (Pandas.index_of name (Pandas.columns df)) as [i | ] eqn:E;
    simpl.
  - intros [-> | H]; auto.
    clear - E. revert i E.
    induction (Pandas.columns df) as [ | c cols IH]; simpl;
      [discriminate | ].
    intros i. destruct (String.eqb c name) eqn:Ec.
    + apply String.eqb_eq in Ec. auto.
    + destruct (Pandas.index_of name cols); [ | discriminate].
      intros _. right. eapply IH. reflexivity.
  - intros [-> | H]; apply in_or_app; simpl; auto.
Qed.




(** * Further properties of the report pipeline *)

(** ** The order of the decoded table *)

Lemma distinct_items_ext (xs : list value) :
  forall s1 s2,
    (forall x, list_contains s1 x = list_contains s2 x) ->
    CJA.distinct_items s1 xs = CJA.distinct_items s2 xs.
Proof.
  induction xs as [ | x xs IH]; intros s1 s2 H; simpl; auto.
  rewrite (H x). destruct (list_contains s2 x).
  - now apply IH.
  - f_equal. apply IH. intros y. unfold list_contains in *. simpl.
    now rewrite H.
Qed.

Lemma foldM_expand_order (rows : list value) :
  Forall valid_row rows ->
  forall acc table,
    foldM CJA.expand_row acc rows = Ok table ->
    dict_keys table =
    dict_keys acc ++ CJA.distinct_items (dict_keys acc) (row_keys rows).
Proof.
  induction 1 as [ | row rows (i & v & cells & Hrow) _ IH];
    intros acc table; simpl.
  - intros [= <-]. now rewrite app_nil_r.
  - rewrite (expand_row_valid acc row i v cells Hrow). simpl.
    intros Hfold. apply IH in Hfold. rewrite Hfold.
    unfold row_itemId. rewrite Hrow. simpl.
    rewrite dict_keys_set, list_contains_keys.
    destruct (dict_has acc (VStr i)); auto.
    rewrite <- app_assoc. simpl. do 2 f_equal.
    apply distinct_items_ext. intros x. unfold list_contains.
    rewrite existsb_app. simpl. rewrite orb_false_r. apply orb_comm.
Qed.

(** X1. The table [_prepareData] decodes from a normal response lists the
    item ids in the order in which the rows first mention them: a row that
    repeats an item id does not move its entry. *)
Theorem prepareData_normal_first_seen_order (rows : list value) :
  Forall valid_row rows ->
  exists table,
    CJA._prepareData (VList rows) "normal" = Ok (VDict table) /\
    dict_keys table = CJA.distinct_items [] (row_keys rows).
Proof.
  intros Hrows.
  destruct (foldM_expand_valid rows Hrows []) as (table & Hfold).
  exists table. split.
  - now apply prepareData_normal_ok.
  - now rewrite (foldM_expand_order rows Hrows [] table Hfold).
Qed.

(** The rows "1", "2", "1": the table lists "1" before "2". *)
Lemma prepareData_normal_first_seen_order_witness :
  exists table,
    CJA._prepareData (VList rows_with_duplicate) "normal"
      = Ok (VDict table) /\
    dict_keys table = [VStr "1"; VStr "2"].
Proof.
  apply (prepareData_normal_first_seen_order rows_with_duplicate).
  repeat constructor; unfold valid_row; simpl; eauto.
Defined.

(** ** A row that lacks a field *)

Lemma foldM_app {A B} (body : A -> B -> res A) (xs ys : list B) :
  forall acc,
    foldM body acc (xs ++ ys) =
    (acc' <- foldM body acc xs ;; foldM body acc' ys).
Proof.
  induction xs as [ | x xs IH]; intros acc; simpl; auto.
  destruct (body acc x); simpl; auto.
Qed.

Lemma py_eqb_refl (k : value) : hashable k = true -> py_eqb k k = true.
Proof.
  destruct k as [ | [ | ] | z | s | | ]; simpl; try discriminate; auto.
  - intros _. apply Z.eqb_refl.
  - intros _. apply String.eqb_refl.
Qed.

Lemma dict_get_set_hashable (d : pydict) (k x : value) :
  hashable k = true -> dict_get (dict_set d k x) k = Some x.
Proof.
  intros Hk. induction d as [ | [k' v'] d IH]; simpl.
  - now rewrite py_eqb_refl.
  - destruct (py_eqb k' k) eqn:E; simpl; rewrite E; auto.
Qed.

Lemma expand_row_missing (acc d : pydict) (f : string) :
  missing_field d = Some f ->
  (forall k, dict_get d (VStr "itemId") = Some k -> hashable k = true) ->
  CJA.expand_row acc (VDict d) = Raise (KeyError (VStr f)).
Proof.
  unfold missing_field, dict_has, CJA.expand_row. intros Hf Hk. simpl.
  destruct (dict_get d (VStr "value")) as [v | ]; simpl in *;
    [ | now injection Hf as <-].
  destruct (dict_get d (VStr "itemId")) as [k | ]; simpl in *;
    [ | now injection Hf as <-].
  rewrite (Hk k eq_refl). simpl.
  rewrite (Hk k eq_refl), dict_get_set_hashable by auto. simpl.
  destruct (dict_get d (VStr "data")) as [c | ]; simpl in *;
    [discriminate | now injection Hf as <-].
Qed.

(** X2. A row of a normal response that lacks "value", "itemId" or "data"
    stops the decoding: [_prepareData] raises [KeyError] for the first of
    the three that is missing, whatever rows come after, and hands back
    nothing of the rows before. *)
Theorem prepareData_normal_row_without_field
  (pre post : list value) (d : pydict) (f : string) :
  Forall valid_row pre ->
  missing_field d = Some f ->
  (forall k, dict_get d (VStr "itemId") = Some k -> hashable k = true) ->
  CJA._prepareData (VList (pre ++ VDict d :: post)) "normal" =
    Raise (KeyError (VStr f)).
Proof.
  intros Hpre Hf Hk. unfold CJA._prepareData. simpl.
  rewrite foldM_app.
  destruct (foldM_expand_valid pre Hpre []) as (acc & ->). simpl.
  now rewrite (expand_row_missing acc d f Hf Hk).
Qed.

(** A good row, then a row without "value". *)
Lemma prepareData_normal_row_without_field_witness :
  CJA._prepareData
    (VList ([mk_row "1" "home" [10]%Z] ++
            VDict [(VStr "itemId", VStr "2"); (VStr "data", VList [])] ::
            [mk_row "3" "cart" [7]%Z])) "normal" =
    Raise (KeyError (VStr "value")).
Proof.
  apply prepareData_normal_row_without_field.
  - repeat constructor; unfold valid_row; simpl; eauto.
  - reflexivity.
  - simpl. now intros k [= <-].
Defined.

(** ** A request the connector refuses *)

(** X4. [getReport] writes the settings into the caller's dictionary before
    it sends anything.  When the connector raises on the first request,
    the exception reaches the caller, one request is in the journal, and
    the dictionary keeps the settings the call forced on it: page 0 and
    the limit, the none behaviour, the repeat-instance and the
    ignore-zeroes flags of the arguments. *)
Theorem getReport_failed_request_keeps_settings {S : Type}
  (P : CJA.platform S) (fuel : nat) (a : CJA.report_args) (l : loc)
  (w : world S) (d : pydict) (doc0 : value) (e : exn) (s' : S) :
  let url := (CJA.endpoint P ++ "/reports")%string in
  let params := CJA.report_params a in
  nth_error (heap w) l = Some (VDict d) ->
  dict_has d (VStr ".json") = false ->
  settle a (VDict d) = Ok doc0 ->
  CJA.postData P (srv w) url doc0 params = (Raise e, s') ->
  CJA.getReport P fuel (CJA.ReqRef l) a w =
    Some (Raise e,
          mkWorld (heap_set (heap w) l doc0) s'
                  (calls w ++ [mkExchange (Post url doc0 params) (Raise e)]))
  /\ nth_error (heap_set (heap w) l doc0) l = Some doc0
  /\ forced_settings a doc0
  /\ page_of doc0 = Some 0%Z.
Proof.
  intros url params Hl Hjson Hset Hpost.
  assert (Hlt : l < length (heap w)) by (eapply nth_error_lt; eauto).
  assert (Hrun := apply_settings_ok a l w _ _ Hl Hset).
  destruct (apply_settings_inv a l w tt _ _ Hrun Hl)
    as (doc1 & Hdoc1 & Hforced & Hpage & _).
  simpl in Hdoc1. rewrite heap_set_same in Hdoc1 by auto.
  injection Hdoc1 as <-.
  splits; auto using heap_set_same.
  unfold CJA.getReport.
  assert (Hreq : CJA.resolve_request P (CJA.ReqRef l) w = Some (Ok l, w)).
  { simpl. unfold bindM, load. now rewrite Hl, Hjson. }
  rewrite (bindM_ok _ _ _ _ _ Hreq), (bindM_ok _ _ _ _ _ Hrun).
  unfold bindM at 1.
  rewrite (post_report_ok P a l _ doc0 (Raise e) s').
  - reflexivity.
  - simpl. now apply heap_set_same.
  - exact Hpost.
Qed.

(** The connector has nothing to answer: the caller's dictionary, which
    said page 7 and limit 5, is left on page 0 with limit 20000. *)
Lemma getReport_failed_request_keeps_settings_witness :
  exists doc0,
    CJA.getReport scripted 10 (CJA.ReqRef 0) CJA.default_args
                  world_unanswered =
      Some (Raise (ConnectorError VNone),
            mkWorld [doc0] []
              [mkExchange (Post "https://cja.adobe.io/reports" doc0
                             (CJA.report_params CJA.default_args))
                          (Raise (ConnectorError VNone))]) /\
    nth_error [doc0] 0 = Some doc0 /\
    forced_settings CJA.default_args doc0 /\
    page_of doc0 = Some 0%Z.
Proof.
  eexists.
  apply (getReport_failed_request_keeps_settings scripted 10
           CJA.default_args 0 world_unanswered
           (match doc_m1_home with VDict d => d | _ => [] end)
           _ (ConnectorError VNone) []).
  - reflexivity.
  - reflexivity.
  - vm_compute. reflexivity.
  - reflexivity.
Defined.

(** ** The filters a static report applies to its metrics *)

Lemma foldM_invariant {A B} (I : A -> Prop) (body : A -> B -> res A)
  (xs : list B) :
  (forall acc x acc', I acc -> body acc x = Ok acc' -> I acc') ->
  forall acc r, I acc -> foldM body acc xs = Ok r -> I r.
Proof.
  intros Hbody. induction xs as [ | x xs IH]; intros acc r Hacc; simpl.
  - now intros [= <-].
  - destruct (body acc x) as [acc' | e] eqn:E; simpl; try discriminate.
    apply IH. eapply Hbody; eauto.
Qed.

Lemma static_segmentApplied_keys (metricFilters : list value) (sa : pydict) :
  CJA.static_segmentApplied metricFilters = Ok sa ->
  forall k, In k (dict_keys sa) ->
    exists id, k = VStr id /\ startswith "STATIC_ROW" id = false.
Proof.
  unfold CJA.static_segmentApplied.
  apply (foldM_invariant
           (fun d => forall k, In k (dict_keys d) ->
              exists id, k = VStr id /\ startswith "STATIC_ROW" id = false));
    [ | intros k []].
  intros acc obj acc' Hacc.
  destruct (subscript obj (VStr "id")) as [id | ] eqn:Eid; simpl;
    try discriminate.
  destruct id as [ | | | ids | | ]; simpl; try discriminate.
  destruct (startswith "STATIC_ROW" ids) eqn:Est; simpl;
    [now intros [= <-] | ].
  assert (Hset : forall v k, In k (dict_keys (dict_set acc (VStr ids) v)) ->
            exists id, k = VStr id /\ startswith "STATIC_ROW" id = false).
  { intros v k Hk. apply dict_keys_set_in in Hk as [Hk | ->]; eauto. }
  destruct (subscript obj (VStr "type")) as [ty | ]; simpl; try discriminate.
  destruct (py_eqb ty (VStr "breakdown")).
  { destruct (subscript obj (VStr "dimension")) as [dim | ]; simpl;
      try discriminate.
    destruct (py_format dim); simpl; try discriminate.
    destruct (subscript obj (VStr "itemId")) as [item | ]; simpl;
      try discriminate.
    destruct (py_format item); simpl; try discriminate.
    unfold CJA.dict_store. simpl. intros [= <-]. apply Hset. }
  destruct (py_eqb ty (VStr "segment")).
  { destruct (subscript obj (VStr "segmentId")); simpl; try discriminate.
    unfold CJA.dict_store. simpl. intros [= <-]. apply Hset. }
  destruct (py_eqb ty (VStr "dateRange")).
  { destruct (subscript obj (VStr "dateRange")); simpl; try discriminate.
    unfold CJA.dict_store. simpl. intros [= <-]. apply Hset. }
  now intros [= <-].
Qed.

(** X5. The dictionary [segmentApplied] that [_decrypteStaticData] hands
    back never has an entry for a "STATIC_ROW" filter: the filters that
    select the rows of a static table are kept apart from the filters
    applied to its metrics. *)
Theorem decrypteStaticData_segmentApplied_skips_static_rows {S : Type}
  (P : CJA.platform S) (dataRequest response : value) (w w' : world S)
  (nb_columns : Z) (tableColumnIds segmentApplied filterRelations
                    dataRows : pydict) :
  CJA._decrypteStaticData P dataRequest response w =
    Some (Ok (nb_columns, tableColumnIds, segmentApplied, filterRelations,
              dataRows), w') ->
  forall k, In k (dict_keys segmentApplied) ->
    exists id, k = VStr id /\ startswith "STATIC_ROW" id = false.
Proof.
  unfold CJA._decrypteStaticData. intros H.
  apply bindM_ok_inv in H as (mc & ? & _ & H).
  apply bindM_ok_inv in H as (mfs & ? & _ & H).
  apply bindM_ok_inv in H as (mfl & ? & _ & H).
  apply bindM_ok_inv in H as (tsr & ? & _ & H).
  apply bindM_ok_inv in H as (sa & ? & Esa & H).
  apply lift_inv in Esa as (Esa & ->).
  apply bindM_ok_inv in H as (ms & ? & _ & H).
  apply bindM_ok_inv in H as (ml & ? & _ & H).
  apply bindM_ok_inv in H as (tci & ? & _ & H).
  apply bindM_ok_inv in H as (fr & ? & _ & H).
  apply bindM_ok_inv in H as (staticRows & ? & _ & H).
  apply bindM_ok_inv in H as (nb_metrics & ? & _ & H).
  apply bindM_ok_inv in H as (nbc & ? & _ & H).
  apply bindM_ok_inv in H as (names & ? & _ & H).
  apply bindM_ok_inv in H as (rows & ? & _ & H).
  injection H as _ _ <- _ _ _.
  now apply static_segmentApplied_keys with (metricFilters := mfl).
Qed.

(** Two static rows and the filter "1" on a metric: [segmentApplied] has
    the entry "1" and no other. *)
Lemma decrypteStaticData_segmentApplied_skips_static_rows_witness :
  dict_keys (snd (fst (fst static_filtered_decoded))) = [VStr "1"] /\
  forall k, In k [VStr "1"] ->
    exists id, k = VStr id /\ startswith "STATIC_ROW" id = false.
Proof.
  split; [reflexivity | ].
  apply (decrypteStaticData_segmentApplied_skips_static_rows scripted
           doc_static_filtered response_static_filtered
           world_static_filtered world_static_filtered
           (fst (fst (fst (fst static_filtered_decoded))))
           (snd (fst (fst (fst static_filtered_decoded))))
           (snd (fst (fst static_filtered_decoded)))
           (snd (fst static_filtered_decoded))
           (snd static_filtered_decoded)).
  vm_compute. reflexivity.
Defined.

(** ** Traversals that cannot succeed *)

Section Degenerate.

Context {S : Type} (P : CJA.platform S) (C : CJA.companions).

Lemma returns_never_bind {A B} (Q : B -> Prop) (m : M S A)
  (k : A -> M S B) :
  returns (fun _ => False) m -> returns Q (bindM m k).
Proof.
  intros Hm. apply returns_bind_with with (Q1 := fun _ => False); auto.
  intros a [].
Qed.

Lemma returns_never_lift {A} (e : exn) :
  returns (S := S) (A := A) (fun _ => False) (lift (Raise e)).
Proof. intros w a w'. discriminate. Qed.

Lemma py_nth_nil {A} (i : Z) : CJA.py_nth (@nil A) i = Raise IndexError.
Proof.
  assert (H : norm_index 0 i = None).
  { unfold norm_index. simpl.
    destruct (Z.leb_spec 0 i), (Z.ltb_spec i 0); simpl; auto; try lia.
    destruct (Z.leb_spec 0 (i + 0)); auto; lia. }
  unfold CJA.py_nth. simpl length. now rewrite H.
Qed.

(** With one dimension there is no next dimension under which to file the
    items, and the first level fails once its report is in. *)
Lemma first_level_alone fuel d limits limit st :
  returns (fun _ => False)
          (CJA.first_level P C fuel [d] limits d limit st).
Proof.
  unfold CJA.first_level.
  apply returns_bind; intros n_results.
  apply returns_bind; intros dataframe.
  apply returns_bind; intros items.
  apply returns_never_bind. simpl tl. rewrite py_nth_nil.
  apply returns_never_lift.
Qed.

Lemma dimension_step_alone fuel d metrics limits st :
  returns (fun _ => False)
          (CJA.dimension_step P C fuel [d] metrics limits st d).
Proof.
  unfold CJA.dimension_step.
  apply returns_bind; intros requested.
  apply returns_bind; intros count.
  apply returns_bind; intros [tpl' limit].
  apply returns_bind_with with (Q1 := fun first => first = d).
  { intros w a w' H. apply lift_inv in H as (H & _).
    now injection H as ->. }
  intros first ->. rewrite String.eqb_refl.
  apply returns_never_bind, first_level_alone.
Qed.

End Degenerate.

(** X6. A breakdown over a single dimension never returns a table: the
    items of the first level are filed under the next dimension, and there
    is none.  Whatever the service answers, [getMultidimensionalReport]
    called with a list of one dimension ends in an exception. *)
Theorem getMultidimensionalReport_single_dimension_fails {S : Type}
  (P : CJA.platform S) (C : CJA.companions) (fuel : nat)
  (a : CJA.multi_args) (d : string) (w : world S)
  (r : res CJA.multi_workspace) (w' : world S) :
  CJA.md_dimensions a = Some [d] ->
  CJA.getMultidimensionalReport P C fuel a w = Some (r, w') ->
  exists e, r = Raise e.
Proof.
  intros Hd Hrun. destruct r as [ws | e]; [exfalso | eauto].
  revert Hrun. unfold CJA.getMultidimensionalReport. rewrite Hd.
  destruct (CJA.md_dimensionLimit a) as [limits | ]; try discriminate.
  destruct (CJA.md_metrics a) as [metrics | ]; try discriminate.
  destruct (CJA.md_dataViewId a) as [dv | ]; try discriminate.
  destruct (CJA.md_globalFilters a) as [gf | ]; try discriminate.
  intros Hrun.
  eapply (returns_never_bind (S := S) (fun _ => False)); [ | exact Hrun].
  simpl forM. apply returns_never_bind, dimension_step_alone.
Qed.

(** The breakdown of "page" alone: the report of the pages is fetched, one
    request, and the call ends in [IndexError]. *)
Lemma getMultidimensionalReport_single_dimension_fails_witness :
  result_page_only = Raise IndexError /\
  length (calls world_after_page_only) = 1 /\
  exists e, result_page_only = Raise e.
Proof.
  splits; try reflexivity.
  apply (getMultidimensionalReport_single_dimension_fails scripted
           concrete_companions 5 args_page_only "page" world_page_device
           result_page_only world_after_page_only).
  - reflexivity.
  - vm_compute. reflexivity.
Defined.

(** X7. Two traversals end before anything is sent: an empty list of
    dimensions raises [UnboundLocalError] (the table is only bound inside
    the loop over the dimensions), and a first dimension that has no entry
    in [dimensionLimit] raises [KeyError] with its name. *)
Theorem getMultidimensionalReport_cannot_start {S : Type}
  (P : CJA.platform S) (C : CJA.companions) (fuel : nat)
  (a : CJA.multi_args) (dimensions : list string)
  (limits : list (string * value)) (metrics gf : list string)
  (dv : string) (w : world S) :
  CJA.md_dimensions a = Some dimensions ->
  CJA.md_dimensionLimit a = Some limits ->
  CJA.md_metrics a = Some metrics ->
  CJA.md_dataViewId a = Some dv ->
  CJA.md_globalFilters a = Some gf ->
  match dimensions with
  | [] => True
  | d :: _ => CJA.sdict_get limits d = None
  end ->
  CJA.getMultidimensionalReport P C fuel a w =
    Some (Raise (match dimensions with
                 | [] => UnboundLocalError "df_final"
                 | d :: _ => KeyError (VStr d)
                 end), w).
Proof.
  intros Hd Hl Hm Hdv Hgf Hstart.
  unfold CJA.getMultidimensionalReport. rewrite Hd, Hl, Hm, Hdv, Hgf.
  destruct dimensions as [ | d rest]; [reflexivity | ].
  simpl forM. unfold CJA.dimension_step. now rewrite Hstart.
Qed.

Lemma getMultidimensionalReport_cannot_start_witness :
  CJA.getMultidimensionalReport scripted concrete_companions 5
    args_no_dimension world_page_device =
    Some (Raise (UnboundLocalError "df_final"), world_page_device) /\
  CJA.getMultidimensionalReport scripted concrete_companions 5
    args_unlimited_device world_page_device =
    Some (Raise (KeyError (VStr "device")), world_page_device).
Proof.
  split.
  - apply (getMultidimensionalReport_cannot_start scripted
             concrete_companions 5 args_no_dimension []
             [("page", VInt 2)] ["visits"] [] "dv1" world_page_device);
      reflexivity.
  - apply (getMultidimensionalReport_cannot_start scripted
             concrete_companions 5 args_unlimited_device ["device"; "page"]
             [("page", VInt 2)] ["visits"] [] "dv1" world_page_device);
      reflexivity.
Defined.

(** * Properties of the component endpoints *)

(** ** Listings that come in pages *)

Section Listings.

Context {S : Type} (P : CJA.platform S).

Lemma page_queries_set key params v i n :
  page_queries key (dict_set params (VStr key) v) i n =
  page_queries key params i n.
Proof.
  revert i. induction n as [ | n IH]; intros i; simpl; auto.
  unfold page_query. now rewrite dict_set_set, IH.
Qed.

Lemma next_page_ok key params i :
  dict_get params (VStr key) = Some (VInt i) ->
  Endpoints.next_page key params =
  Ok (dict_set params (VStr key) (VInt (i + 1))).
Proof.
  unfold Endpoints.next_page, CJA.dict_lookup. simpl. now intros ->.
Qed.

Lemma getData_ok url q (w : world S) r s1 :
  CJA.getData P (srv w) url q = (r, s1) ->
  CJA.connector_getData P url q w =
  Some (r, mkWorld (heap w) s1 (calls w ++ [mkExchange (Get url q) r])).
Proof. unfold CJA.connector_getData. now intros ->. Qed.

Lemma listing_page_reads flag p :
  listing_page p ->
  subscript p (VStr "content") = Ok (VList (page_content p)) /\
  py_get p (VStr flag) (VBool true) = Ok (flag_of flag p).
Proof.
  intros (d & items & -> & Hc). simpl. rewrite Hc. split; reflexivity.
Qed.

Lemma world_eta (w : world S) :
  mkWorld (heap w) (srv w) (calls w ++ []) = w.
Proof. destruct w. simpl. now rewrite app_nil_r. Qed.

Lemma last_cons {A} (ps : list A) :
  forall p d, List.last (p :: ps) d = List.last ps p.
Proof.
  induction ps as [ | q ps IH]; intros p d; auto.
  change (List.last (q :: ps) d = List.last (q :: ps) p).
  now rewrite !IH.
Qed.

Lemma more_pages_run url flag go_on :
  forall others fuel params res items last i (w : world S) s',
    dict_get params (VStr "page") = Some (VInt i) ->
    Forall listing_page others ->
    get_answers P (srv w) url
      (page_queries "page" params (i + 1) (length others)) =
      (map Ok others, s') ->
    goes_through go_on flag last others = true ->
    length others <= fuel ->
    Endpoints.more_pages P fuel url flag go_on params res (VList items)
                         last w =
    Some (Ok (List.last others res,
              VList (items ++ concat (map page_content others))),
          mkWorld (heap w) s'
            (calls w ++
             get_log url (page_queries "page" params (i + 1) (length others))
                     (map Ok others))).
Proof.
  induction others as [ | p ps IH];
    intros fuel params res items last i w s' Hpage Hv Hans Hgo Hfuel.
  - simpl in *. injection Hans as <-.
    apply negb_true_iff in Hgo.
    rewrite app_nil_r, world_eta.
    destruct fuel; simpl; now rewrite Hgo.
  - simpl in Hgo. apply andb_true_iff in Hgo as (Hgo & Hrest).
    destruct fuel as [ | fuel]; [simpl in Hfuel; lia | ].
    inversion Hv as [ | ? ? Hp Hps]; subst.
    destruct (listing_page_reads flag p Hp) as (Hc & Hf).
    simpl length in *. simpl page_queries in *. simpl get_answers in Hans.
    set (q := page_query "page" params (i + 1)) in *.
    destruct (CJA.getData P (srv w) url q) as [r s1] eqn:Hget.
    destruct (get_answers P s1 url
                (page_queries "page" params (i + 1 + 1) (length ps)))
      as [rs s2] eqn:Hrs.
    simpl in Hans. injection Hans as -> Hrs' ->.
    cbn [Endpoints.more_pages]. rewrite Hgo.
    rewrite (bindM_lift_ok _ _ _ _ (next_page_ok "page" params i Hpage)).
    fold q. rewrite (bindM_ok _ _ _ _ _ (getData_ok url q w _ _ Hget)).
    rewrite (bindM_lift_ok _ _ _ _ Hc).
    rewrite (bindM_lift_ok _ (VList (items ++ page_content p)) _ _ eq_refl).
    rewrite (bindM_lift_ok _ _ _ _ Hf).
    rewrite (IH fuel _ p (items ++ page_content p) (flag_of flag p)
                (i + 1)%Z _ s').
    + rewrite last_cons. simpl.
      now rewrite page_queries_set, <- !app_assoc.
    + apply dict_get_set_same.
    + exact Hps.
    + simpl. now rewrite page_queries_set, Hrs, Hrs'.
    + exact Hrest.
    + simpl in Hfuel. lia.
Qed.

End Listings.

Section ListingRuns.

Context {S : Type} (P : CJA.platform S).

Lemma dict_get_when b k v p k' :
  k <> k' ->
  dict_get (Endpoints.when b k v p) (VStr k') = dict_get p (VStr k').
Proof.
  intros Hk. unfold Endpoints.when. destruct b; auto.
  now apply dict_get_set_other.
Qed.

Lemma dict_get_given k v p k' :
  k <> k' ->
  dict_get (Endpoints.given k v p) (VStr k') = dict_get p (VStr k').
Proof.
  intros Hk. unfold Endpoints.given. destruct (Endpoints.is_none v); auto.
  now apply dict_get_set_other.
Qed.

Lemma page_query_same key params i :
  dict_get params (VStr key) = Some (VInt i) ->
  page_query key params i = VDict params.
Proof. intros H. unfold page_query. now rewrite dict_set_id. Qed.

(** The first request of a listing and the loop after it. *)
Lemma listing_run url flag go_on params first others fuel (w : world S) s' :
  let queries := page_queries "page" params 0 (Datatypes.S (length others)) in
  dict_get params (VStr "page") = Some (VInt 0) ->
  Forall listing_page (first :: others) ->
  get_answers P (srv w) url queries = (map Ok (first :: others), s') ->
  goes_through go_on flag (flag_of flag first) others = true ->
  length others <= fuel ->
  exists w1,
    CJA.connector_getData P url (VDict params) w = Some (Ok first, w1) /\
    subscript first (VStr "content") = Ok (VList (page_content first)) /\
    py_get first (VStr flag) (VBool true) = Ok (flag_of flag first) /\
    Endpoints.more_pages P fuel url flag go_on params first
      (VList (page_content first)) (flag_of flag first) w1 =
    Some (Ok (List.last others first,
              VList (concat (map page_content (first :: others)))),
          mkWorld (heap w) s'
            (calls w ++ get_log url queries (map Ok (first :: others)))).
Proof.
  intros queries Hpage Hv Hans Hgo Hfuel.
  inversion Hv as [ | ? ? Hfirst Hothers]; subst.
  destruct (listing_page_reads flag first Hfirst) as (Hc & Hf).
  unfold queries in *. simpl page_queries in *. simpl get_answers in Hans.
  rewrite (page_query_same _ _ _ Hpage) in *.
  destruct (CJA.getData P (srv w) url (VDict params)) as [r s1] eqn:Hget.
  change 1%Z with (0 + 1)%Z in *.
  destruct (get_answers P s1 url (page_queries "page" params (0 + 1)
                                                (length others)))
    as [rs s2] eqn:Hrs.
  simpl in Hans. injection Hans as -> -> ->.
  eexists. splits; [exact (getData_ok P url _ w _ _ Hget) | exact Hc
                   | exact Hf | ].
  rewrite (more_pages_run P url flag go_on others fuel params first
             (page_content first) (flag_of flag first) 0%Z _ s');
    auto.
  simpl. now rewrite <- app_assoc.
Qed.

End ListingRuns.

(** X8. [getDataViews] asks for page 0 and then, as long as the answer
    carries a "last" that is not [True], for the next page with an
    otherwise unchanged query.  When the service answers with the pages
    [first :: others] and only the last of them says "last" (or says
    nothing), the call returns the records of all the pages in order, as a
    data frame or as a list, after exactly one request per page. *)
Theorem getDataViews_pagination {S : Type} (P : CJA.platform S)
  (fuel : nat) (limit : value) (full : bool) (output : string)
  (parentDataGroupId externalIds externalParentIds includeType : value)
  (cached : bool) (w : world S) (first : value) (others : list value)
  (s' : S) :
  let url := (CJA.endpoint P ++ "/datagroups/dataviews")%string in
  let params :=
    Endpoints.dataViews_params limit full parentDataGroupId externalIds
                               externalParentIds includeType cached in
  let queries := page_queries "page" params 0 (Datatypes.S (length others)) in
  let data := VList (concat (map page_content (first :: others))) in
  Forall listing_page (first :: others) ->
  get_answers P (srv w) url queries = (map Ok (first :: others), s') ->
  goes_through Endpoints.not_true "last" (flag_of "last" first) others
    = true ->
  length others <= fuel ->
  Endpoints.getDataViews P fuel limit full output parentDataGroupId
    externalIds externalParentIds includeType cached w =
    Some (Ok (as_output "df" output data data),
          mkWorld (heap w) s'
            (calls w ++ get_log url queries (map Ok (first :: others))))
  /\ hd_error queries = Some (VDict params).
Proof.
  intros url params queries data Hv Hans Hgo Hfuel.
  assert (Hpage : dict_get params (VStr "page") = Some (VInt 0)).
  { unfold params, Endpoints.dataViews_params.
    now rewrite !dict_get_when by discriminate. }
  split; [ | simpl; now rewrite (page_query_same _ _ _ Hpage)].
  destruct (listing_run P url "last" Endpoints.not_true params first others
              fuel w s' Hpage Hv Hans Hgo Hfuel)
    as (w1 & Hget & Hc & Hf & Hloop).
  unfold Endpoints.getDataViews. fold params url.
  rewrite (bindM_ok _ _ _ _ _ Hget).
  rewrite (bindM_lift_ok _ _ _ _ Hc), (bindM_lift_ok _ _ _ _ Hf).
  rewrite (bindM_ok _ _ _ _ _ Hloop).
  unfold as_output. now destruct (String.eqb output "df").
Qed.

(** Three pages, the third one without a "last": three requests for the
    pages 0, 1 and 2, and the three records. *)
Lemma getDataViews_pagination_witness :
  Endpoints.getDataViews paged 5 (VInt 100) false "raw" VNone VNone VNone
    (VStr "all") true (world_paged pages_last) =
    Some (Ok (Endpoints.Json (VList [VStr "a"; VStr "b"; VStr "c"])),
          mkWorld [] []
            (get_log "https://cja.adobe.io/datagroups/dataviews"
               (page_queries "page"
                  (Endpoints.dataViews_params (VInt 100) false VNone VNone
                     VNone (VStr "all") true) 0 3)
               (map Ok pages_last)))
  /\ hd_error
       (page_queries "page"
          (Endpoints.dataViews_params (VInt 100) false VNone VNone VNone
             (VStr "all") true) 0 3) =
     Some (VDict (Endpoints.dataViews_params (VInt 100) false VNone VNone
                    VNone (VStr "all") true)).
Proof.
  apply (getDataViews_pagination paged 5 (VInt 100) false "raw" VNone VNone
           VNone (VStr "all") true (world_paged pages_last)
           (mk_listing "last" (Some (VBool false)) [VStr "a"])
           (tl pages_last) []).
  - repeat constructor; eexists _, _; split; reflexivity.
  - reflexivity.
  - reflexivity.
  - simpl. lia.
Defined.

(** X9. [getCalculatedMetrics] pages like [getDataViews], on the flag
    "lastPage".  With [output = "df"] it returns the records of all the
    pages; with any other [output] it returns the response it received
    last, so that after more than one page the records of the earlier
    pages are not in the result. *)
Theorem getCalculatedMetrics_pagination {S : Type} (P : CJA.platform S)
  (fuel : nat) (full : bool)
  (inclType dataIds ownerId limit filterByIds : value)
  (favorite approved : bool) (output : string) (w : world S)
  (first : value) (others : list value) (s' : S) :
  let url := (CJA.endpoint P ++ "/calculatedmetrics")%string in
  let params :=
    Endpoints.calculatedMetrics_params full inclType dataIds ownerId limit
                                       filterByIds favorite approved in
  let queries := page_queries "page" params 0 (Datatypes.S (length others)) in
  let data := VList (concat (map page_content (first :: others))) in
  Forall listing_page (first :: others) ->
  get_answers P (srv w) url queries = (map Ok (first :: others), s') ->
  goes_through Endpoints.not_true "lastPage" (flag_of "lastPage" first)
               others = true ->
  length others <= fuel ->
  Endpoints.getCalculatedMetrics P fuel full inclType dataIds ownerId limit
    filterByIds favorite approved output w =
    Some (Ok (as_output "df" output data (List.last others first)),
          mkWorld (heap w) s'
            (calls w ++ get_log url queries (map Ok (first :: others))))
  /\ hd_error queries = Some (VDict params).
Proof.
  intros url params queries data Hv Hans Hgo Hfuel.
  assert (Hpage : dict_get params (VStr "page") = Some (VInt 0)).
  { unfold params, Endpoints.calculatedMetrics_params.
    now rewrite !dict_get_when, !dict_get_given, !dict_get_when
      by discriminate. }
  split; [ | simpl; now rewrite (page_query_same _ _ _ Hpage)].
  destruct (listing_run P url "lastPage" Endpoints.not_true params first
              others fuel w s' Hpage Hv Hans Hgo Hfuel)
    as (w1 & Hget & Hc & Hf & Hloop).
  unfold Endpoints.getCalculatedMetrics. fold params url.
  rewrite (bindM_ok _ _ _ _ _ Hget).
  rewrite (bindM_lift_ok _ _ _ _ Hc), (bindM_lift_ok _ _ _ _ Hf).
  rewrite (bindM_ok _ _ _ _ _ Hloop).
  unfold as_output. now destruct (String.eqb output "df").
Qed.

(** Three pages asked for as "raw": the result is the third page, which
    holds the record "c" only. *)
Lemma getCalculatedMetrics_pagination_witness :
  Endpoints.getCalculatedMetrics paged 5 false (VStr "all") VNone VNone
    (VInt 100) VNone false false "raw" (world_paged pages_lastPage) =
    Some (Ok (Endpoints.Json
                (mk_listing "lastPage" (Some (VBool true)) [VStr "c"])),
          mkWorld [] []
            (get_log "https://cja.adobe.io/calculatedmetrics"
               (page_queries "page"
                  (Endpoints.calculatedMetrics_params false (VStr "all")
                     VNone VNone (VInt 100) VNone false false) 0 3)
               (map Ok pages_lastPage)))
  /\ hd_error
       (page_queries "page"
          (Endpoints.calculatedMetrics_params false (VStr "all") VNone
             VNone (VInt 100) VNone false false) 0 3) =
     Some (VDict (Endpoints.calculatedMetrics_params false (VStr "all")
                    VNone VNone (VInt 100) VNone false false)).
Proof.
  apply (getCalculatedMetrics_pagination paged 5 false (VStr "all") VNone
           VNone (VInt 100) VNone false false "raw"
           (world_paged pages_lastPage)
           (mk_listing "lastPage" (Some (VBool false)) [VStr "a"])
           (tl pages_lastPage) []).
  - repeat constructor; eexists _, _; split; reflexivity.
  - reflexivity.
  - reflexivity.
  - simpl. lia.
Defined.

(** X10. [getFilters] goes on only while "lastPage" equals [False]: a page
    whose "lastPage" is [True], is missing or is anything else (a JSON
    [null], say) ends the listing.  It returns the records of the pages
    it has asked for, in order, after one request per page. *)
Theorem getFilters_pagination {S : Type} (P : CJA.platform S)
  (fuel : nat) (limit : value) (full : bool) (output : string)
  (includeType name dataIds ownerId filterByIds : value) (cached : bool)
  (w : world S) (first : value) (others : list value) (s' : S) :
  let url := (CJA.endpoint P ++ "/filters")%string in
  let params :=
    Endpoints.filters_params limit full includeType name dataIds ownerId
                             filterByIds cached in
  let queries := page_queries "page" params 0 (Datatypes.S (length others)) in
  let data := VList (concat (map page_content (first :: others))) in
  Forall listing_page (first :: others) ->
  get_answers P (srv w) url queries = (map Ok (first :: others), s') ->
  goes_through Endpoints.is_false "lastPage" (flag_of "lastPage" first)
               others = true ->
  length others <= fuel ->
  Endpoints.getFilters P fuel limit full output includeType name dataIds
    ownerId filterByIds cached w =
    Some (Ok (as_output "df" output data data),
          mkWorld (heap w) s'
            (calls w ++ get_log url queries (map Ok (first :: others))))
  /\ hd_error queries = Some (VDict params).
Proof.
  intros url params queries data Hv Hans Hgo Hfuel.
  assert (Hpage : dict_get params (VStr "page") = Some (VInt 0)).
  { unfold params, Endpoints.filters_params.
    now rewrite !dict_get_given, !dict_get_when by discriminate. }
  split; [ | simpl; now rewrite (page_query_same _ _ _ Hpage)].
  destruct (listing_run P url "lastPage" Endpoints.is_false params first
              others fuel w s' Hpage Hv Hans Hgo Hfuel)
    as (w1 & Hget & Hc & Hf & Hloop).
  unfold Endpoints.getFilters. fold params url.
  rewrite (bindM_ok _ _ _ _ _ Hget).
  rewrite (bindM_lift_ok _ _ _ _ Hf), (bindM_lift_ok _ _ _ _ Hc).
  rewrite (bindM_ok _ _ _ _ _ Hloop).
  unfold as_output. now destruct (String.eqb output "df").
Qed.

(** The second of three pages answers [null] for "lastPage": the listing
    ends there, after two requests, and the third page is never asked
    for. *)
Lemma getFilters_pagination_witness :
  Endpoints.getFilters paged 5 (VInt 100) false "raw" (VStr "all") VNone
    VNone VNone VNone true (world_paged pages_null_flag) =
    Some (Ok (Endpoints.Json (VList [VStr "a"; VStr "b"])),
          mkWorld [] [mk_listing "lastPage" (Some (VBool true)) [VStr "c"]]
            (get_log "https://cja.adobe.io/filters"
               (page_queries "page"
                  (Endpoints.filters_params (VInt 100) false (VStr "all")
                     VNone VNone VNone VNone true) 0 2)
               (map Ok (firstn 2 pages_null_flag))))
  /\ hd_error
       (page_queries "page"
          (Endpoints.filters_params (VInt 100) false (VStr "all") VNone
             VNone VNone VNone true) 0 2) =
     Some (VDict (Endpoints.filters_params (VInt 100) false (VStr "all")
                    VNone VNone VNone VNone true)).
Proof.
  apply (getFilters_pagination paged 5 (VInt 100) false "raw" (VStr "all")
           VNone VNone VNone VNone true (world_paged pages_null_flag)
           (mk_listing "lastPage" (Some (VBool false)) [VStr "a"])
           [mk_listing "lastPage" (Some VNone) [VStr "b"]]
           [mk_listing "lastPage" (Some (VBool true)) [VStr "c"]]).
  - repeat constructor; eexists _, _; split; reflexivity.
  - reflexivity.
  - reflexivity.
  - simpl. lia.
Defined.

(** ** The audit log *)

Section AuditLog.

Context {S : Type} (P : CJA.platform S).

Lemma audit_page_reads p :
  audit_page p ->
  py_get p (VStr "content") (VList []) = Ok (VList (page_content p)) /\
  py_get p (VStr "last") (VBool true) = Ok (flag_of "last" p).
Proof.
  intros (d & -> & [Hc | (items & Hc)]); simpl; rewrite Hc; split;
    reflexivity.
Qed.

Lemma page_queries_S key params i n :
  page_queries key params i (Datatypes.S n) =
  page_query key params i :: page_queries key params (i + 1) n.
Proof. reflexivity. Qed.

Lemma get_answers_cons (s : S) url q qs :
  get_answers P s url (q :: qs) =
  let (r, s1) := CJA.getData P s url q in
  let (rs, s2) := get_answers P s1 url qs in
  (r :: rs, s2).
Proof. reflexivity. Qed.

Lemma auditLogs_pages_run url n_results cap :
  py_float n_results = Ok cap ->
  forall others p fuel params data lastPage i (w : world S) s',
    Endpoints.not_true lastPage = true ->
    dict_get params (VStr "pageNumber") = Some (VInt i) ->
    Forall audit_page (p :: others) ->
    get_answers P (srv w) url
      (page_queries "pageNumber" params i (Datatypes.S (length others))) =
      (map Ok (p :: others), s') ->
    audit_goes_through cap (length data) (p :: others) = true ->
    length others < fuel ->
    Endpoints.auditLogs_pages P fuel url n_results params data lastPage w =
    Some (Ok (data ++ concat (map page_content (p :: others))),
          mkWorld (heap w) s'
            (calls w ++
             get_log url
               (page_queries "pageNumber" params i
                             (Datatypes.S (length others)))
               (map Ok (p :: others)))).
Proof.
  intros Hcap.
  induction others as [ | p2 ps IH];
    intros p fuel params data lastPage i w s' Hlast Hpage Hv Hans Hgo Hfuel;
    (destruct fuel as [ | fuel]; [simpl in Hfuel; lia | ]);
    inversion Hv as [ | ? ? Hp Hps]; subst;
    destruct (audit_page_reads p Hp) as (Hc & Hf);
    rewrite page_queries_S in Hans |- *;
    rewrite get_answers_cons in Hans;
    rewrite (page_query_same _ _ _ Hpage) in Hans |- *;
    destruct (CJA.getData P (srv w) url (VDict params)) as [r s1] eqn:Hget;
    match type of Hans with
    | (let (_, _) := ?g in _) = _ => destruct g as [rs s2] eqn:Hrs
    end;
    injection Hans as -> Hrs' ->;
    cbn [Endpoints.auditLogs_pages]; rewrite Hlast;
    rewrite (bindM_ok _ _ _ _ _ (getData_ok P url _ w _ _ Hget));
    rewrite (bindM_lift_ok _ _ _ _ Hc);
    rewrite (bindM_lift_ok _ (page_content p) _ _ eq_refl);
    rewrite (bindM_lift_ok _ _ _ _ Hf), (bindM_lift_ok _ _ _ _ Hcap);
    rewrite (bindM_lift_ok _ _ _ _
               (next_page_ok "pageNumber" params i Hpage));
    cbn [audit_goes_through] in Hgo; rewrite <- length_app in Hgo.
  - simpl in Hrs. injection Hrs as <- <-.
    assert (Hstop : Endpoints.not_true
              (if Endpoints.len_exceeds (length (data ++ page_content p)) cap
               then VBool true else flag_of "last" p) = false).
    { destruct (Endpoints.len_exceeds _ cap); [reflexivity | ].
      simpl in Hgo. now apply negb_true_iff in Hgo. }
    simpl concat. rewrite app_nil_r.
    destruct fuel; simpl; now rewrite Hstop.
  - apply andb_true_iff in Hgo as (Hstop & Hrest).
    apply negb_true_iff, orb_false_iff in Hstop as (Hlen & Hflag).
    apply negb_false_iff in Hflag. rewrite Hlen.
    rewrite (IH p2 fuel _ (data ++ page_content p) (flag_of "last" p)
                (i + 1)%Z _ s').
    + simpl concat. simpl map. unfold get_log. simpl combine. simpl map.
      rewrite page_queries_set, <- !app_assoc. unfold page_query.
      rewrite dict_set_set. simpl. now rewrite <- app_assoc.
    + exact Hflag.
    + apply dict_get_set_same.
    + exact Hps.
    + simpl srv. rewrite page_queries_set.
      change (Datatypes.S (length ps)) with (length (p2 :: ps)).
      now rewrite Hrs, Hrs'.
    + exact Hrest.
    + simpl in Hfuel. lia.
Qed.

Lemma auditLogs_params_page a params :
  Endpoints.auditLogs_params a = Ok params ->
  dict_get params (VStr "pageNumber") = Some (VInt 0).
Proof.
  unfold Endpoints.auditLogs_params.
  match goal with
  | |- bind ?m _ = _ -> _ => destruct m; simpl; [ | discriminate]
  end.
  intros [= <-]. rewrite !dict_get_given by discriminate.
  destruct (negb (Endpoints.is_none (Endpoints.al_startDate a))
            && negb (Endpoints.is_none (Endpoints.al_endDate a)));
    reflexivity.
Qed.

End AuditLog.

(** X11. [getAuditLogs] sends at least one request and goes on, page after
    page, until a page says "last" (or says nothing) or until the records
    in hand are more than [n_results]; reaching [n_results] exactly is not
    enough to stop.  It returns the data frame of the records of all the
    pages it has asked for, in order, whatever [output] is. *)
Theorem getAuditLogs_pagination {S : Type} (P : CJA.platform S)
  (fuel : nat) (a : Endpoints.auditLogs_args) (w : world S)
  (params : pydict) (cap : extnum) (first : value) (others : list value)
  (s' : S) :
  let url := (CJA.endpoint P ++ "/auditlogs/api/v1/auditlogs")%string in
  let queries :=
    page_queries "pageNumber" params 0 (Datatypes.S (length others)) in
  Endpoints.auditLogs_params a = Ok params ->
  py_float (Endpoints.al_n_results a) = Ok cap ->
  Forall audit_page (first :: others) ->
  get_answers P (srv w) url queries = (map Ok (first :: others), s') ->
  audit_goes_through cap 0 (first :: others) = true ->
  length others < fuel ->
  Endpoints.getAuditLogs P fuel a w =
    Some (Ok (Endpoints.DataFrame
                (VList (concat (map page_content (first :: others))))),
          mkWorld (heap w) s'
            (calls w ++ get_log url queries (map Ok (first :: others))))
  /\ hd_error queries = Some (VDict params).
Proof.
  intros url queries Hparams Hcap Hv Hans Hgo Hfuel.
  assert (Hpage := auditLogs_params_page a params Hparams).
  split; [ | simpl; now rewrite (page_query_same _ _ _ Hpage)].
  unfold Endpoints.getAuditLogs.
  rewrite (bindM_lift_ok _ _ _ _ Hparams).
  rewrite (bindM_ok _ _ _ _ _
             (auditLogs_pages_run P url _ cap Hcap others first fuel params
                [] (VBool false) 0%Z w s' eq_refl Hpage Hv Hans Hgo Hfuel)).
  reflexivity.
Qed.

(** [n_results = 2] and pages of two records: after the first page the
    two records in hand are not more than two, a second page is fetched
    and four records come back. *)
Lemma getAuditLogs_pagination_witness :
  Endpoints.getAuditLogs paged 5 args_audit_two (world_paged pages_audit) =
    Some (Ok (Endpoints.DataFrame
                (VList [VStr "a"; VStr "b"; VStr "c"; VStr "d"])),
          mkWorld []
            [mk_listing "last" (Some (VBool false)) [VStr "e"; VStr "f"]]
            (get_log "https://cja.adobe.io/auditlogs/api/v1/auditlogs"
               (page_queries "pageNumber"
                  [(VStr "pageNumber", VInt 0); (VStr "pageSize", VInt 2)]
                  0 2)
               (map Ok (firstn 2 pages_audit))))
  /\ hd_error
       (page_queries "pageNumber"
          [(VStr "pageNumber", VInt 0); (VStr "pageSize", VInt 2)] 0 2) =
     Some (VDict [(VStr "pageNumber", VInt 0); (VStr "pageSize", VInt 2)]).
Proof.
  apply (getAuditLogs_pagination paged 5 args_audit_two
           (world_paged pages_audit)
           [(VStr "pageNumber", VInt 0); (VStr "pageSize", VInt 2)]
           (Fin 2)
           (mk_listing "last" (Some (VBool false)) [VStr "a"; VStr "b"])
           [mk_listing "last" (Some (VBool false)) [VStr "c"; VStr "d"]]
           [mk_listing "last" (Some (VBool false)) [VStr "e"; VStr "f"]]).
  - reflexivity.
  - reflexivity.
  - repeat constructor; eexists; split; try reflexivity; right;
      eexists; reflexivity.
  - reflexivity.
  - reflexivity.
  - simpl. lia.
Defined.

(** X12. A call of [getAuditLogs] that names a [userType] never reaches the
    service: the line meant to add the user type to the query reads the
    query instead, and the query has no such entry.  The call raises
    [KeyError] for "userType" and nothing is sent. *)
Theorem getAuditLogs_userType_raises {S : Type} (P : CJA.platform S)
  (fuel : nat) (a : Endpoints.auditLogs_args) (w : world S) :
  Endpoints.al_userType a <> VNone ->
  Endpoints.getAuditLogs P fuel a w =
    Some (Raise (KeyError (VStr "userType")), w).
Proof.
  intros Hu. unfold Endpoints.getAuditLogs, Endpoints.auditLogs_params.
  assert (Hgiven : negb (Endpoints.is_none (Endpoints.al_userType a)) = true).
  { destruct (Endpoints.al_userType a); try reflexivity. now elim Hu. }
  rewrite Hgiven. unfold CJA.dict_lookup, subscript. simpl hashable.
  cbv iota. rewrite !dict_get_given by discriminate.
  destruct (negb (Endpoints.is_none (Endpoints.al_startDate a))
            && negb (Endpoints.is_none (Endpoints.al_endDate a)));
    reflexivity.
Qed.

Lemma getAuditLogs_userType_raises_witness :
  Endpoints.getAuditLogs paged 5 args_audit_userType
                         (world_paged pages_audit) =
    Some (Raise (KeyError (VStr "userType")), world_paged pages_audit).
Proof.
  apply (getAuditLogs_userType_raises paged 5 args_audit_userType
           (world_paged pages_audit)).
  discriminate.
Defined.

(** ** What the endpoints accept *)

(** X13. A calculated metric is defined by a dictionary, and
    [createCalculatedMetric] posts it; [validateCalculatedMetric] and
    [updateCalculatedMetrics] refuse the same dictionary with a
    [ValueError] and send nothing: their check reads "is a dictionary"
    where it means "is not". *)
Theorem calculatedMetric_dictionary_is_refused {S : Type}
  (P : CJA.platform S) (X : Endpoints.extension S) (d : pydict)
  (calcId : string) (w : world S) :
  Endpoints.createCalculatedMetric P (VDict d) w =
    CJA.connector_postData P (CJA.endpoint P ++ "/calculatedmetrics")%string
                           (VDict d) VNone w /\
  Endpoints.validateCalculatedMetric P (VDict d) w =
    Some (Raise (ValueError
                   "Require a dictionary to create the calculated metrics"),
          w) /\
  Endpoints.updateCalculatedMetrics P X (VStr calcId) (VDict d) w =
    Some (Raise (ValueError
                   "Require a dictionary to create the calculated metrics"),
          w).
Proof. splits; reflexivity. Qed.

(** X14. [createTags] refuses [None] only: a value that is not a list is
    posted as it is, where [updateTags] refuses it with a [ValueError]. *)
Theorem createTags_takes_what_updateTags_refuses {S : Type}
  (P : CJA.platform S) (X : Endpoints.extension S) (data : value)
  (w : world S) :
  data <> VNone ->
  Endpoints.is_list data = false ->
  Endpoints.createTags P data w =
    CJA.connector_postData P
      (CJA.endpoint P ++ "/componentmetadata/tags")%string data VNone w /\
  Endpoints.updateTags P X data w =
    Some (Raise (ValueError "Require a list of elements to update"), w).
Proof.
  intros Hn Hl. unfold Endpoints.createTags, Endpoints.updateTags.
  rewrite Hl. destruct data; try (now elim Hn); split; reflexivity.
Qed.

Lemma createTags_takes_what_updateTags_refuses_witness :
  Endpoints.createTags with_files (VStr "tag") world_empty =
    CJA.connector_postData with_files
      "https://cja.adobe.io/componentmetadata/tags" (VStr "tag") VNone
      world_empty /\
  Endpoints.updateTags with_files plain_extension (VStr "tag") world_empty =
    Some (Raise (ValueError "Require a list of elements to update"),
          world_empty).
Proof.
  apply (createTags_takes_what_updateTags_refuses with_files
           plain_extension (VStr "tag") world_empty).
  - discriminate.
  - reflexivity.
Defined.

Lemma component_types_contains (v : value) :
  list_contains Endpoints.component_types v = true <->
  In v Endpoints.component_types.
Proof.
  unfold list_contains, Endpoints.component_types. split.
  - intros H. apply existsb_exists in H as (x & Hx & Heq).
    simpl in Hx.
    repeat (destruct Hx as [<- | Hx];
            [apply py_eqb_str_l in Heq; subst; simpl; tauto | ]).
    contradiction.
  - intros H. apply existsb_exists. exists v. split; auto.
    simpl in H.
    repeat (destruct H as [<- | H]; [reflexivity | ]). contradiction.
Qed.

(** X15. [getComponentTags] accepts the thirteen component types of its
    documentation and no other: with one of them it sends the component id
    and the type as the query of one GET; with anything else it raises
    [KeyError] and sends nothing. *)
Theorem getComponentTags_component_types {S : Type} (P : CJA.platform S)
  (componentId componentType : value) (w : world S) :
  componentId <> VNone ->
  componentType <> VNone ->
  (In componentType Endpoints.component_types ->
   Endpoints.getComponentTags P componentId componentType w =
     CJA.connector_getData P
       (CJA.endpoint P ++ "/componentmetadata/tags/search")%string
       (VDict [(VStr "componentId", componentId);
               (VStr "componentType", componentType)]) w) /\
  (~ In componentType Endpoints.component_types ->
   Endpoints.getComponentTags P componentId componentType w =
     Some (Raise (KeyError (VStr "componentType not in the enum")), w)).
Proof.
  intros Hid Hty. unfold Endpoints.getComponentTags.
  assert (H1 : Endpoints.is_none componentId = false)
    by (destruct componentId; try reflexivity; now elim Hid).
  assert (H2 : Endpoints.is_none componentType = false)
    by (destruct componentType; try reflexivity; now elim Hty).
  rewrite H1, H2. split; intros Hin.
  - apply component_types_contains in Hin. now rewrite Hin.
  - destruct (list_contains Endpoints.component_types componentType) eqn:E;
      [ | reflexivity].
    apply component_types_contains in E. contradiction.
Qed.

Lemma getComponentTags_component_types_witness :
  (In (VStr "segment") Endpoints.component_types ->
   Endpoints.getComponentTags with_files (VStr "s1") (VStr "segment")
                              world_empty =
     CJA.connector_getData with_files
       "https://cja.adobe.io/componentmetadata/tags/search"
       (VDict [(VStr "componentId", VStr "s1");
               (VStr "componentType", VStr "segment")]) world_empty) /\
  (~ In (VStr "segment") Endpoints.component_types ->
   Endpoints.getComponentTags with_files (VStr "s1") (VStr "segment")
                              world_empty =
     Some (Raise (KeyError (VStr "componentType not in the enum")),
           world_empty)).
Proof.
  apply (getComponentTags_component_types with_files (VStr "s1")
           (VStr "segment") world_empty); discriminate.
Defined.

(** X16. The query of [deleteTags] is keyed by the values of its
    arguments: the component type is filed under its own value and so are
    the component ids.  Unless the ids are themselves the text
    "componentType" or "componentIds", the query has no entry of either
    name. *)
Theorem deleteTags_query_is_keyed_by_values {S : Type}
  (P : CJA.platform S) (X : Endpoints.extension S)
  (componentIds componentType : value) (w : world S) :
  In componentType Endpoints.component_types ->
  componentIds <> VNone ->
  hashable componentIds = true ->
  exists params,
    Endpoints.deleteTags P X componentIds componentType w =
      Endpoints.connector_deleteData X
        (CJA.endpoint P ++ "/componentmetadata/tags")%string
        (VDict params) w /\
    dict_get params componentType = Some componentType /\
    dict_get params componentIds = Some componentIds /\
    (componentIds <> VStr "componentType" ->
     dict_get params (VStr "componentType") = None) /\
    (componentIds <> VStr "componentIds" ->
     dict_get params (VStr "componentIds") = None).
Proof.
  intros Hin Hid Hhash. unfold Endpoints.deleteTags.
  assert (H1 : Endpoints.is_none componentIds = false)
    by (destruct componentIds; try reflexivity; now elim Hid).
  assert (H2 : Endpoints.is_none componentType = false)
    by (destruct Hin as [<- | Hin]; [reflexivity | ];
        repeat (destruct Hin as [<- | Hin]; [reflexivity | ]);
        contradiction).
  rewrite H1, H2.
  rewrite (proj2 (component_types_contains componentType) Hin).
  assert (Hty : exists s, componentType = VStr s /\
                          s <> "componentType" /\ s <> "componentIds").
  { simpl in Hin.
    repeat (destruct Hin as [<- | Hin];
            [eexists; splits; [reflexivity | discriminate | discriminate]
            | ]).
    contradiction. }
  destruct Hty as (ty & -> & Hty1 & Hty2).
  unfold CJA.dict_store. simpl hashable. rewrite Hhash. simpl negb.
  cbv iota. simpl bind.
  exists (dict_set [(VStr ty, VStr ty)] componentIds componentIds).
  split; [reflexivity | ].
  assert (Hp : dict_set [(VStr ty, VStr ty)] componentIds componentIds =
               if py_eqb (VStr ty) componentIds
               then [(VStr ty, componentIds)]
               else [(VStr ty, VStr ty); (componentIds, componentIds)])
    by reflexivity.
  rewrite Hp. clear Hp.
  apply String.eqb_neq in Hty1, Hty2.
  destruct (py_eqb (VStr ty) componentIds) eqn:E; cbn [dict_get].
  - apply py_eqb_str_l in E. subst.
    rewrite !py_eqb_str, !String.eqb_refl, Hty1, Hty2. auto.
  - rewrite E, !py_eqb_str, String.eqb_refl, py_eqb_refl, Hty1, Hty2
      by auto.
    splits; auto; intros Hne.
    + destruct (py_eqb componentIds (VStr "componentType")) eqn:E2; auto.
      apply py_eqb_str_r in E2. contradiction.
    + destruct (py_eqb componentIds (VStr "componentIds")) eqn:E2; auto.
      apply py_eqb_str_r in E2. contradiction.
Qed.

Lemma deleteTags_query_is_keyed_by_values_witness :
  exists params,
    Endpoints.deleteTags with_files plain_extension (VStr "s1,s2")
                         (VStr "segment") world_empty =
      Endpoints.connector_deleteData plain_extension
        "https://cja.adobe.io/componentmetadata/tags" (VDict params)
        world_empty /\
    dict_get params (VStr "segment") = Some (VStr "segment") /\
    dict_get params (VStr "s1,s2") = Some (VStr "s1,s2") /\
    (VStr "s1,s2" <> VStr "componentType" ->
     dict_get params (VStr "componentType") = None) /\
    (VStr "s1,s2" <> VStr "componentIds" ->
     dict_get params (VStr "componentIds") = None).
Proof.
  apply (deleteTags_query_is_keyed_by_values with_files plain_extension
           (VStr "s1,s2") (VStr "segment") world_empty).
  - simpl. auto.
  - discriminate.
  - reflexivity.
Defined.

(** ** Payloads given as a file or as a dictionary *)

(** X17. [validateFilter], [updateFilter] and [updateDataView] cannot take
    their payload from a file.  Given a path that mentions ".json" they
    open the file, read its text and hand the text to [json.load], which
    wants a file: the call ends in [AttributeError], or in the error of
    opening the file, and nothing is sent. *)
Theorem json_path_is_never_sent {S : Type} (P : CJA.platform S)
  (X : Endpoints.extension S) (id path : string) (w : world S) :
  str_contains ".json" path = true ->
  let e := match Endpoints.read_text X path with
           | Ok _ => AttributeError
           | Raise e => e
           end in
  Endpoints.validateFilter P X (VStr path) w = Some (Raise e, w) /\
  Endpoints.updateFilter P X (VStr id) (VStr path) w = Some (Raise e, w) /\
  Endpoints.updateDataView P X (VStr id) (VStr path) w = Some (Raise e, w).
Proof.
  intros Hjson e.
  unfold Endpoints.validateFilter, Endpoints.updateFilter,
    Endpoints.updateDataView, Endpoints.json_or_file,
    Endpoints.load_json_text, Endpoints.fpath.
  simpl. rewrite Hjson. simpl. unfold e.
  destruct (Endpoints.read_text X path); splits; reflexivity.
Qed.

Lemma json_path_is_never_sent_witness :
  Endpoints.validateFilter with_files plain_extension (VStr "filter.json")
                           world_empty =
    Some (Raise AttributeError, world_empty) /\
  Endpoints.updateFilter with_files plain_extension (VStr "s1")
                         (VStr "filter.json") world_empty =
    Some (Raise AttributeError, world_empty) /\
  Endpoints.updateDataView with_files plain_extension (VStr "s1")
                           (VStr "filter.json") world_empty =
    Some (Raise AttributeError, world_empty).
Proof.
  apply (json_path_is_never_sent with_files plain_extension "s1"
           "filter.json" world_empty).
  reflexivity.
Defined.

(** X18. [createFilter], [createDataView] and [validateDataView] do take
    their payload from a file: given a path that mentions ".json" they
    post the JSON value the file holds, not the path. *)
Theorem json_path_is_read_and_posted {S : Type} (P : CJA.platform S)
  (path : string) (doc : value) (w : world S) :
  str_contains ".json" path = true ->
  CJA.read_json P path = Ok doc ->
  Endpoints.createFilter P (VStr path) w =
    CJA.connector_postData P (CJA.endpoint P ++ "/filters")%string
                           doc VNone w /\
  Endpoints.createDataView P (VStr path) w =
    CJA.connector_postData P
      (CJA.endpoint P ++ "/datagroups/dataviews/")%string doc VNone w /\
  Endpoints.validateDataView P (VStr path) w =
    CJA.connector_postData P
      (CJA.endpoint P ++ "/datagroups/dataviews/validate")%string
      doc VNone w.
Proof.
  intros Hjson Hread.
  unfold Endpoints.createFilter, Endpoints.createDataView,
    Endpoints.validateDataView, Endpoints.json_or_file,
    Endpoints.load_json_file.
  simpl. rewrite Hjson, Hread. splits; reflexivity.
Qed.

Lemma json_path_is_read_and_posted_witness :
  Endpoints.createFilter with_files (VStr "filter.json") world_empty =
    CJA.connector_postData with_files "https://cja.adobe.io/filters"
      (VDict [(VStr "name", VStr "Returning")]) VNone world_empty /\
  Endpoints.createDataView with_files (VStr "filter.json") world_empty =
    CJA.connector_postData with_files
      "https://cja.adobe.io/datagroups/dataviews/"
      (VDict [(VStr "name", VStr "Returning")]) VNone world_empty /\
  Endpoints.validateDataView with_files (VStr "filter.json") world_empty =
    CJA.connector_postData with_files
      "https://cja.adobe.io/datagroups/dataviews/validate"
      (VDict [(VStr "name", VStr "Returning")]) VNone world_empty.
Proof.
  apply (json_path_is_read_and_posted with_files "filter.json"
           (VDict [(VStr "name", VStr "Returning")]) world_empty);
    reflexivity.
Defined.

(** X19. A dictionary given as payload is sent as it is, unless it has a
    key ".json": the test meant to recognise a file name then takes the
    dictionary for a path, [open] refuses it with a [TypeError] and
    nothing is sent.  This holds for the six methods that take a
    dictionary or a file. *)
Theorem dictionary_payload_with_json_key {S : Type} (P : CJA.platform S)
  (X : Endpoints.extension S) (id : string) (d : pydict) (w : world S) :
  let data := VDict d in
  let url path := (CJA.endpoint P ++ path)%string in
  if dict_has d (VStr ".json") then
    Endpoints.createFilter P data w = Some (Raise TypeError, w) /\
    Endpoints.validateFilter P X data w = Some (Raise TypeError, w) /\
    Endpoints.updateFilter P X (VStr id) data w
      = Some (Raise TypeError, w) /\
    Endpoints.createDataView P data w = Some (Raise TypeError, w) /\
    Endpoints.validateDataView P data w = Some (Raise TypeError, w) /\
    Endpoints.updateDataView P X (VStr id) data w
      = Some (Raise TypeError, w)
  else
    Endpoints.createFilter P data w =
      CJA.connector_postData P (url "/filters") data VNone w /\
    Endpoints.validateFilter P X data w =
      CJA.connector_postData P (url "/filters/validate") data VNone w /\
    Endpoints.updateFilter P X (VStr id) data w =
      Endpoints.connector_putData X (url ("/filters/" ++ id)%string)
                                  data VNone w /\
    Endpoints.createDataView P data w =
      CJA.connector_postData P (url "/datagroups/dataviews/") data VNone
                             w /\
    Endpoints.validateDataView P data w =
      CJA.connector_postData P (url "/datagroups/dataviews/validate") data
                             VNone w /\
    Endpoints.updateDataView P X (VStr id) data w =
      Endpoints.connector_putData X (url ("/datagroups/dataviews/" ++ id)%string)
                                  data VNone w.
Proof.
  intros data url.
  unfold Endpoints.createFilter, Endpoints.validateFilter,
    Endpoints.updateFilter, Endpoints.createDataView,
    Endpoints.validateDataView, Endpoints.updateDataView,
    Endpoints.json_or_file, Endpoints.load_json_file,
    Endpoints.load_json_text, Endpoints.fpath.
  simpl. destruct (dict_has d (VStr ".json")); splits; reflexivity.
Qed.

(** ** The query of the top items *)

Section TopItems.

Lemma dict_get_when_str b k v p k' :
  dict_get (Endpoints.when b k v p) (VStr k') =
  if b && String.eqb k k' then Some v else dict_get p (VStr k').
Proof.
  unfold Endpoints.when. destruct b; simpl; auto. apply dict_get_set_str.
Qed.

Lemma dict_get_given_str k v p k' :
  dict_get (Endpoints.given k v p) (VStr k') =
  if negb (Endpoints.is_none v) && String.eqb k k' then Some v
  else dict_get p (VStr k').
Proof.
  unfold Endpoints.given. destruct (Endpoints.is_none v); simpl; auto.
  apply dict_get_set_str.
Qed.

End TopItems.

(** X20. Whatever optional arguments [getTopItems] is given, the query it
    sends carries the data id, the dimension and the limit of the call,
    "allowRemoteLoad" as the text "true" or "false", and the two flags as
    booleans.  A start date reaches the service only together with an end
    date: one without the other is dropped. *)
Theorem getTopItems_query {S : Type} (P : CJA.platform S)
  (a : Endpoints.topItems_args) (w : world S) :
  Endpoints.ti_dataId a <> VNone ->
  Endpoints.ti_dimension a <> VNone ->
  exists params,
    Endpoints.getTopItems P a w =
      CJA.connector_getData P (CJA.endpoint P ++ "/reports/topItems")%string
                            (VDict params) w /\
    dict_get params (VStr "dataId") = Some (Endpoints.ti_dataId a) /\
    dict_get params (VStr "dimension") = Some (Endpoints.ti_dimension a) /\
    dict_get params (VStr "limit") = Some (Endpoints.ti_limit a) /\
    dict_get params (VStr "allowRemoteLoad") =
      Some (VStr (if Endpoints.ti_remoteLoad a then "true" else "false")) /\
    dict_get params (VStr "includeOberonXml") =
      Some (VBool (Endpoints.ti_xml a)) /\
    dict_get params (VStr "lookupNoneValues") =
      Some (VBool (Endpoints.ti_noneValues a)) /\
    (dict_get params (VStr "startDate") =
       if Endpoints.is_none (Endpoints.ti_startDate a)
          || Endpoints.is_none (Endpoints.ti_endDate a)
       then None else Some (Endpoints.ti_startDate a)) /\
    (dict_get params (VStr "endDate") =
       if Endpoints.is_none (Endpoints.ti_startDate a)
          || Endpoints.is_none (Endpoints.ti_endDate a)
       then None else Some (Endpoints.ti_endDate a)).
Proof.
  intros Hid Hdim. unfold Endpoints.getTopItems.
  assert (H1 : Endpoints.is_none (Endpoints.ti_dataId a) = false)
    by (destruct (Endpoints.ti_dataId a); try reflexivity; now elim Hid).
  assert (H2 : Endpoints.is_none (Endpoints.ti_dimension a) = false)
    by (destruct (Endpoints.ti_dimension a); try reflexivity;
        now elim Hdim).
  rewrite H1, H2. eexists. split; [reflexivity | ].
  rewrite !dict_get_when_str, !dict_get_given_str.
  destruct (Endpoints.is_none (Endpoints.ti_startDate a)),
    (Endpoints.is_none (Endpoints.ti_endDate a)); simpl negb; simpl andb;
    cbv iota; rewrite ?dict_get_set_str, ?dict_get_given_str;
    simpl String.eqb; rewrite ?andb_false_r; cbv iota;
    destruct (Endpoints.ti_remoteLoad a), (Endpoints.ti_xml a),
      (Endpoints.ti_noneValues a); splits; reflexivity.
Qed.

(** A start date without an end date: neither is in the query. *)
Lemma getTopItems_query_witness :
  exists params,
    Endpoints.getTopItems with_files args_top_pages world_empty =
      CJA.connector_getData with_files
        "https://cja.adobe.io/reports/topItems" (VDict params)
        world_empty /\
    dict_get params (VStr "dataId") = Some (VStr "dv1") /\
    dict_get params (VStr "dimension") = Some (VStr "variables/page") /\
    dict_get params (VStr "limit") = Some (VInt 100) /\
    dict_get params (VStr "allowRemoteLoad") = Some (VStr "false") /\
    dict_get params (VStr "includeOberonXml") = Some (VBool false) /\
    dict_get params (VStr "lookupNoneValues") = Some (VBool true) /\
    dict_get params (VStr "startDate") = None /\
    dict_get params (VStr "endDate") = None.
Proof.
  apply (getTopItems_query with_files args_top_pages world_empty);
    discriminate.
Defined.

(** * More on the static decoder and on the listings of a data view *)

(** ** The names of the static rows *)

Section RowNames.

Context {S : Type} (P : CJA.platform S).

Hypothesis Hlookups : lookups_answer P.

Lemma static_rowNames_loop (ids : list string) :
  forall (names0 : list value) (w : world S),
  exists tail w' more,
    forM (fun names row =>
            r <- lift (CJA.as_str row) ;;
            if CJA.is_segment_id r then
              filter <- CJA.getFilter P r ;;
              name <- lift (subscript filter (VStr "name")) ;;
              ret (names ++ [name])
            else ret (names ++ [row]))%m names0 (map VStr ids) w =
      Some (Ok (names0 ++ tail), w') /\
    length tail = length ids /\
    heap w' = heap w /\
    calls w' = calls w ++ more /\
    map sent more = segment_lookups (CJA.endpoint P) ids /\
    (forall n id, nth_error ids n = Some id ->
       CJA.is_segment_id id = false -> nth_error tail n = Some (VStr id)).
Proof.
  induction ids as [ | id ids IH]; intros names0 w.
  - exists [], w, []. simpl. rewrite !app_nil_r. splits; auto.
    intros [ | n] id; discriminate.
  - cbn [map forM]. unfold segment_lookups. cbn [filter].
    destruct (CJA.is_segment_id id) eqn:Eseg.
    + destruct (Hlookups (srv w) (CJA.endpoint P ++ "/filters/" ++ id)%string
                         (VDict [])) as (d & name & s' & Hg & Hn).
      set (w1 := mkWorld (heap w) s'
                   (calls w ++
                    [mkExchange
                       (Get (CJA.endpoint P ++ "/filters/" ++ id)%string
                            (VDict [])) (Ok (VDict d))])).
      match goal with
      | |- exists _ _ _, bindM ?m _ _ = _ /\ _ =>
          assert (Hbody : m w = Some (Ok (names0 ++ [name]), w1))
      end.
      { unfold bindM, lift, ret, CJA.getFilter, CJA.connector_getData.
        simpl CJA.as_str. cbv iota. rewrite Eseg, Hg. simpl subscript.
        now rewrite Hn. }
      destruct (IH (names0 ++ [name]) w1)
        as (tail & w' & more & Hrun & Hlen & Hheap & Hcalls & Hsent & Hnth).
      exists (name :: tail), w',
        (mkExchange (Get (CJA.endpoint P ++ "/filters/" ++ id)%string
                         (VDict [])) (Ok (VDict d)) :: more).
      rewrite (bindM_ok _ _ _ _ _ Hbody), Hrun, <- app_assoc.
      simpl in *. rewrite Hcalls, <- app_assoc.
      splits; auto; try congruence.
      * unfold segment_lookups in Hsent. now rewrite Hsent.
      * intros [ | n] id' Hid' Hns; simpl in *.
        -- injection Hid' as <-. congruence.
        -- eauto.
    + match goal with
      | |- exists _ _ _, bindM ?m _ _ = _ /\ _ =>
          assert (Hbody : m w = Some (Ok (names0 ++ [VStr id]), w))
      end.
      { unfold bindM, lift, ret. simpl CJA.as_str. cbv iota.
        now rewrite Eseg. }
      destruct (IH (names0 ++ [VStr id]) w)
        as (tail & w' & more & Hrun & Hlen & Hheap & Hcalls & Hsent & Hnth).
      exists (VStr id :: tail), w', more.
      rewrite (bindM_ok _ _ _ _ _ Hbody), Hrun, <- app_assoc.
      simpl. splits; auto.
      intros [ | n] id' Hid' Hns; simpl in *.
      * now injection Hid' as <-.
      * eauto.
Qed.

End RowNames.

(** X21. To name the rows of a static table the decoder looks up, with
    [getFilter], the rows whose id looks like a segment id (it starts with
    "s" and mentions "@AdobeOrg") and no other: one GET per such row, in
    the order of the rows, and a row of any other id keeps its id as its
    name. *)
Theorem static_rowNames_looks_up_segments_only {S : Type}
  (P : CJA.platform S) (ids : list string) (w : world S) :
  lookups_answer P ->
  exists names w' more,
    CJA.static_rowNames P (map VStr ids) w = Some (Ok names, w') /\
    length names = length ids /\
    heap w' = heap w /\
    calls w' = calls w ++ more /\
    map sent more = segment_lookups (CJA.endpoint P) ids /\
    (forall n id, nth_error ids n = Some id ->
       CJA.is_segment_id id = false -> nth_error names n = Some (VStr id)).
Proof.
  intros Hlookups.
  destruct (static_rowNames_loop P Hlookups ids [] w)
    as (tail & w' & more & Hrun & H).
  exists tail, w', more. split; [exact Hrun | exact H].
Qed.

(** Three rows, one of them a segment: one lookup. *)
Lemma static_rowNames_looks_up_segments_only_witness :
  exists names w' more,
    CJA.static_rowNames scripted (map VStr static_rows_mixed) world_empty =
      Some (Ok names, w') /\
    length names = 3 /\
    heap w' = [] /\
    calls w' = [] ++ more /\
    map sent more =
      [Get "https://cja.adobe.io/filters/s300_abc@AdobeOrg" (VDict [])] /\
    (forall n id, nth_error static_rows_mixed n = Some id ->
       CJA.is_segment_id id = false -> nth_error names n = Some (VStr id)).
Proof.
  apply (static_rowNames_looks_up_segments_only scripted static_rows_mixed
           world_empty).
  exact scripted_lookups_answer.
Defined.

(** ** The lookups of a report are the public methods

    [getReport] resolves a segment with [getFilter(id)] and a calculated
    metric with [getCalculatedMetric(id)], each at the defaults of its
    signature. *)
Lemma report_lookups_are_the_public_methods {S : Type}
  (P : CJA.platform S) (id : string) (w : world S) :
  Endpoints.getFilter P (VStr id) false w = CJA.getFilter P id w /\
  Endpoints.getCalculatedMetric P (VStr id) true w =
    CJA.getCalculatedMetric P id w.
Proof. split; reflexivity. Qed.

(** ** The listing of the dimensions *)

(** X22. [getDimensions] sends one GET for the data view.  Its query has
    the entry "includeType" only when [inclType] is "hidden" (any other
    value is dropped) and the entry "expansion" only when [full] is set.
    It returns the "content" of the answer, or an empty list when the
    answer has none; [getMetrics], with the same query, returns the answer
    itself. *)
Theorem getDimensions_listing {S : Type} (P : CJA.platform S)
  (id : string) (full : bool) (inclType : value) (output : string)
  (w : world S) :
  exists params,
    dict_get params (VStr "includeType") =
      (if py_eqb inclType (VStr "hidden") then Some (VStr "hidden")
       else None) /\
    dict_get params (VStr "expansion") =
      (if full then Some (VStr Endpoints.dimension_expansion) else None) /\
    Endpoints.getMetrics P (VStr id) full inclType w =
      CJA.connector_getData P
        (CJA.endpoint P ++ "/datagroups/data/" ++ id ++ "/metrics")%string
        (VDict params) w /\
    forall d s',
      let url :=
        (CJA.endpoint P ++ "/datagroups/data/" ++ id ++ "/dimensions")%string
      in
      let content := match dict_get d (VStr "content") with
                     | Some c => c
                     | None => VList []
                     end in
      CJA.getData P (srv w) url (VDict params) = (Ok (VDict d), s') ->
      Endpoints.getDimensions P (VStr id) full inclType output w =
        Some (Ok (as_output "df" output content content),
              mkWorld (heap w) s'
                (calls w ++
                 [mkExchange (Get url (VDict params)) (Ok (VDict d))])).
Proof.
  eexists. splits.
  3: reflexivity.
  - rewrite dict_get_when_str, String.eqb_refl, andb_true_r.
    destruct (py_eqb inclType (VStr "hidden")); [reflexivity | ].
    now rewrite dict_get_when_str, andb_false_r.
  - rewrite !dict_get_when_str. simpl String.eqb.
    rewrite andb_false_r, andb_true_r.
    now destruct full.
  - intros d s' url content Hget.
    unfold Endpoints.getDimensions.
    change (Endpoints.is_none (VStr id)) with false. cbv iota.
    cbn [py_format].
    rewrite (bindM_lift_ok _ id _ _ eq_refl).
    rewrite (bindM_ok _ _ _ _ _ (getData_ok P _ _ w _ _ Hget)).
    unfold as_output, py_get, bindM, lift, ret. simpl hashable. cbv iota.
    fold content. now destruct (String.eqb output "df").
Qed.

(** [inclType = "all"] is dropped, and an answer without "content" gives
    an empty listing. *)
Lemma getDimensions_listing_witness :
  exists params,
    dict_get params (VStr "includeType") = None /\
    dict_get params (VStr "expansion") = None /\
    Endpoints.getMetrics with_files (VStr "dv1") false (VStr "all")
                         world_empty =
      CJA.connector_getData with_files
        "https://cja.adobe.io/datagroups/data/dv1/metrics" (VDict params)
        world_empty /\
    Endpoints.getDimensions with_files (VStr "dv1") false (VStr "all")
                            "raw" world_empty =
      Some (Ok (Endpoints.Json (VList [])),
            mkWorld [] []
              [mkExchange
                 (Get "https://cja.adobe.io/datagroups/data/dv1/dimensions"
                      (VDict params)) (Ok (VDict []))]).
Proof.
  destruct (getDimensions_listing with_files "dv1" false (VStr "all") "raw"
              world_empty) as (params & H1 & H2 & H3 & H4).
  exists params. splits; auto.
  apply (H4 [] []). reflexivity.
Defined.

(** ** Requests that are not requests *)

(** X23. [getReport] called without a request raises [TypeError] (the test
    [".json" in request] is applied to [None]), not the [ValueError] it
    keeps for a wrong request; a string that does not mention ".json"
    raises that [ValueError]; a dictionary with a key ".json" is taken for
    a path and [open] raises [TypeError].  In the three cases nothing is
    sent and nothing is written. *)
Theorem getReport_rejected_requests {S : Type} (P : CJA.platform S)
  (fuel : nat) (a : CJA.report_args) (path : string) (l : loc)
  (d : pydict) (w : world S) :
  CJA.getReport P fuel CJA.ReqNone a w = Some (Raise TypeError, w) /\
  (str_contains ".json" path = false ->
   CJA.getReport P fuel (CJA.ReqPath path) a w =
     Some (Raise (ValueError "Require a JSON or Dictionary to request data"),
           w)) /\
  (nth_error (heap w) l = Some (VDict d) ->
   dict_has d (VStr ".json") = true ->
   CJA.getReport P fuel (CJA.ReqRef l) a w = Some (Raise TypeError, w)).
Proof.
  unfold CJA.getReport. splits.
  - reflexivity.
  - intros Hp. simpl. unfold bindM. now rewrite Hp.
  - intros Hl Hd. simpl. unfold bindM, load. now rewrite Hl, Hd.
Qed.

Lemma getReport_rejected_requests_witness :
  CJA.getReport scripted 10 CJA.ReqNone CJA.default_args world_json_key =
    Some (Raise TypeError, world_json_key) /\
  CJA.getReport scripted 10 (CJA.ReqPath "report.txt") CJA.default_args
                world_json_key =
    Some (Raise (ValueError "Require a JSON or Dictionary to request data"),
          world_json_key) /\
  CJA.getReport scripted 10 (CJA.ReqRef 0) CJA.default_args world_json_key =
    Some (Raise TypeError, world_json_key).
Proof.
  destruct (getReport_rejected_requests scripted 10 CJA.default_args
              "report.txt" 0 [(VStr ".json", VBool true)] world_json_key)
    as (H1 & H2 & H3).
  splits; [exact H1 | apply H2 | apply H3]; reflexivity.
Defined.
